(** * Techno-economic analysis of a barrier-film value chain

    A shallow embedding of [Technology.py] and [Scenario.py].

    Modelling conventions.
    - A pandas DataFrame is the list of its rows, in row order; duplicate rows
      are kept.  A Series or a numpy array is the list of its values.
    - Python and numpy floats are idealised as exact rationals ([Q]); numeric
      results are compared with [==].  Division by zero (numpy: inf or nan) is
      outside the model: [Q]'s total division is used, and every theorem that
      relies on the value of a quotient states that its denominator is not
      zero.
    - The missing value (NaN) a left merge produces is [None] in [val];
      [Series.sum()] skips it, Python's builtin [sum] propagates it.
    - [sys.exit] and the exceptions pandas, numpy and Python raise are values
      of [error]; the shared financial table is threaded through a state and
      error monad in which the table survives an error, as it does in Python.
*)

From Stdlib Require Import QArith Qpower ZArith List String Bool Lia Setoid Morphisms.
Import ListNotations.

Local Open Scope string_scope.
Local Open Scope Q_scope.

(** ** Tables *)

Module Design.
  (** A row of the [Design] sheet. *)
Record row : Type := mk
    { Technology : string; Variable_ : string; Index : string; Value : Q }.
End Design.

Module Finan.
  (** A row of the [Financial] sheet, shared by all technologies. *)
Record row : Type := mk
    { Category : string; Variable_ : string; Index : string; Value : Q }.

Definition set_Value (v : Q) (r : row) : row :=
    mk (Category r) (Variable_ r) (Index r) v.
End Finan.

Module Struct.
  (** A row of the [Structure] sheet. *)
Record row : Type := mk { Technology : string; Downstream : string }.
End Struct.

Definition design_table := list Design.row.
Definition finan_table := list Finan.row.
Definition struct_table := list Struct.row.

(** ** Errors and results *)

Inductive error : Type :=
| TechnologyNotFound (name : string)
    (* sys.exit(f'Technology {name} not found in design dataset.') *)
| ProductNotFound (product name : string)
    (* sys.exit(f'Product {product} not found in technology {name} ...') *)
| IndexError          (* [.values[0]] on an empty selection *)
| KeyError (key : string)   (* [products[key]] on a missing key *)
| ValueError          (* shapes that numpy refuses; [pd.concat] of nothing *)
| FromDictError       (* [DataFrame.from_dict] given a row of the wrong
                         width: an AssertionError or a ValueError, depending
                         on the version of pandas *)
| UnboundLocalError.  (* a local read before any assignment *)

Inductive result (A : Type) : Type :=
| Ok (a : A)
| Raise (e : error).
Arguments Ok {A} a.
Arguments Raise {A} e.

Definition rbind {A B} (r : result A) (k : A -> result B) : result B :=
  match r with
  | Ok a => k a
  | Raise e => Raise e
  end.

Declare Scope result_scope.
Delimit Scope result_scope with result.
Notation "'let?' x ':=' c 'in' k" := (rbind c (fun x => k))
  (at level 10, x pattern, c at level 100, k at level 200) : result_scope.
Local Open Scope result_scope.

(** The state and error monad of the shared financial table. *)
Definition M (A : Type) : Type := finan_table -> result A * finan_table.

Definition ret {A} (a : A) : M A := fun fin => (Ok a, fin).
Definition raise {A} (e : error) : M A := fun fin => (Raise e, fin).
Definition bind {A B} (m : M A) (k : A -> M B) : M B :=
  fun fin =>
    match m fin with
    | (Ok a, fin') => k a fin'
    | (Raise e, fin') => (Raise e, fin')
    end.
Definition get : M finan_table := fun fin => (Ok fin, fin).
Definition modify (f : finan_table -> finan_table) : M unit :=
  fun fin => (Ok tt, f fin).
Definition lift {A} (r : result A) : M A := fun fin => (r, fin).

Declare Scope M_scope.
Delimit Scope M_scope with M.
Notation "x <- c ;; k" := (bind c (fun x => k))
  (at level 100, c at next level, right associativity) : M_scope.
Notation "c ;;; k" := (bind c (fun _ => k))
  (at level 100, right associativity) : M_scope.

(** ** Values, sums and broadcasting *)

(** A float that may be the missing value NaN. *)
Definition val : Type := option Q.

Definition vlift2 (f : Q -> Q -> Q) (a b : val) : val :=
  match a, b with
  | Some x, Some y => Some (f x y)
  | _, _ => None
  end.
Definition vmul := vlift2 Qmult.
Definition vdiv := vlift2 Qdiv.
Definition vadd := vlift2 Qplus.

(** Python's builtin [sum]: [0 + x1 + x2 + ...], left to right. *)
Definition py_sum (l : list Q) : Q := fold_left Qplus l 0.
Definition py_sum_val (l : list val) : val := fold_left vadd l (Some 0).

(** [Series.sum()]: missing values are skipped. *)
Definition pd_sum (l : list Q) : Q := fold_left Qplus l 0.
Definition dropna (l : list val) : list Q :=
  flat_map (fun v => match v with Some q => [q] | None => [] end) l.
Definition pd_sum_val (l : list val) : Q := pd_sum (dropna l).

(** [range(n)] for a Python int [n]: empty when [n <= 0]. *)
Definition range (n : Z) : list Z := map Z.of_nat (seq 0 (Z.to_nat n)).

(** [series `op` array]: numpy broadcasts the two value vectors and pandas
    wraps the outcome with the index of the Series, so the array must be as
    long as the Series or hold one element. *)
Definition series_array {A B C} (f : A -> B -> C) (s : list A) (a : list B)
  : result (list C) :=
  if Nat.eqb (List.length a) (List.length s) then Ok (map (fun p => f (fst p) (snd p)) (combine s a))
  else match a with
       | [x] => Ok (map (fun y => f y x) s)
       | _ => Raise ValueError
       end.

(** [array `op` array] under numpy broadcasting. *)
Definition array_array (f : Q -> Q -> Q) (a b : list Q) : result (list Q) :=
  if Nat.eqb (List.length a) (List.length b) then Ok (map (fun p => f (fst p) (snd p)) (combine a b))
  else match a, b with
       | [x], _ => Ok (map (fun y => f x y) b)
       | _, [y] => Ok (map (fun x => f x y) a)
       | _, _ => Raise ValueError
       end.

(** A value of the dict given to [DataFrame.from_dict(orient='index',
    columns=['Value'])]: an array there is one row of the frame and must
    hold exactly one element, for the single column. *)
Definition one_column {A} (a : list A) : result A :=
  match a with
  | [x] => Ok x
  | _ => Raise FromDictError
  end.

(** [a.values[0]] *)
Definition values0 {A} (a : list A) : result A :=
  match a with
  | x :: _ => Ok x
  | [] => Raise IndexError
  end.

(** ** Merges on the [Index] column *)

Section Merge.
Context {A B : Type}.

  (** [left.merge(right, on='Index')]: an inner join that keeps the order of
      the left rows and, for each of them, the order of the matching right
      rows. *)
Definition merge (left : list (string * A)) (right : list (string * B))
    : list (string * A * B) :=
    flat_map (fun l =>
      map (fun r => (fst l, snd l, snd r))
          (filter (fun r => fst r =? fst l) right)) left.

  (** [left.merge(right, on='Index', how='left')]: a left row without a
      match is kept, with a missing right value. *)
Definition merge_left (left : list (string * A)) (right : list (string * B))
    : list (string * A * option B) :=
    flat_map (fun l =>
      match filter (fun r => fst r =? fst l) right with
      | [] => [(fst l, snd l, None)]
      | rs => map (fun r => (fst l, snd l, Some (snd r))) rs
      end) left.
End Merge.

(** [df[['Index','Value']].loc[cond]] on the two kinds of table. *)
Definition design_iv (cond : Design.row -> bool) (d : design_table)
  : list (string * Q) :=
  map (fun r => (Design.Index r, Design.Value r)) (filter cond d).
Definition finan_iv (cond : Finan.row -> bool) (f : finan_table)
  : list (string * Q) :=
  map (fun r => (Finan.Index r, Finan.Value r)) (filter cond f).
(** [finan.Value.loc[cond].values] *)
Definition finan_values (cond : Finan.row -> bool) (f : finan_table) : list Q :=
  map Finan.Value (filter cond f).

Definition isin (s : string) (l : list string) : bool :=
  existsb (fun x => x =? s) l.

(** ** Technology.py *)

Module Technology.

  (** A row of [output_amounts]: columns [Index], [Actual], [Theoretical]. *)
Record output_row : Type := mk_output
    { Index : string; Actual : Q; Theoretical : Q }.

  (** A frame with a label column and a [Value] column. *)
Definition frame : Type := list (string * val).

Definition Values (f : frame) : list val := map snd f.

  (** The attributes of a [Technology] object.  [finan] is the content of the
      shared financial table when [__init__] returns. *)
Record t : Type := mk
    { name : string;
      output : Q;
      design : design_table;
      product : string;
      finan : finan_table;
      op_hrs_yr : list Q;
      onetime_costs : frame;
      annual_costs : frame;
      output_amounts : list output_row;
      normalized_costs : frame;
      annual_revenue : frame;
      normalized_revenue : frame;
      net_normalized_costs : Q;
      production_cost : Q }.

  (** [tech.name = n], as [Scenario] does for display. *)
Definition set_name (n : string) (x : t) : t :=
    mk n (output x) (design x) (product x) (finan x) (op_hrs_yr x)
       (onetime_costs x) (annual_costs x) (output_amounts x)
       (normalized_costs x) (annual_revenue x) (normalized_revenue x)
       (net_normalized_costs x) (production_cost x).

Section Methods.
    (** [self.name], [self.design], [self.finan], [self.op_hrs_yr],
        [self.product] *)
Variable name : string.
Variable design : design_table.
Variable finan : finan_table.
Variable op_hrs_yr : list Q.

Definition design_var (v : string) : list (string * Q) :=
      design_iv (fun r => Design.Variable_ r =? v) design.
Definition finan_var (v : string) : list (string * Q) :=
      finan_iv (fun r => Finan.Variable_ r =? v) finan.

    (** [capital]: one-time costs first, annual(ized) costs second. *)
Definition capital : result (frame * frame) :=
      let _cap_cost := merge_left (design_var "Capital scale") (finan_var "Capital") in
      let purch : list val :=
        map (fun c => vmul (Some (snd (fst c))) (snd c)) _cap_cost in
      let? installed :=
        series_array (fun p i => vmul (Some (1 + i)) p) purch
          (finan_values (fun r => Finan.Index r =? "Installation") finan) in
      let _cap_ann :=
        merge (combine (map (fun c => fst (fst c)) _cap_cost) installed)
              (design_var "Capital depreciation") in
      let cost_ann := map (fun c => vdiv (snd (fst c)) (Some (snd c))) _cap_ann in
      let? _maint_ann :=
        series_array (fun p m => vmul (Some m) p) purch
          (finan_values (fun r => Finan.Index r =? "Maintenance") finan) in
      Ok ([("Capital Purchased", py_sum_val purch);
           ("Capital Installed", py_sum_val installed)],
          [("Capital, Annualized", py_sum_val cost_ann);
           ("Maintenance", py_sum_val _maint_ann)]).

    (** The merge of the non-contingency inputs with their unit prices, and
        the hourly cost of each: [(Index, Value_x * Value_y)]. *)
Definition input_costs : list (string * Q) :=
      map (fun m => (fst (fst m), snd (fst m) * snd m))
        (merge
           (design_iv (fun r => (Design.Variable_ r =? "Input")
                                && negb (Design.Index r =? "Contingency")) design)
           (finan_var "Input")).

    (** [scalar * self.op_hrs_yr] as one row of a one-column frame. *)
Definition times_op_hrs (x : Q) : result val :=
      let? v := one_column (map (fun h => x * h) op_hrs_yr) in Ok (Some v).

Definition raw_material : result frame :=
      let cost := input_costs in
      if negb (name =? "Landfilling") then
        let? rm := times_op_hrs
          (pd_sum (map snd (filter (fun c => negb (fst c =? "Barrier film")) cost))) in
        let? bf := times_op_hrs
          (pd_sum (map snd (filter (fun c => fst c =? "Barrier film") cost))) in
        Ok [("Raw Material", rm); ("Barrier Film", bf)]
      else
        Ok [("Raw Material", Some 0.0); ("Barrier Film", Some 0.0)].

Definition labor : result frame :=
      let _labor := merge (design_var "Labor") (finan_var "Labor") in
      let cost := map (fun m => snd (fst m) * snd m) _labor in
      let _work_hrs :=
        finan_values (fun r => Finan.Variable_ r =? "Working Hours") finan in
      let _burden :=
        finan_values (fun r => (Finan.Category r =? "Cost Multiplier")
                               && (Finan.Variable_ r =? "Labor")) finan in
      let? a := array_array Qmult
                  (map (fun w => pd_sum cost * w) _work_hrs)
                  (map (fun b => 1 + b) _burden) in
      let? v := one_column a in
      Ok [("Labor", Some v)].

Definition utilities : result frame :=
      let _util := merge (design_var "Utilities") (finan_var "Utilities") in
      let cost := map (fun m => snd (fst m) * snd m) _util in
      let? v := times_op_hrs (pd_sum cost) in
      Ok [("Utilities", v)].

Definition wastes : result frame :=
      let _waste := merge (design_var "Output") (design_var "Output efficiency") in
      let _tip_fee :=
        finan_values (fun r => Finan.Index r =? "Waste disposal") finan in
      let? fee_x := series_array (fun x fee => fee * x)
                      (map (fun w => snd (fst w)) _waste) _tip_fee in
      let cost := map (fun p => fst p * (1 - snd p))
                      (combine fee_x (map (fun w => snd w) _waste)) in
      if negb (name =? "Landfilling") then
        let? v := times_op_hrs (pd_sum cost) in
        Ok [("Waste Disposal", v)]
      else
        let? v := times_op_hrs (pd_sum (map snd input_costs)) in
        Ok [("Waste disposal", v)].

Definition other_costs : result frame :=
      let _contin :=
        merge (design_iv (fun r => Design.Index r =? "Contingency") design)
              (finan_iv (fun r => Finan.Index r =? "Contingency") finan) in
      match _contin with
      | [] => Ok [("Contingency", Some 0.0)]
      | _ =>
        let? v := series_array (fun xy h => xy * h)
                    (map (fun c => snd (fst c) * snd c) _contin) op_hrs_yr in
        Ok (combine (map (fun c => fst (fst c)) _contin) (map Some v))
      end.

    (** [production]: the columns [Actual] and [Theoretical] are both
        broadcast against [op_hrs_yr]; the two products have the same shape,
        so one broadcast builds the row. *)
Definition production : result (list output_row) :=
      if existsb (fun r => Design.Variable_ r =? "Output efficiency") design then
        let out := merge (design_var "Output") (design_var "Output efficiency") in
        series_array
          (fun o h => mk_output (fst (fst o))
                        (snd (fst o) * snd o * h) (snd (fst o) * h))
          out op_hrs_yr
      else
        let out := design_var "Output" in
        series_array
          (fun o h => mk_output (fst o) (snd o * h) (snd o * h))
          out op_hrs_yr.

    (** The body shared by [coproduct_revenue] and [product_revenue], which
        differ in the rows of [output_amounts] they select. *)
Definition revenue_of (_out : list output_row) : frame :=
      match _out with
      | [] => []
      | _ =>
        map (fun r => (fst (fst r), vmul (snd r) (Some (Actual (snd (fst r))))))
          (merge_left (map (fun o => (Index o, o)) _out) (finan_var "Output"))
      end.

Definition coproduct_revenue (product : string)
        (output_amounts : list output_row) : frame :=
      revenue_of (filter (fun o => negb (Index o =? product)) output_amounts).

Definition product_revenue (product : string)
        (output_amounts : list output_row) : frame :=
      revenue_of (filter (fun o => Index o =? product) output_amounts).
End Methods.

  (** The input-cost rows a non-initial instance sets to zero. *)
Definition is_strap_input (r : Finan.row) : bool :=
    (Finan.Category r =? "Cost") && (Finan.Variable_ r =? "Input")
    && isin (Finan.Index r) ["Nylon 6"; "Polyethylene"].

  (** [finan.loc[cond, 'Value'] = v] *)
Definition loc_set_Value (cond : Finan.row -> bool) (v : Q)
      (f : finan_table) : finan_table :=
    map (fun r => if cond r then Finan.set_Value v r else r) f.

Definition zero_strap_inputs : finan_table -> finan_table :=
    loc_set_Value is_strap_input 0.0.

Definition div_Value (d : Q) (f : frame) : frame :=
    map (fun r => (fst r, vdiv (snd r) (Some d))) f.

  (** Everything [__init__] computes after the two checks and the update of
      the financial table; [fin] is the table at that point. *)
Definition evaluate (name product : string) (self_design : design_table)
      (output : Q) (fin : finan_table) : result t :=
    let op_hrs_yr :=
      finan_values (fun r => Finan.Variable_ r =? "Operating Hours") fin in
    let? cap0 := capital self_design fin in
    let onetime_costs := fst cap0 in
    let? cap1 := capital self_design fin in
    let? rm := raw_material name self_design fin op_hrs_yr in
    let? lb := labor self_design fin in
    let? ut := utilities self_design fin op_hrs_yr in
    let? ws := wastes name self_design fin op_hrs_yr in
    let? oc := other_costs self_design fin op_hrs_yr in
    let annual_costs := (snd cap1 ++ rm ++ lb ++ ut ++ ws ++ oc)%list in
    let? output_amounts := production self_design op_hrs_yr in
    let? actual0 := values0 (map Actual output_amounts) in
    let normalized_costs := div_Value actual0 annual_costs in
    let annual_revenue :=
      if negb (isin name ["Barrier Film"; "Mechanical and Solvent Cleaning";
                          "Solvent Treatment and Precipitation"])
      then product_revenue fin product output_amounts
      else coproduct_revenue fin product output_amounts in
    let normalized_revenue := div_Value actual0 annual_revenue in
    let net_normalized_costs :=
      pd_sum_val (Values normalized_costs)
      - pd_sum_val (Values normalized_revenue) in
    Ok (mk name output self_design product fin op_hrs_yr onetime_costs
           annual_costs output_amounts normalized_costs annual_revenue
           normalized_revenue net_normalized_costs
           (output * net_normalized_costs)).

  (** [Technology(name, product, design_data, financial_data, initial,
      output)], with [financial_data] the table held in the state. *)
Definition __init__ (name product : string) (design_data : design_table)
      (initial : bool) (output : Q) : M t :=
    (let self_design :=
       filter (fun r => Design.Technology r =? name) design_data in
     match self_design with
     | [] => raise (TechnologyNotFound name)
     | _ =>
       if negb (existsb (fun i => isin i [product])
                  (map Design.Index
                     (filter (fun r => Design.Variable_ r =? "Output") self_design)))
       then raise (ProductNotFound product name)
       else
         (if negb initial then modify zero_strap_inputs else ret tt) ;;;
         fin <- get ;;
         lift (evaluate name product self_design output fin)
     end)%M.

End Technology.

(** ** Scenario.py *)

Module Scenario.

  (** An item of [eol_sc]: the technology name, and the list
      [[fraction, number of cycles]].  A dict is the list of its items in
      insertion order; its keys are distinct. *)
Definition eol_item : Type := string * (Q * Z).

  (** [d[key]] *)
Fixpoint getitem {A} (d : list (string * A)) (key : string) : result A :=
    match d with
    | [] => Raise (KeyError key)
    | (k, v) :: d' => if k =? key then Ok v else getitem d' key
    end.

  (** [design[['Technology','Value']].loc[(design.Technology == key) &
      (design.Variable == 'Output efficiency')].Value.values[0]] *)
Definition output_efficiency (design : design_table) (key : string)
    : result Q :=
    values0 (map Design.Value
      (filter (fun r => (Design.Technology r =? key)
                        && (Design.Variable_ r =? "Output efficiency")) design)).

  (** [struct.Downstream.loc[struct.Technology == key].values[0]] *)
Definition downstream (struct : struct_table) (key : string) : result string :=
    values0 (map Struct.Downstream
      (filter (fun r => Struct.Technology r =? key) struct)).

  (** The replacement of design values by the rows of [sens_df]. *)
Definition apply_sens (sens_df : option design_table) (design : design_table)
    : design_table :=
    match sens_df with
    | None => design
    | Some rows =>
      fold_left (fun d row =>
        map (fun r =>
          if (Design.Index r =? Design.Index row)
             && (Design.Technology r =? Design.Technology row)
             && (Design.Variable_ r =? Design.Variable_ row)
          then Design.mk (Design.Technology r) (Design.Variable_ r)
                         (Design.Index r) (Design.Value row)
          else r) d) rows design
    end.

  (** The locals of the first loop.  [_downst] and [_eff_downst] are bound
      only once the solvent-treatment branch has run. *)
Record locals : Type := mk_locals
    { _virg_prod : Q;
      _prod_masc : Q;
      _prod_strap : Q;
      _prod_amt : Q;
      _downst : option string;
      _eff_downst : option Q }.

Definition init_locals : locals := mk_locals 0.0 0.0 0.0 0.0 None None.

  (** [sum([r**i for i in range(n+1)])] *)
Definition cycle_sum (r : Q) (n : Z) : Q :=
    py_sum (map (fun i => r ^ i) (range (n + 1))).

  (** [sum([f * func_unit * r**i / (1 + sum([...])) for i in range(n+1)])] *)
Definition loop_throughput (f func_unit r : Q) (n : Z) : Q :=
    py_sum (map (fun i => f * func_unit * r ^ i / (1 + cycle_sum r n))
                (range (n + 1))).

Section Loops.
Variable design : design_table.
Variable struct : struct_table.
Variable products : list (string * string).
Variable func_unit : Q.

    (** The body of the first loop over [eol_sc.items()]. *)
Definition balance_step (l : locals) (item : eol_item) : result locals :=
      let key := fst item in
      let? _recyc_eff := output_efficiency design key in
      let _eol_frac := fst (snd item) in
      let _n_cycles := snd (snd item) in
      if key =? "Mechanical and Solvent Cleaning" then
        Ok (mk_locals
              (_eol_frac * func_unit / (1 + cycle_sum _recyc_eff _n_cycles))
              (loop_throughput _eol_frac func_unit _recyc_eff _n_cycles)
              (_prod_strap l) (_prod_amt l) (_downst l) (_eff_downst l))
      else if key =? "Solvent Treatment and Precipitation" then
        let? downst := downstream struct key in
        let? eff_downst := output_efficiency design downst in
        Ok (mk_locals
              (_eol_frac * func_unit
               / (1 + cycle_sum (eff_downst * _recyc_eff) _n_cycles))
              (_prod_masc l)
              (loop_throughput _eol_frac func_unit (eff_downst * _recyc_eff)
                 _n_cycles)
              (_prod_amt l) (Some downst) (Some eff_downst))
      else
        Ok (mk_locals func_unit (_prod_masc l) (_prod_strap l)
              (_prod_amt l + func_unit * _eol_frac) (_downst l) (_eff_downst l)).

Fixpoint balance_loop (l : locals) (eol_sc : list eol_item) : result locals :=
      match eol_sc with
      | [] => Ok l
      | item :: rest => let? l' := balance_step l item in balance_loop l' rest
      end.

    (** What the second loop assigns: the value chain, two attributes and
        the local [_film_to_landfill]; [None] is "not assigned yet". *)
Record chain_state : Type := mk_chain
      { st_value_chain : list Technology.t;
        st_eol_film_prod : option Q;
        st_eol_polyethylene_prod : option Q;
        _film_to_landfill : option Q }.

    (** Reading a local of the first loop. *)
Definition local {A} (x : option A) : M A :=
      match x with
      | Some a => ret a
      | None => raise UnboundLocalError
      end.

    (** The end of the body of the second loop: the final landfilling step. *)
Definition final_landfill_step (chain : list Technology.t)
        (film prod_pe ftl : Q) : M chain_state :=
      (if negb (Qeq_bool ftl 0.0) then
         _final_landfill <- Technology.__init__ "Landfilling" "Landfilled waste"
                              design true ftl ;;
         ret (mk_chain
                (chain ++ [Technology.set_name "Landfilling, final" _final_landfill])
                (Some film) (Some prod_pe) (Some ftl))
       else
         ret (mk_chain chain (Some film) (Some prod_pe) (Some ftl)))%M.

    (** The body of the second loop. *)
Definition chain_step (l : locals) (st : chain_state) (item : eol_item)
      : M chain_state :=
      (let key := fst item in
       let _eol_frac := fst (snd item) in
       let _n_cycles := snd (snd item) in
       _recyc_eff <- lift (output_efficiency design key) ;;
       if key =? "Mechanical and Solvent Cleaning" then
         p <- lift (getitem products key) ;;
         tech <- Technology.__init__ key p design true (_prod_masc l) ;;
         final_landfill_step (st_value_chain st ++ [tech])
           (_prod_masc l) 0.0
           (_virg_prod l * _eol_frac * _recyc_eff ^ _n_cycles)
       else if key =? "Solvent Treatment and Precipitation" then
         p <- lift (getitem products key) ;;
         eff_downst <- local (_eff_downst l) ;;
         tech <- Technology.__init__ key p design true
                   (0.7 * _prod_strap l / eff_downst) ;;
         downst <- local (_downst l) ;;
         _downst_film <- Technology.__init__ downst "Barrier film" design false
                           (_prod_strap l) ;;
         modify (Technology.loc_set_Value
                   (fun r => Finan.Index r =? "Barrier film")
                   (Technology.net_normalized_costs _downst_film)) ;;;
         final_landfill_step (st_value_chain st ++ [tech] ++ [_downst_film])
           (_prod_strap l) (0.7 * _prod_strap l / eff_downst)
           (_virg_prod l * _eol_frac * (_recyc_eff * eff_downst) ^ _n_cycles)
       else
         p <- lift (getitem products key) ;;
         tech <- Technology.__init__ key p design true (func_unit * _eol_frac) ;;
         final_landfill_step (st_value_chain st ++ [tech])
           (func_unit * _eol_frac) 0.0
           (if negb (isin key ["Landfilling"; "Incineration"; "Pyrolysis"])
            then _virg_prod l * _eol_frac * _recyc_eff
            else 0.0))%M%list.

Fixpoint chain_loop (l : locals) (st : chain_state) (eol_sc : list eol_item)
      : M chain_state :=
      match eol_sc with
      | [] => ret st
      | item :: rest =>
        (st' <- chain_step l st item ;; chain_loop l st' rest)%M
      end.
End Loops.

  (** [{i.name: i.production_cost for i in value_chain}]: a later instance
      of a name replaces the value and keeps the place of the first. *)
Fixpoint dict_set (d : list (string * Q)) (k : string) (v : Q)
    : list (string * Q) :=
    match d with
    | [] => [(k, v)]
    | (k', v') :: d' =>
      if k' =? k then (k', v) :: d' else (k', v') :: dict_set d' k v
    end.

Definition production_costs_by_name (chain : list Technology.t)
    : list (string * Q) :=
    fold_left (fun d i =>
      dict_set d (Technology.name i) (Technology.production_cost i)) chain [].

  (** [process_annual_costs]: the [Technology] column is the flattened
      array of the repeated names, which numpy builds only when all the
      instances have as many annual-cost rows. *)
Definition annual_costs_by_name (chain : list Technology.t)
    : result (list (string * string * val)) :=
    match chain with
    | [] => Raise ValueError
    | i0 :: _ =>
      if forallb (fun i => Nat.eqb (List.length (Technology.annual_costs i))
                             (List.length (Technology.annual_costs i0))) chain
      then Ok (flat_map (fun i =>
                 map (fun r => (Technology.name i, fst r, snd r))
                     (Technology.annual_costs i)) chain)
      else Raise ValueError
    end.

  (** The attributes of a [Scenario] object. *)
Record t : Type := mk
    { design : design_table;
      finan : finan_table;
      struct : struct_table;
      value_chain : list Technology.t;
      eol_film_prod : option Q;
      eol_polyethylene_prod : option Q;
      total_eol_cost : Q;
      total_cost : Q;
      virgin_prod : Q;
      final_landfill : Q;
      process_production_costs : list (string * Q);
      process_annual_costs : list (string * string * val) }.

  (** [Scenario(production_process, product, func_unit, eol_sc, products,
      sens_df)]; the three sheets of the data file are arguments. *)
Definition __init__ (production_process product : string) (func_unit : Q)
      (eol_sc : list eol_item) (products : list (string * string))
      (sens_df : option design_table)
      (design_sheet : design_table) (finan_sheet : finan_table)
      (struct_sheet : struct_table) : result t :=
    let design := apply_sens sens_df design_sheet in
    let? _prod_eff := output_efficiency design production_process in
    let? l := balance_loop design struct_sheet func_unit init_locals eol_sc in
    let run :=
      (first <- Technology.__init__ production_process product design true
                  (_virg_prod l) ;;
       chain_loop design products func_unit l
         (mk_chain [Technology.set_name (production_process ++ ", initial") first]
                   None None None)
         eol_sc)%M finan_sheet in
    let? st := fst run in
    let chain := st_value_chain st in
    let total_eol_cost :=
      py_sum (map Technology.production_cost
        (filter (fun i => negb (isin (Technology.name i)
                   ["Sheet Molding Compound"; "Barrier Film, initial"])) chain)) in
    let total_cost := py_sum (map Technology.production_cost chain) in
    let? ftl := match _film_to_landfill st with
                | Some x => Ok x
                | None => Raise UnboundLocalError
                end in
    let? ann := annual_costs_by_name chain in
    Ok (mk design (snd run) struct_sheet chain
           (st_eol_film_prod st) (st_eol_polyethylene_prod st)
           total_eol_cost total_cost (_virg_prod l) ftl
           (production_costs_by_name chain) ann).

End Scenario.

(** ** A small data set

    Three sheets in the format of the data file, small enough to evaluate
    by computation: virgin production, landfilling, the two closed loops
    and one single-pass recycling technology. *)

Module Fixture.

Definition d := Design.mk.
Definition f := Finan.mk.

Definition design : design_table :=
  [ d "Barrier Film" "Output efficiency" "Barrier film" 0.9;
    d "Barrier Film" "Capital scale" "Extruder" 2;
    d "Barrier Film" "Capital depreciation" "Extruder" 10;
    d "Barrier Film" "Input" "Nylon 6" 40;
    d "Barrier Film" "Input" "Polyethylene" 60;
    d "Barrier Film" "Labor" "Operator" 2;
    d "Barrier Film" "Utilities" "Electricity" 50;
    d "Barrier Film" "Output" "Barrier film" 100;
    d "Landfilling" "Output efficiency" "Landfilled waste" 1;
    d "Landfilling" "Input" "Landfilled waste" 100;
    d "Landfilling" "Labor" "Operator" 1;
    d "Landfilling" "Output" "Landfilled waste" 100;
    d "Mechanical and Solvent Cleaning" "Output efficiency" "Barrier film" 0.5;
    d "Mechanical and Solvent Cleaning" "Capital scale" "Washer" 1;
    d "Mechanical and Solvent Cleaning" "Capital depreciation" "Washer" 5;
    d "Mechanical and Solvent Cleaning" "Input" "Solvent" 10;
    d "Mechanical and Solvent Cleaning" "Utilities" "Electricity" 20;
    d "Mechanical and Solvent Cleaning" "Output" "Barrier film" 100;
    d "Solvent Treatment and Precipitation" "Output efficiency" "Polyethylene" 0.8;
    d "Solvent Treatment and Precipitation" "Output efficiency" "Nylon 6" 0.8;
    d "Solvent Treatment and Precipitation" "Capital scale" "Reactor" 1;
    d "Solvent Treatment and Precipitation" "Capital depreciation" "Reactor" 10;
    d "Solvent Treatment and Precipitation" "Input" "Solvent" 30;
    d "Solvent Treatment and Precipitation" "Output" "Polyethylene" 60;
    d "Solvent Treatment and Precipitation" "Output" "Nylon 6" 40;
    d "Pelletizing" "Output efficiency" "Pellets" 0.5;
    d "Pelletizing" "Input" "Contingency" 1;
    d "Pelletizing" "Utilities" "Electricity" 10;
    d "Pelletizing" "Output" "Pellets" 100 ].

Definition finan : finan_table :=
  [ f "Fixed" "Operating Hours" "Operating Hours" 8000;
    f "Fixed" "Working Hours" "Working Hours" 2000;
    f "Cost" "Capital" "Extruder" 100000;
    f "Cost" "Capital" "Washer" 50000;
    f "Cost" "Capital" "Reactor" 200000;
    f "Cost Multiplier" "Capital" "Installation" 0.5;
    f "Cost Multiplier" "Capital" "Maintenance" 0.05;
    f "Cost Multiplier" "Labor" "Burden" 0.25;
    f "Cost" "Labor" "Operator" 30;
    f "Cost" "Utilities" "Electricity" 0.1;
    f "Cost" "Input" "Nylon 6" 1.5;
    f "Cost" "Input" "Polyethylene" 0.5;
    f "Cost" "Input" "Solvent" 0.2;
    f "Cost" "Input" "Landfilled waste" 0.03;
    f "Cost" "Input" "Barrier film" 1;
    f "Cost" "Waste" "Waste disposal" 0.03;
    f "Cost" "Other" "Contingency" 2;
    f "Price" "Output" "Nylon 6" 1;
    f "Price" "Output" "Pellets" 0.4 ].

Definition struct : struct_table :=
  [ Struct.mk "Solvent Treatment and Precipitation" "Barrier Film" ].

Definition products : list (string * string) :=
  [ ("Landfilling", "Landfilled waste");
    ("Mechanical and Solvent Cleaning", "Barrier film");
    ("Solvent Treatment and Precipitation", "Polyethylene");
    ("Pelletizing", "Pellets") ].

(** Sensitivity rows that remove every loss from the two closed loops. *)
Definition no_loss : design_table :=
  [ d "Mechanical and Solvent Cleaning" "Output efficiency" "Barrier film" 1.0;
    d "Solvent Treatment and Precipitation" "Output efficiency" "Polyethylene" 1.0;
    d "Solvent Treatment and Precipitation" "Output efficiency" "Nylon 6" 1.0;
    d "Barrier Film" "Output efficiency" "Barrier film" 1.0 ].

(** A technology with two output lines, only the first of which has an
    efficiency row. *)
Definition sorting_design : design_table :=
  [ d "Sorting" "Output" "Flakes" 10;
    d "Sorting" "Output" "Fines" 5;
    d "Sorting" "Output efficiency" "Flakes" 0.9 ].

(** The financial sheet with a second 'Working Hours' row. *)
Definition finan_two_shifts : finan_table :=
  (finan ++ [ f "Fixed" "Working Hours" "Working Hours" 1800 ])%list.

End Fixture.

(** * Properties *)

(** ** Sums and the cycle series *)

Ltac inv_bind H :=
  match type of H with
  | rbind ?c _ = Ok _ =>
    let E := fresh "E" in
    destruct c eqn:E; cbn [rbind] in H; [ | discriminate H ]
  end.

Lemma py_sum_snoc (l : list Q) (x : Q) : py_sum (l ++ [x]) = py_sum l + x.
Proof. unfold py_sum. now rewrite fold_left_app. Qed.

Lemma fold_left_Qplus_shift (l : list Q) (a : Q) :
  fold_left Qplus l a == a + fold_left Qplus l 0.
Proof.
  revert a. induction l as [ | x l IH ]; intro a; cbn.
  - ring.
  - rewrite (IH (a + x)), (IH (0 + x)). ring.
Qed.

Lemma py_sum_cons (x : Q) (l : list Q) : py_sum (x :: l) == x + py_sum l.
Proof.
  unfold py_sum. cbn. rewrite fold_left_Qplus_shift. ring.
Qed.

Lemma py_sum_nonneg (l : list Q) :
  Forall (fun x => 0 <= x) l -> 0 <= py_sum l.
Proof.
  induction 1 as [ | x l Hx _ IH ].
  - unfold py_sum; cbn. apply Qle_refl.
  - rewrite py_sum_cons.
    replace 0 with (0 + 0) by reflexivity. now apply Qplus_le_compat.
Qed.

Lemma range_succ (n : Z) :
  (0 <= n)%Z -> range (n + 1) = (range n ++ [n])%list.
Proof.
  intro Hn. unfold range.
  replace (Z.to_nat (n + 1)) with (S (Z.to_nat n)) by lia.
  rewrite seq_S, map_app. cbn. now rewrite Z2Nat.id.
Qed.

Lemma range_nonpos (n : Z) : (n <= 0)%Z -> range n = [].
Proof.
  intro Hn. unfold range. now replace (Z.to_nat n) with 0%nat by lia.
Qed.

Lemma cycle_sum_0 (r : Q) : Scenario.cycle_sum r 0 == 1.
Proof. reflexivity. Qed.

(** [cycle_sum r n] is the series [r^0 + r^1 + ... + r^n]. *)
Lemma cycle_sum_succ (r : Q) (n : Z) :
  (0 <= n)%Z ->
  Scenario.cycle_sum r (n + 1) = Scenario.cycle_sum r n + r ^ (n + 1).
Proof.
  intro Hn. unfold Scenario.cycle_sum.
  rewrite (range_succ (n + 1)) by lia.
  rewrite map_app. cbn [map]. now rewrite py_sum_snoc.
Qed.

Lemma cycle_sum_negative (r : Q) (n : Z) :
  (n < 0)%Z -> Scenario.cycle_sum r n = 0.
Proof.
  intro Hn. unfold Scenario.cycle_sum. now rewrite range_nonpos by lia.
Qed.

Lemma cycle_sum_ge_1 (r : Q) (n : Z) :
  0 <= r -> (0 <= n)%Z -> 1 <= Scenario.cycle_sum r n.
Proof.
  intros Hr Hn. pattern n. apply natlike_ind; [ | | exact Hn ].
  - rewrite cycle_sum_0. apply Qle_refl.
  - intros k Hk IH. unfold Z.succ. rewrite cycle_sum_succ by exact Hk.
    replace 1 with (1 + 0) by reflexivity.
    apply Qplus_le_compat; [ exact IH | now apply Qpower_0_le ].
Qed.

Lemma cycle_denominator_nonzero (r : Q) (n : Z) :
  0 <= r -> ~ 1 + Scenario.cycle_sum r n == 0.
Proof.
  intros Hr Hz.
  assert (H : 0 <= Scenario.cycle_sum r n).
  { apply py_sum_nonneg, Forall_forall. intros x Hx.
    apply in_map_iff in Hx. destruct Hx as [i [<- _]].
    now apply Qpower_0_le. }
  assert (H1 : 1 <= 1 + Scenario.cycle_sum r n).
  { replace 1 with (1 + 0) at 1 by reflexivity.
    apply Qplus_le_compat; [ apply Qle_refl | exact H ]. }
  rewrite Hz in H1. now apply (Qlt_not_le 0 1).
Qed.

Lemma cycle_sum_comp (r r' : Q) (n : Z) :
  r == r' -> Scenario.cycle_sum r n == Scenario.cycle_sum r' n.
Proof.
  intro Hr. unfold Scenario.cycle_sum.
  induction (range (n + 1)) as [ | i l IH ] using rev_ind; [ reflexivity | ].
  rewrite !map_app. cbn [map]. rewrite !py_sum_snoc, IH, Hr. reflexivity.
Qed.

Lemma py_sum_map_scale (c D : Q) (g : Z -> Q) (l : list Z) :
  py_sum (map (fun i => c * g i / D) l) == c * py_sum (map g l) / D.
Proof.
  induction l as [ | i l IH ] using rev_ind.
  - unfold py_sum, Qdiv; cbn. ring.
  - rewrite !map_app. cbn [map]. rewrite !py_sum_snoc, IH.
    unfold Qdiv. ring.
Qed.

(** The total sent through a closed loop is the virgin production times the
    cycle series. *)
Lemma loop_throughput_closed_form (f fu r : Q) (n : Z) :
  Scenario.loop_throughput f fu r n
  == f * fu * Scenario.cycle_sum r n / (1 + Scenario.cycle_sum r n).
Proof.
  unfold Scenario.loop_throughput.
  rewrite (py_sum_map_scale (f * fu) (1 + Scenario.cycle_sum r n)
             (fun i => r ^ i)).
  reflexivity.
Qed.

(** ** The state and error monad *)

Lemma bind_Ok_inv {A B} (m : M A) (k : A -> M B) fin b fin' :
  bind m k fin = (Ok b, fin') ->
  exists a fin1, m fin = (Ok a, fin1) /\ k a fin1 = (Ok b, fin').
Proof.
  unfold bind. destruct (m fin) as [[a | e] fin1]; [ eauto | discriminate ].
Qed.

Lemma lift_Ok_inv {A} (r : result A) fin a fin' :
  lift r fin = (Ok a, fin') -> r = Ok a /\ fin' = fin.
Proof. unfold lift. intro H. injection H as -> ->. auto. Qed.

(** ** Construction of a technology *)

Lemma init_unfold name product design_data initial output fin :
  Technology.__init__ name product design_data initial output fin =
  let self_design := filter (fun r => Design.Technology r =? name) design_data in
  match self_design with
  | [] => (Raise (TechnologyNotFound name), fin)
  | _ =>
    if negb (existsb (fun i => isin i [product])
               (map Design.Index
                  (filter (fun r => Design.Variable_ r =? "Output") self_design)))
    then (Raise (ProductNotFound product name), fin)
    else
      let fin' := if initial then fin else Technology.zero_strap_inputs fin in
      (Technology.evaluate name product self_design output fin', fin')
  end.
Proof.
  unfold Technology.__init__. cbv zeta.
  destruct (filter _ design_data) as [ | r rs ]; [ reflexivity | ].
  destruct (negb (existsb _ _)); [ reflexivity | ].
  destruct initial; reflexivity.
Qed.

Lemma evaluate_fields name product sd output fin t :
  Technology.evaluate name product sd output fin = Ok t ->
  Technology.name t = name /\ Technology.output t = output /\
  Technology.product t = product /\ Technology.finan t = fin /\
  Technology.design t = sd /\
  Technology.production_cost t = output * Technology.net_normalized_costs t.
Proof.
  unfold Technology.evaluate. intro H.
  repeat inv_bind H. injection H as <-. cbn. repeat split; reflexivity.
Qed.

Lemma init_initial_table name product design_data output fin r fin' :
  Technology.__init__ name product design_data true output fin = (r, fin') ->
  fin' = fin.
Proof.
  rewrite init_unfold. cbv zeta.
  destruct (filter _ design_data); [ now intros [= _ <-] | ].
  destruct (negb _); now intros [= _ <-].
Qed.

Lemma init_Ok name product design_data initial output fin t fin' :
  Technology.__init__ name product design_data initial output fin = (Ok t, fin') ->
  fin' = (if initial then fin else Technology.zero_strap_inputs fin) /\
  Technology.evaluate name product
    (filter (fun r => Design.Technology r =? name) design_data) output fin' = Ok t.
Proof.
  rewrite init_unfold. cbv zeta.
  destruct (filter _ design_data); [ discriminate | ].
  destruct (negb _); [ discriminate | ].
  intros [= H <-]. auto.
Qed.

Lemma init_fields name product design_data initial output fin t fin' :
  Technology.__init__ name product design_data initial output fin = (Ok t, fin') ->
  Technology.name t = name /\ Technology.output t = output /\
  Technology.finan t = fin'.
Proof.
  intro H. apply init_Ok in H. destruct H as [_ H].
  apply evaluate_fields in H. tauto.
Qed.

(** The table an instance holds is the one its results were computed on. *)
Lemma init_evaluates_on_finan name product design_data initial output fin t fin' :
  Technology.__init__ name product design_data initial output fin = (Ok t, fin') ->
  Technology.evaluate name product
    (filter (fun r => Design.Technology r =? name) design_data) output
    (Technology.finan t) = Ok t.
Proof.
  intro H. pose proof (init_fields _ _ _ _ _ _ _ _ H) as (_ & _ & ->).
  now apply init_Ok in H.
Qed.

(** ** The two loops of a scenario *)

Local Abbreviation MASC := "Mechanical and Solvent Cleaning".
Local Abbreviation STP := "Solvent Treatment and Precipitation".

Lemma local_Ok_inv {A} (x : option A) fin a fin' :
  Scenario.local x fin = (Ok a, fin') -> x = Some a /\ fin' = fin.
Proof.
  destruct x as [ a' | ]; cbn; unfold ret, raise; [ | discriminate ].
  intros [= -> ->]. auto.
Qed.

Lemma final_landfill_step_inv design chain film pe ftl fin st' fin' :
  Scenario.final_landfill_step design chain film pe ftl fin = (Ok st', fin') ->
  fin' = fin /\
  Scenario.st_eol_film_prod st' = Some film /\
  Scenario.st_eol_polyethylene_prod st' = Some pe /\
  Scenario._film_to_landfill st' = Some ftl /\
  ((ftl == 0 /\ Scenario.st_value_chain st' = chain) \/
   (~ ftl == 0 /\
    exists t,
      Technology.__init__ "Landfilling" "Landfilled waste" design true ftl fin
        = (Ok t, fin) /\
      Scenario.st_value_chain st'
        = (chain ++ [Technology.set_name "Landfilling, final" t])%list)).
Proof.
  unfold Scenario.final_landfill_step.
  destruct (Qeq_bool ftl 0.0) eqn:Hz; cbn [negb].
  - intros [= <- <-]. cbn. repeat split.
    left. split; [ | reflexivity ].
    apply Qeq_bool_eq in Hz. rewrite Hz. reflexivity.
  - intro H. apply bind_Ok_inv in H. destruct H as (t & fin1 & Ht & H).
    pose proof (init_initial_table _ _ _ _ _ _ _ Ht) as ->.
    injection H as <- <-. cbn. repeat split.
    right. split; [ | eauto ].
    apply Qeq_bool_neq in Hz. intro Hq. apply Hz. rewrite Hq. reflexivity.
Qed.

Lemma chain_step_masc design products fu l st f n fin st' fin' :
  Scenario.chain_step design products fu l st (MASC, (f, n)) fin = (Ok st', fin') ->
  exists e p tech,
    Scenario.output_efficiency design MASC = Ok e /\
    Scenario.getitem products MASC = Ok p /\
    Technology.__init__ MASC p design true (Scenario._prod_masc l) fin
      = (Ok tech, fin) /\
    Scenario.final_landfill_step design (Scenario.st_value_chain st ++ [tech])
      (Scenario._prod_masc l) 0.0
      (Scenario._virg_prod l * f * e ^ n) fin = (Ok st', fin').
Proof.
  intro H. unfold Scenario.chain_step in H. cbn [fst snd] in H.
  apply bind_Ok_inv in H. destruct H as (e & fin1 & He & H).
  apply lift_Ok_inv in He. destruct He as [He ->].
  change (MASC =? "Mechanical and Solvent Cleaning") with true in H.
  cbv iota in H.
  apply bind_Ok_inv in H. destruct H as (p & fin1 & Hp & H).
  apply lift_Ok_inv in Hp. destruct Hp as [Hp ->].
  apply bind_Ok_inv in H. destruct H as (tech & fin1 & Ht & H).
  pose proof (init_initial_table _ _ _ _ _ _ _ Ht) as ->.
  exists e, p, tech. auto.
Qed.

Lemma chain_step_stp design products fu l st f n fin st' fin' :
  Scenario.chain_step design products fu l st (STP, (f, n)) fin = (Ok st', fin') ->
  exists e p eff_downst tech downst _downst_film,
    Scenario.output_efficiency design STP = Ok e /\
    Scenario.getitem products STP = Ok p /\
    Scenario._eff_downst l = Some eff_downst /\
    Scenario._downst l = Some downst /\
    Technology.__init__ STP p design true
      (0.7 * Scenario._prod_strap l / eff_downst) fin = (Ok tech, fin) /\
    Technology.__init__ downst "Barrier film" design false
      (Scenario._prod_strap l) fin
      = (Ok _downst_film, Technology.zero_strap_inputs fin) /\
    Scenario.final_landfill_step design
      (Scenario.st_value_chain st ++ [tech] ++ [_downst_film])
      (Scenario._prod_strap l) (0.7 * Scenario._prod_strap l / eff_downst)
      (Scenario._virg_prod l * f * (e * eff_downst) ^ n)
      (Technology.loc_set_Value (fun r => Finan.Index r =? "Barrier film")
         (Technology.net_normalized_costs _downst_film)
         (Technology.zero_strap_inputs fin))
      = (Ok st', fin').
Proof.
  intro H. unfold Scenario.chain_step in H. cbn [fst snd] in H.
  apply bind_Ok_inv in H. destruct H as (e & fin1 & He & H).
  apply lift_Ok_inv in He. destruct He as [He ->].
  change (STP =? "Mechanical and Solvent Cleaning") with false in H.
  change (STP =? "Solvent Treatment and Precipitation") with true in H.
  cbv iota in H.
  apply bind_Ok_inv in H. destruct H as (p & fin1 & Hp & H).
  apply lift_Ok_inv in Hp. destruct Hp as [Hp ->].
  apply bind_Ok_inv in H. destruct H as (ed & fin1 & Hed & H).
  apply local_Ok_inv in Hed. destruct Hed as [Hed ->].
  apply bind_Ok_inv in H. destruct H as (tech & fin1 & Ht & H).
  pose proof (init_initial_table _ _ _ _ _ _ _ Ht) as ->.
  apply bind_Ok_inv in H. destruct H as (dn & fin1 & Hdn & H).
  apply local_Ok_inv in Hdn. destruct Hdn as [Hdn ->].
  apply bind_Ok_inv in H. destruct H as (td & fin1 & Htd & H).
  pose proof (init_Ok _ _ _ _ _ _ _ _ Htd) as [-> _].
  apply bind_Ok_inv in H. destruct H as ([] & fin1 & Hm & H).
  injection Hm as <-.
  exists e, p, ed, tech, dn, td. repeat split; assumption.
Qed.

Lemma chain_step_simple design products fu l st key f n fin st' fin' :
  key <> MASC -> key <> STP ->
  Scenario.chain_step design products fu l st (key, (f, n)) fin = (Ok st', fin') ->
  exists e p tech,
    Scenario.output_efficiency design key = Ok e /\
    Scenario.getitem products key = Ok p /\
    Technology.__init__ key p design true (fu * f) fin = (Ok tech, fin) /\
    Scenario.final_landfill_step design (Scenario.st_value_chain st ++ [tech])
      (fu * f) 0.0
      (if negb (isin key ["Landfilling"; "Incineration"; "Pyrolysis"])
       then Scenario._virg_prod l * f * e else 0.0) fin = (Ok st', fin').
Proof.
  intros Hm Hs H. unfold Scenario.chain_step in H. cbn [fst snd] in H.
  apply bind_Ok_inv in H. destruct H as (e & fin1 & He & H).
  apply lift_Ok_inv in He. destruct He as [He ->].
  apply String.eqb_neq in Hm, Hs.
  rewrite Hm, Hs in H.
  apply bind_Ok_inv in H. destruct H as (p & fin1 & Hp & H).
  apply lift_Ok_inv in Hp. destruct Hp as [Hp ->].
  apply bind_Ok_inv in H. destruct H as (tech & fin1 & Ht & H).
  pose proof (init_initial_table _ _ _ _ _ _ _ Ht) as ->.
  exists e, p, tech. auto.
Qed.

Lemma balance_loop_app design struct fu l a b :
  Scenario.balance_loop design struct fu l (a ++ b) =
  let? l' := Scenario.balance_loop design struct fu l a in
  Scenario.balance_loop design struct fu l' b.
Proof.
  revert l. induction a as [ | x a IH ]; intro l; cbn; [ reflexivity | ].
  destruct (Scenario.balance_step design struct fu l x); cbn; auto.
Qed.

Lemma chain_loop_app design products fu l st a b fin :
  Scenario.chain_loop design products fu l st (a ++ b) fin =
  bind (Scenario.chain_loop design products fu l st a)
       (fun st' => Scenario.chain_loop design products fu l st' b) fin.
Proof.
  revert st fin. induction a as [ | x a IH ]; intros st fin; cbn.
  - reflexivity.
  - unfold bind in *.
    destruct (Scenario.chain_step design products fu l st x fin) as [[st1 | e] fin1];
      [ apply IH | reflexivity ].
Qed.

Lemma scenario_init_inv pp product fu eol_sc products sens d fin struct s :
  Scenario.__init__ pp product fu eol_sc products sens d fin struct = Ok s ->
  let design := Scenario.apply_sens sens d in
  exists l first st,
    Scenario.balance_loop design struct fu Scenario.init_locals eol_sc = Ok l /\
    Technology.__init__ pp product design true (Scenario._virg_prod l) fin
      = (Ok first, fin) /\
    Scenario.chain_loop design products fu l
      (Scenario.mk_chain [Technology.set_name (pp ++ ", initial") first]
         None None None) eol_sc fin = (Ok st, Scenario.finan s) /\
    Scenario.value_chain s = Scenario.st_value_chain st /\
    Scenario.virgin_prod s = Scenario._virg_prod l /\
    Scenario._film_to_landfill st = Some (Scenario.final_landfill s) /\
    Scenario.eol_film_prod s = Scenario.st_eol_film_prod st /\
    Scenario.eol_polyethylene_prod s = Scenario.st_eol_polyethylene_prod st /\
    Scenario.total_cost s
      = py_sum (map Technology.production_cost (Scenario.value_chain s)).
Proof.
  unfold Scenario.__init__. cbv zeta. intro H.
  inv_bind H. inv_bind H.
  match type of H with context [bind ?m ?k fin] =>
    destruct (bind m k fin) as [r fin'] eqn:Erun end.
  cbn [fst snd] in H. inv_bind H. subst r.
  apply bind_Ok_inv in Erun. destruct Erun as (first & fin1 & Hf & Hloop).
  pose proof (init_initial_table _ _ _ _ _ _ _ Hf) as ->.
  destruct (Scenario._film_to_landfill a1) as [ ftl | ] eqn:Eftl;
    cbn [rbind] in H; [ | discriminate H ].
  inv_bind H. injection H as <-. cbn.
  exists a0, first, a1. repeat split; assumption.
Qed.

Section Balance.
Variable design : design_table.
Variable struct : struct_table.
Variable fu : Q.

Lemma balance_step_masc l f n l' :
  Scenario.balance_step design struct fu l (MASC, (f, n)) = Ok l' ->
  exists e,
    Scenario.output_efficiency design MASC = Ok e /\
    Scenario._virg_prod l' = f * fu / (1 + Scenario.cycle_sum e n) /\
    Scenario._prod_masc l' = Scenario.loop_throughput f fu e n.
Proof.
  unfold Scenario.balance_step. cbn [fst snd]. intro H. inv_bind H.
  change (MASC =? MASC) with true in H. cbv iota in H.
  injection H as <-. eexists. split; [ reflexivity | ]. cbn. auto.
Qed.

Lemma balance_step_stp l f n l' :
  Scenario.balance_step design struct fu l (STP, (f, n)) = Ok l' ->
  exists e downst eff_downst,
    Scenario.output_efficiency design STP = Ok e /\
    Scenario.downstream struct STP = Ok downst /\
    Scenario.output_efficiency design downst = Ok eff_downst /\
    Scenario._virg_prod l'
      = f * fu / (1 + Scenario.cycle_sum (eff_downst * e) n) /\
    Scenario._prod_strap l'
      = Scenario.loop_throughput f fu (eff_downst * e) n /\
    Scenario._downst l' = Some downst /\
    Scenario._eff_downst l' = Some eff_downst.
Proof.
  unfold Scenario.balance_step. cbn [fst snd]. intro H. inv_bind H.
  change (STP =? MASC) with false in H.
  change (STP =? STP) with true in H. cbv iota in H.
  inv_bind H. inv_bind H. injection H as <-.
  do 3 eexists. repeat split; try reflexivity; assumption.
Qed.

Lemma balance_step_simple l key f n l' :
  key <> MASC -> key <> STP ->
  Scenario.balance_step design struct fu l (key, (f, n)) = Ok l' ->
  Scenario._virg_prod l' = fu /\
  Scenario._prod_amt l' = Scenario._prod_amt l + fu * f /\
  Scenario._prod_masc l' = Scenario._prod_masc l /\
  Scenario._prod_strap l' = Scenario._prod_strap l /\
  Scenario._downst l' = Scenario._downst l /\
  Scenario._eff_downst l' = Scenario._eff_downst l.
Proof.
  intros Hm Hs. apply String.eqb_neq in Hm, Hs.
  unfold Scenario.balance_step. cbn [fst snd]. intro H. inv_bind H.
  rewrite Hm, Hs in H. injection H as <-. cbn. auto 6.
Qed.

(** The loop body assigns [_virg_prod] afresh: what it leaves there does not
    depend on the locals it starts from. *)
Lemma balance_step_virgin_fresh l0 l0' item l1 :
  Scenario.balance_step design struct fu l0 item = Ok l1 ->
  exists l1',
    Scenario.balance_step design struct fu l0' item = Ok l1' /\
    Scenario._virg_prod l1' = Scenario._virg_prod l1.
Proof.
  unfold Scenario.balance_step. intro H. inv_bind H.
  destruct (fst item =? MASC).
  - injection H as <-. eexists. split; reflexivity.
  - destruct (fst item =? STP).
    + inv_bind H. inv_bind H. injection H as <-.
      cbn [rbind]. rewrite E1. cbn [rbind].
      eexists. split; reflexivity.
    + injection H as <-. eexists. split; reflexivity.
Qed.

Lemma balance_loop_last l pre item l' :
  Scenario.balance_loop design struct fu l (pre ++ [item]) = Ok l' ->
  exists l1,
    Scenario.balance_loop design struct fu l pre = Ok l1 /\
    Scenario.balance_step design struct fu l1 item = Ok l'.
Proof.
  rewrite balance_loop_app. cbv zeta. intro H. inv_bind H.
  cbn in H. inv_bind H. injection H as <-. eauto.
Qed.
End Balance.


Section Chain.
Variable design : design_table.
Variable products : list (string * string).
Variable fu : Q.
Variable l : Scenario.locals.

(** A step of the second loop on anything but the solvent-treatment entry
    leaves the financial table as it is, and evaluates what it appends on
    that table. *)
Lemma chain_step_frame st key f n fin st' fin' :
  key <> STP ->
  Scenario.chain_step design products fu l st (key, (f, n)) fin = (Ok st', fin') ->
  fin' = fin /\
  exists added,
    Scenario.st_value_chain st' = (Scenario.st_value_chain st ++ added)%list /\
    Forall (fun t => Technology.finan t = fin) added.
Proof.
  intros Hs H.
  assert (Hfl : exists tech ftl film pe,
    Technology.finan tech = fin /\
    Scenario.final_landfill_step design (Scenario.st_value_chain st ++ [tech])
      film pe ftl fin = (Ok st', fin')).
  { destruct (String.eqb_spec key MASC) as [-> | Hm].
    - apply chain_step_masc in H. destruct H as (e & p & tech & _ & _ & Ht & H).
      apply init_fields in Ht. exists tech. do 3 eexists. split; [ tauto | eauto ].
    - apply chain_step_simple in H; try assumption.
      destruct H as (e & p & tech & _ & _ & Ht & H).
      apply init_fields in Ht. exists tech. do 3 eexists. split; [ tauto | eauto ]. }
  destruct Hfl as (tech & ftl & film & pe & Hfin & Hfl).
  apply final_landfill_step_inv in Hfl.
  destruct Hfl as (-> & _ & _ & _ & [[_ Hc] | [_ (t & Ht & Hc)]]).
  - split; [ reflexivity | ]. exists [tech]. split; [ exact Hc | ].
    constructor; [ exact Hfin | constructor ].
  - split; [ reflexivity | ].
    exists [tech; Technology.set_name "Landfilling, final" t].
    split; [ now rewrite Hc, <- app_assoc | ].
    apply init_fields in Ht.
    constructor; [ exact Hfin | constructor; [ cbn; tauto | constructor ] ].
Qed.

Lemma chain_loop_frame items : forall st fin st' fin',
  ~ In STP (map fst items) ->
  Scenario.chain_loop design products fu l st items fin = (Ok st', fin') ->
  fin' = fin /\
  exists added,
    Scenario.st_value_chain st' = (Scenario.st_value_chain st ++ added)%list /\
    Forall (fun t => Technology.finan t = fin) added.
Proof.
  induction items as [ | [key [f n]] items IH ]; intros st fin st' fin' Hnot H.
  - cbn in H. injection H as <- <-. split; [ reflexivity | ].
    exists []. split; [ now rewrite app_nil_r | constructor ].
  - cbn [Scenario.chain_loop] in H. apply bind_Ok_inv in H.
    destruct H as (st1 & fin1 & Hstep & H).
    apply chain_step_frame in Hstep; [ | intros ->; apply Hnot; now left ].
    destruct Hstep as (-> & a1 & Hc1 & Hf1).
    apply IH in H; [ | intro Hin; apply Hnot; now right ].
    destruct H as (-> & a2 & Hc2 & Hf2).
    split; [ reflexivity | ]. exists (a1 ++ a2)%list.
    split; [ now rewrite Hc2, Hc1, app_assoc | now apply Forall_app ].
Qed.

(** Every step appends to the value chain. *)
Lemma chain_step_extends st item fin st' fin' :
  Scenario.chain_step design products fu l st item fin = (Ok st', fin') ->
  exists added,
    Scenario.st_value_chain st' = (Scenario.st_value_chain st ++ added)%list.
Proof.
  destruct item as [key [f n]]. intro H.
  destruct (String.eqb_spec key STP) as [-> | Hs].
  - apply chain_step_stp in H.
    destruct H as (e & p & ed & tech & dn & td & _ & _ & _ & _ & _ & _ & H).
    apply final_landfill_step_inv in H.
    destruct H as (_ & _ & _ & _ & [[_ Hc] | [_ (t & _ & Hc)]]);
      rewrite Hc, <- ?app_assoc; eauto.
  - apply chain_step_frame in H; [ | exact Hs ].
    destruct H as (_ & added & Hc & _). eauto.
Qed.

Lemma chain_loop_extends items : forall st fin st' fin',
  Scenario.chain_loop design products fu l st items fin = (Ok st', fin') ->
  exists added,
    Scenario.st_value_chain st' = (Scenario.st_value_chain st ++ added)%list.
Proof.
  induction items as [ | item items IH ]; intros st fin st' fin' H.
  - cbn in H. injection H as <- <-. exists []. now rewrite app_nil_r.
  - cbn [Scenario.chain_loop] in H. apply bind_Ok_inv in H.
    destruct H as (st1 & fin1 & Hstep & H).
    apply chain_step_extends in Hstep. destruct Hstep as (a1 & Hc1).
    apply IH in H. destruct H as (a2 & Hc2).
    exists (a1 ++ a2)%list. now rewrite Hc2, Hc1, app_assoc.
Qed.

Lemma chain_loop_last st pre item fin st' fin' :
  Scenario.chain_loop design products fu l st (pre ++ [item]) fin = (Ok st', fin') ->
  exists st1 fin1,
    Scenario.chain_loop design products fu l st pre fin = (Ok st1, fin1) /\
    Scenario.chain_step design products fu l st1 item fin1 = (Ok st', fin').
Proof.
  rewrite chain_loop_app. intro H. apply bind_Ok_inv in H.
  destruct H as (st1 & fin1 & Hpre & H).
  cbn [Scenario.chain_loop] in H. apply bind_Ok_inv in H.
  destruct H as (st2 & fin2 & Hstep & H). injection H as <- <-. eauto.
Qed.
End Chain.

(** With the denominator [1 + cycle series] of the code, the virgin
    production and the total sent through the loop add up to the share of
    the functional unit routed to the loop. *)
Lemma closed_loop_mass_balance design struct fu l f n l' e :
  Scenario.balance_step design struct fu l (MASC, (f, n)) = Ok l' ->
  Scenario.output_efficiency design MASC = Ok e ->
  ~ 1 + Scenario.cycle_sum e n == 0 ->
  Scenario._virg_prod l' + Scenario._prod_masc l' == f * fu.
Proof.
  intros H He Hnz. apply balance_step_masc in H.
  destruct H as (e' & He' & -> & ->).
  rewrite He in He'. injection He' as <-.
  rewrite loop_throughput_closed_form. now field.
Qed.

(** ** The value chain of a scenario *)

(** What the code computes when the entry iterated last is the
    single-stage closed loop 'Mechanical and Solvent Cleaning' with fraction
    [f], cycle count [n] and efficiency [e]: the virgin production of the
    scenario is [f * func_unit / (1 + sum of e^i for i from 0 to n)].  The
    sum runs over [range(n + 1)] and already holds the term [e^0 = 1] of the
    first lifetime, so the denominator counts that lifetime twice. *)
Theorem closed_loop_virgin_production
    pp product fu pre f n products sens d fin struct s e :
  Scenario.__init__ pp product fu (pre ++ [(MASC, (f, n))])%list products
    sens d fin struct = Ok s ->
  Scenario.output_efficiency (Scenario.apply_sens sens d) MASC = Ok e ->
  ~ 1 + Scenario.cycle_sum e n == 0 ->
  Scenario.virgin_prod s = f * fu / (1 + Scenario.cycle_sum e n) /\
  Scenario.virgin_prod s * (1 + Scenario.cycle_sum e n) == f * fu.
Proof.
  intros H He Hnz. apply scenario_init_inv in H. cbv zeta in H.
  destruct H as (l & first & st & Hbal & _ & _ & _ & Hv & _).
  apply balance_loop_last in Hbal. destruct Hbal as (l1 & _ & Hstep).
  apply balance_step_masc in Hstep. destruct Hstep as (e' & He' & Hvp & _).
  rewrite He in He'. injection He' as <-.
  rewrite Hv, Hvp. split; [ reflexivity | ]. now field.
Qed.

Lemma closed_loop_virgin_production_witness :
  exists s,
    Scenario.__init__ "Barrier Film" "Barrier film" 1.0
      ([] ++ [(MASC, (1.0, 2%Z))])%list
      Fixture.products None Fixture.design Fixture.finan Fixture.struct = Ok s /\
    Scenario.virgin_prod s = 1.0 * 1.0 / (1 + Scenario.cycle_sum 0.5 2) /\
    Scenario.virgin_prod s * (1 + Scenario.cycle_sum 0.5 2) == 1.0 * 1.0.
Proof.
  eexists. split; [ vm_compute; reflexivity | ].
  apply (closed_loop_virgin_production "Barrier Film" "Barrier film" 1.0 []
           1.0 2 Fixture.products None Fixture.design Fixture.finan
           Fixture.struct _ 0.5).
  - vm_compute; reflexivity.
  - reflexivity.
  - vm_compute. discriminate.
Defined.

(** C1, at an input: 'Mechanical and Solvent Cleaning' with efficiency 0.5,
    two cycles and the whole functional unit of 1 routed to the loop.  The
    claim gives a virgin production of [1 / (1 + 0.5 + 0.25) = 4/7]; the
    code returns [1 / (1 + (1 + 0.5 + 0.25)) = 4/11], and virgin production
    times the series is not the functional unit. *)
Lemma virgin_production_not_plain_series :
  exists s,
    Scenario.__init__ "Barrier Film" "Barrier film" 1.0 [(MASC, (1.0, 2%Z))]
      Fixture.products None Fixture.design Fixture.finan Fixture.struct = Ok s /\
    Scenario.output_efficiency Fixture.design MASC = Ok 0.5 /\
    Scenario.virgin_prod s == 4 # 11 /\
    1.0 * 1.0 / Scenario.cycle_sum 0.5 2 == 4 # 7 /\
    ~ Scenario.virgin_prod s == 1.0 * 1.0 / Scenario.cycle_sum 0.5 2 /\
    ~ Scenario.virgin_prod s * Scenario.cycle_sum 0.5 2 == 1.0 * 1.0.
Proof.
  eexists. split; [ vm_compute; reflexivity | ]. split; [ reflexivity | ].
  split; [ vm_compute; reflexivity | ]. split; [ vm_compute; reflexivity | ].
  split; vm_compute; discriminate.
Qed.

Lemma balance_loop_keeps_strap design struct fu items : forall l l',
  ~ In STP (map fst items) ->
  Scenario.balance_loop design struct fu l items = Ok l' ->
  Scenario._prod_strap l' = Scenario._prod_strap l /\
  Scenario._downst l' = Scenario._downst l /\
  Scenario._eff_downst l' = Scenario._eff_downst l.
Proof.
  induction items as [ | [key [f n]] items IH ]; intros l l' Hnot H.
  - cbn in H. injection H as <-. auto.
  - cbn [Scenario.balance_loop] in H. inv_bind H.
    apply IH in H; [ | intro Hin; apply Hnot; now right ].
    destruct H as (-> & -> & ->).
    assert (Hs : key <> STP) by (intros ->; apply Hnot; now left).
    destruct (String.eqb_spec key MASC) as [-> | Hm].
    + unfold Scenario.balance_step in E. cbn [fst snd] in E. inv_bind E.
      change (MASC =? MASC) with true in E. cbv iota in E.
      injection E as <-. cbn. auto.
    + apply balance_step_simple in E; tauto.
Qed.

(** The solvent-treatment entry of a scenario, anywhere in an allocation
    whose later keys differ from it (the keys of a dict are distinct). *)
Lemma scenario_stp_entry
    pp product fu pre f n post products sens d fin struct s :
  Scenario.__init__ pp product fu (pre ++ (STP, (f, n)) :: post)%list products
    sens d fin struct = Ok s ->
  ~ In STP (map fst post) ->
  let design := Scenario.apply_sens sens d in
  exists l e downst eff_downst p st1 fin1 tech _downst_film st2 later,
    Scenario.output_efficiency design STP = Ok e /\
    Scenario.downstream struct STP = Ok downst /\
    Scenario.output_efficiency design downst = Ok eff_downst /\
    Scenario._prod_strap l = Scenario.loop_throughput f fu (eff_downst * e) n /\
    Scenario.getitem products STP = Ok p /\
    Technology.__init__ STP p design true
      (0.7 * Scenario._prod_strap l / eff_downst) fin1 = (Ok tech, fin1) /\
    Technology.__init__ downst "Barrier film" design false
      (Scenario._prod_strap l) fin1
      = (Ok _downst_film, Technology.zero_strap_inputs fin1) /\
    Scenario.chain_step design products fu l st1 (STP, (f, n)) fin1
      = (Ok st2,
         Technology.loc_set_Value (fun r => Finan.Index r =? "Barrier film")
           (Technology.net_normalized_costs _downst_film)
           (Technology.zero_strap_inputs fin1)) /\
    Scenario.value_chain s
      = (Scenario.st_value_chain st1 ++ tech :: _downst_film :: later)%list /\
    Forall (fun t => Technology.finan t
              = Technology.loc_set_Value
                  (fun r => Finan.Index r =? "Barrier film")
                  (Technology.net_normalized_costs _downst_film)
                  (Technology.zero_strap_inputs fin1)) later /\
    Scenario.finan s
      = Technology.loc_set_Value (fun r => Finan.Index r =? "Barrier film")
          (Technology.net_normalized_costs _downst_film)
          (Technology.zero_strap_inputs fin1) /\
    Scenario.st_eol_polyethylene_prod st2
      = Some (0.7 * Scenario._prod_strap l / eff_downst) /\
    Scenario.st_eol_film_prod st2 = Some (Scenario._prod_strap l) /\
    (post = [] ->
     Scenario.eol_polyethylene_prod s
       = Some (0.7 * Scenario._prod_strap l / eff_downst)).
Proof.
  intros H Hnot design. apply scenario_init_inv in H. cbv zeta in H.
  fold design in H.
  destruct H as (l & first & st & Hbal & _ & Hloop & Hvc & _ & _ & _ & Hpe & _).
  (* the first loop *)
  rewrite balance_loop_app in Hbal. cbv zeta in Hbal. inv_bind Hbal.
  cbn [Scenario.balance_loop] in Hbal. inv_bind Hbal.
  apply balance_step_stp in E0.
  destruct E0 as (e & dn & ed & He & Hdn & Hed & _ & Hps & Hd & Hedl).
  apply balance_loop_keeps_strap in Hbal; [ | exact Hnot ].
  destruct Hbal as (Hps' & Hd' & Hedl').
  rewrite Hps in Hps'. rewrite Hd in Hd'. rewrite Hedl in Hedl'.
  (* the second loop *)
  rewrite chain_loop_app in Hloop. apply bind_Ok_inv in Hloop.
  destruct Hloop as (st1 & fin1 & Hpre & Hloop).
  cbn [Scenario.chain_loop] in Hloop. apply bind_Ok_inv in Hloop.
  destruct Hloop as (st2 & fin2 & Hstep & Hpost).
  pose proof Hstep as Hstep'.
  apply chain_step_stp in Hstep.
  destruct Hstep as (e' & p & ed' & tech & dn' & td & He' & Hp & Hed' & Hdn'
                     & Htech & Htd & Hfl).
  rewrite He in He'. injection He' as <-.
  rewrite Hedl' in Hed'. injection Hed' as <-.
  rewrite Hd' in Hdn'. injection Hdn' as <-.
  apply final_landfill_step_inv in Hfl.
  destruct Hfl as (-> & Hfilm & Hpoly & _ & Hchain).
  pose proof Hpost as Hpost'.
  apply chain_loop_frame in Hpost; [ | exact Hnot ].
  destruct Hpost as (Hfin & added & Hadd & Hall).
  assert (Htail : exists tail,
    Scenario.st_value_chain st2
      = (Scenario.st_value_chain st1 ++ tech :: td :: tail)%list /\
    Forall (fun t => Technology.finan t
              = Technology.loc_set_Value
                  (fun r => Finan.Index r =? "Barrier film")
                  (Technology.net_normalized_costs td)
                  (Technology.zero_strap_inputs fin1)) tail).
  { destruct Hchain as [[_ Hc] | [_ (t & Ht & Hc)]].
    - exists []. split; [ now rewrite Hc | constructor ].
    - exists [Technology.set_name "Landfilling, final" t]. split.
      + rewrite Hc, <- app_assoc. reflexivity.
      + apply init_fields in Ht. constructor; [ cbn; tauto | constructor ]. }
  destruct Htail as (tail & Hc2 & Htail).
  exists l, e, dn, ed, p, st1, fin1, tech, td, st2, (tail ++ added)%list.
  repeat split; try assumption.
  - rewrite Hvc, Hadd, Hc2, <- app_assoc. reflexivity.
  - apply Forall_app; split; assumption.
  - intros ->. cbn in Hpost'. injection Hpost' as <- _.
    now rewrite Hpe.
Qed.

(** C9: the first loop overwrites the virgin-production quantity at every
    entry.  For an allocation [pre ++ [item]], whatever [pre] holds, the
    reported [virgin_prod] is what the loop body yields for the last item
    alone, from the initial locals; the initial production instance is
    sized to it; and when the last item is a simple single-pass entry it is
    the whole functional unit, whatever the fraction. *)
Theorem virgin_production_overwritten
    pp product fu pre item products sens d fin struct s :
  Scenario.__init__ pp product fu (pre ++ [item])%list products
    sens d fin struct = Ok s ->
  (exists l1,
     Scenario.balance_step (Scenario.apply_sens sens d) struct fu
       Scenario.init_locals item = Ok l1 /\
     Scenario.virgin_prod s = Scenario._virg_prod l1) /\
  (exists first rest,
     Scenario.value_chain s = first :: rest /\
     Technology.name first = pp ++ ", initial" /\
     Technology.output first = Scenario.virgin_prod s) /\
  (fst item <> MASC -> fst item <> STP -> Scenario.virgin_prod s = fu).
Proof.
  intro H. apply scenario_init_inv in H. cbv zeta in H.
  destruct H as (l & first & st & Hbal & Hfirst & Hloop & Hvc & Hv & _).
  apply balance_loop_last in Hbal. destruct Hbal as (l0 & _ & Hstep).
  split; [ | split ].
  - destruct (balance_step_virgin_fresh _ _ _ l0 Scenario.init_locals _ _ Hstep)
      as (l1 & Hl1 & Heq).
    exists l1. split; [ exact Hl1 | now rewrite Hv, Heq ].
  - apply chain_loop_extends in Hloop. destruct Hloop as (added & Hadd).
    cbn [Scenario.st_value_chain] in Hadd.
    exists (Technology.set_name (pp ++ ", initial") first), added.
    split; [ now rewrite Hvc, Hadd | ].
    apply init_fields in Hfirst. cbn. rewrite Hv. tauto.
  - intros Hm Hs. destruct item as [key [f n]]. cbn [fst] in Hm, Hs.
    apply balance_step_simple in Hstep; try assumption.
    rewrite Hv. tauto.
Qed.

Lemma virgin_production_overwritten_witness :
  exists s,
    Scenario.__init__ "Barrier Film" "Barrier film" 1.0
      ([(MASC, (0.5, 2%Z))] ++ [("Pelletizing", (0.5, 0%Z))])%list
      Fixture.products None Fixture.design Fixture.finan Fixture.struct = Ok s /\
    Scenario.virgin_prod s = 1.0.
Proof.
  eexists. split; [ vm_compute; reflexivity | ].
  apply (virgin_production_overwritten "Barrier Film" "Barrier film" 1.0
           [(MASC, (0.5, 2%Z))] ("Pelletizing", (0.5, 0%Z))
           Fixture.products None Fixture.design Fixture.finan Fixture.struct).
  - vm_compute; reflexivity.
  - cbn [fst]. discriminate.
  - cbn [fst]. discriminate.
Defined.

(** C2 (as amended): for a closed-loop entry iterated last whose per-cycle
    efficiency is exactly 1 (the efficiency of 'Mechanical and Solvent
    Cleaning', or for 'Solvent Treatment and Precipitation' the product of
    its efficiency and the downstream one), the final-landfill quantity is
    the virgin production times the fraction: all the film that survives
    the cycles is landfilled. *)
Theorem closed_loop_landfill_without_loss
    pp product fu pre key f n products sens d fin struct s rate :
  Scenario.__init__ pp product fu (pre ++ [(key, (f, n))])%list products
    sens d fin struct = Ok s ->
  (key = MASC /\
   Scenario.output_efficiency (Scenario.apply_sens sens d) MASC = Ok rate) \/
  (key = STP /\
   exists e downst eff_downst,
     Scenario.output_efficiency (Scenario.apply_sens sens d) STP = Ok e /\
     Scenario.downstream struct STP = Ok downst /\
     Scenario.output_efficiency (Scenario.apply_sens sens d) downst
       = Ok eff_downst /\
     rate = e * eff_downst) ->
  rate == 1 ->
  Scenario.final_landfill s == Scenario.virgin_prod s * f.
Proof.
  intros H Hkey Hrate. apply scenario_init_inv in H. cbv zeta in H.
  destruct H as (l & first & st & Hbal & _ & Hloop & _ & Hv & Hftl & _).
  apply balance_loop_last in Hbal. destruct Hbal as (l0 & _ & Hbstep).
  apply chain_loop_last in Hloop. destruct Hloop as (st1 & fin1 & _ & Hstep).
  rewrite Hv.
  destruct Hkey as [[-> He] | [-> (e & dn & ed & He & Hdn & Hed & ->)]].
  - apply chain_step_masc in Hstep.
    destruct Hstep as (e' & p & tech & He' & _ & _ & Hfl).
    rewrite He in He'. injection He' as <-.
    apply final_landfill_step_inv in Hfl. destruct Hfl as (_ & _ & _ & Hf & _).
    rewrite Hftl in Hf. injection Hf as ->.
    rewrite Hrate, Qpower_1. ring.
  - apply balance_step_stp in Hbstep.
    destruct Hbstep as (e0 & dn0 & ed0 & He0 & Hdn0 & Hed0 & _ & _ & _ & Hedl).
    rewrite He in He0. injection He0 as <-.
    rewrite Hdn in Hdn0. injection Hdn0 as <-.
    rewrite Hed in Hed0. injection Hed0 as <-.
    apply chain_step_stp in Hstep.
    destruct Hstep as (e' & p & ed' & tech & dn' & td & He' & _ & Hed' & _ & _
                       & _ & Hfl).
    rewrite He in He'. injection He' as <-.
    rewrite Hedl in Hed'. injection Hed' as <-.
    apply final_landfill_step_inv in Hfl. destruct Hfl as (_ & _ & _ & Hf & _).
    rewrite Hftl in Hf. injection Hf as ->.
    rewrite Hrate, Qpower_1. ring.
Qed.

Lemma closed_loop_landfill_without_loss_witness :
  exists s,
    Scenario.__init__ "Barrier Film" "Barrier film" 1.0
      ([] ++ [(STP, (1.0, 1%Z))])%list
      Fixture.products (Some Fixture.no_loss) Fixture.design Fixture.finan
      Fixture.struct = Ok s /\
    Scenario.final_landfill s == Scenario.virgin_prod s * 1.0.
Proof.
  eexists. split; [ vm_compute; reflexivity | ].
  apply (closed_loop_landfill_without_loss "Barrier Film" "Barrier film" 1.0
           [] STP 1.0 1 Fixture.products (Some Fixture.no_loss) Fixture.design
           Fixture.finan Fixture.struct _ (1.0 * 1.0)).
  - vm_compute; reflexivity.
  - right. split; [ reflexivity | ].
    exists 1.0, "Barrier Film", 1.0. repeat split; reflexivity.
  - reflexivity.
Defined.

(** C2 as stated fails: with the efficiency of 'Mechanical and Solvent
    Cleaning' set to exactly 1.0, two cycles and the whole unit functional
    unit, the final-landfill quantity is 1/4, not zero. *)
Lemma lossless_loop_still_landfills :
  exists s,
    Scenario.__init__ "Barrier Film" "Barrier film" 1.0 [(MASC, (1.0, 2%Z))]
      Fixture.products (Some Fixture.no_loss) Fixture.design Fixture.finan
      Fixture.struct = Ok s /\
    Scenario.output_efficiency
      (Scenario.apply_sens (Some Fixture.no_loss) Fixture.design) MASC
      = Ok 1.0 /\
    Scenario.final_landfill s == 1 # 4 /\
    ~ Scenario.final_landfill s == 0.
Proof.
  eexists. split; [ vm_compute; reflexivity | ]. split; [ reflexivity | ].
  split; [ reflexivity | vm_compute; discriminate ].
Qed.

(** C8: for the functional unit 1.0 and the allocation
    [{'Landfilling': [1.0, 0]}], the value chain is the initial production
    instance followed by the 'Landfilling' instance and nothing else, the
    total cost is the sum of their two production costs, and the
    final-landfill quantity is zero, so that no final landfilling step is
    appended. *)
Theorem landfilling_only_chain
    pp product products sens d fin struct s :
  Scenario.__init__ pp product 1.0 [("Landfilling", (1.0, 0%Z))] products
    sens d fin struct = Ok s ->
  exists production landfilling p,
    Scenario.value_chain s
      = [Technology.set_name (pp ++ ", initial") production; landfilling] /\
    Technology.__init__ pp product (Scenario.apply_sens sens d) true 1.0 fin
      = (Ok production, fin) /\
    Scenario.getitem products "Landfilling" = Ok p /\
    Technology.__init__ "Landfilling" p (Scenario.apply_sens sens d) true
      (1.0 * 1.0) fin = (Ok landfilling, fin) /\
    Technology.name landfilling = "Landfilling" /\
    Scenario.total_cost s
      == Technology.production_cost production
         + Technology.production_cost landfilling /\
    Scenario.final_landfill s = 0.0.
Proof.
  intro H. apply scenario_init_inv in H. cbv zeta in H.
  destruct H as (l & first & st & Hbal & Hfirst & Hloop & Hvc & _ & Hftl & _
                 & _ & Htot).
  cbn [Scenario.balance_loop] in Hbal. inv_bind Hbal. injection Hbal as <-.
  apply balance_step_simple in E; [ | discriminate | discriminate ].
  destruct E as (Hvp & _).
  rewrite Hvp in Hfirst.
  cbn [Scenario.chain_loop] in Hloop. apply bind_Ok_inv in Hloop.
  destruct Hloop as (st1 & fin1 & Hstep & Hret). injection Hret as <- _.
  apply chain_step_simple in Hstep; [ | discriminate | discriminate ].
  destruct Hstep as (e & p & tech & _ & Hp & Htech & Hfl).
  change (negb (isin "Landfilling" ["Landfilling"; "Incineration"; "Pyrolysis"]))
    with false in Hfl. cbv iota in Hfl.
  apply final_landfill_step_inv in Hfl.
  destruct Hfl as (_ & _ & _ & Hf & [[_ Hc] | [Hnz _]]);
    [ | exfalso; apply Hnz; reflexivity ].
  cbn [Scenario.st_value_chain app] in Hc.
  rewrite Hftl in Hf. injection Hf as Hf.
  exists first, tech, p.
  pose proof (init_fields _ _ _ _ _ _ _ _ Htech) as (Hname & _).
  pose proof (init_fields _ _ _ _ _ _ _ _ Hfirst) as (Hname1 & _).
  rewrite Htot, Hvc, Hc.
  repeat split; try assumption.
  unfold py_sum. cbn. ring.
Qed.

Lemma landfilling_only_chain_witness :
  exists s,
    Scenario.__init__ "Barrier Film" "Barrier film" 1.0
      [("Landfilling", (1.0, 0%Z))]
      Fixture.products None Fixture.design Fixture.finan Fixture.struct = Ok s /\
    List.length (Scenario.value_chain s) = 2%nat /\
    Scenario.final_landfill s = 0.0.
Proof.
  eexists. split; [ vm_compute; reflexivity | ].
  destruct (landfilling_only_chain "Barrier Film" "Barrier film"
              Fixture.products None Fixture.design Fixture.finan Fixture.struct
              _ ltac:(vm_compute; reflexivity))
    as (t0 & t1 & p & Hvc & _ & _ & _ & _ & _ & Hfl).
  split; [ now rewrite Hvc | exact Hfl ].
Defined.

(** The scenario of the landfilling-only allocation is built as soon as its
    two technologies evaluate and report as many annual-cost rows. *)
Lemma landfilling_only_builds
    pp product products sens d fin struct e0 e1 production p landfilling :
  let design := Scenario.apply_sens sens d in
  Scenario.output_efficiency design pp = Ok e0 ->
  Scenario.output_efficiency design "Landfilling" = Ok e1 ->
  Technology.__init__ pp product design true 1.0 fin = (Ok production, fin) ->
  Scenario.getitem products "Landfilling" = Ok p ->
  Technology.__init__ "Landfilling" p design true (1.0 * 1.0) fin
    = (Ok landfilling, fin) ->
  List.length (Technology.annual_costs production)
    = List.length (Technology.annual_costs landfilling) ->
  exists s,
    Scenario.__init__ pp product 1.0 [("Landfilling", (1.0, 0%Z))] products
      sens d fin struct = Ok s.
Proof.
  intros design H0 H1 Hprod Hp Hland Hlen.
  unfold Scenario.__init__. fold design. cbv zeta.
  rewrite H0. cbn [rbind Scenario.balance_loop].
  unfold Scenario.balance_step. cbn [fst snd]. rewrite H1. cbn [rbind].
  change ("Landfilling" =? MASC) with false.
  change ("Landfilling" =? STP) with false. cbv iota.
  cbn [rbind Scenario._virg_prod].
  unfold bind at 1. rewrite Hprod.
  cbn [Scenario.chain_loop]. unfold bind at 1.
  unfold Scenario.chain_step. cbn [fst snd].
  unfold bind at 1. unfold lift at 1. rewrite H1.
  change ("Landfilling" =? MASC) with false.
  change ("Landfilling" =? STP) with false. cbv iota.
  unfold bind at 1. unfold lift at 1. rewrite Hp.
  unfold bind at 1. rewrite Hland.
  change (negb (isin "Landfilling" ["Landfilling"; "Incineration"; "Pyrolysis"]))
    with false. cbv iota.
  unfold Scenario.final_landfill_step.
  change (negb (Qeq_bool 0.0 0.0)) with false. cbv iota.
  unfold ret. cbn [fst snd rbind Scenario.st_value_chain
                   Scenario._film_to_landfill app].
  unfold Scenario.annual_costs_by_name. cbn [forallb Technology.annual_costs
    Technology.set_name].
  rewrite Nat.eqb_refl, <- Hlen, Nat.eqb_refl. cbn [andb rbind].
  eexists. reflexivity.
Qed.

(** The branches of the second loop other than the solvent treatment set
    [eol_polyethylene_prod] to 0.0: that is what the scenario reports when
    one of them runs last. *)
Lemma last_entry_resets_polyethylene
    pp product fu pre key f n products sens d fin struct s :
  Scenario.__init__ pp product fu (pre ++ [(key, (f, n))])%list products
    sens d fin struct = Ok s ->
  key <> STP ->
  Scenario.eol_polyethylene_prod s = Some 0.0.
Proof.
  intros H Hs. apply scenario_init_inv in H. cbv zeta in H.
  destruct H as (l & first & st & _ & _ & Hloop & _ & _ & _ & _ & Hpe & _).
  apply chain_loop_last in Hloop. destruct Hloop as (st1 & fin1 & _ & Hstep).
  rewrite Hpe.
  assert (Hfl : exists chain film ftl fin2,
    Scenario.final_landfill_step (Scenario.apply_sens sens d) chain film 0.0
      ftl fin1 = (Ok st, fin2)).
  { destruct (String.eqb_spec key MASC) as [-> | Hm].
    - apply chain_step_masc in Hstep.
      destruct Hstep as (e & p & tech & _ & _ & _ & Hfl). eauto 6.
    - apply chain_step_simple in Hstep; try assumption.
      destruct Hstep as (e & p & tech & _ & _ & _ & Hfl). eauto 6. }
  destruct Hfl as (chain & film & ftl & fin2 & Hfl).
  apply final_landfill_step_inv in Hfl. tauto.
Qed.

(** C10 (as amended): in the 'Solvent Treatment and Precipitation' branch
    the instance of that technology is sized to [0.7 * P / eff_downst],
    where [P] is the total secondary film made from its materials and
    [eff_downst] the output efficiency of the downstream regeneration step,
    and the downstream instance is sized to [P] itself; both are in the
    value chain of the scenario, one after the other.  The attribute
    [eol_polyethylene_prod] of the scenario equals [0.7 * P / eff_downst]
    when the entry is the last of the allocation; when another entry
    follows, that entry has set the attribute to 0.0. *)
Theorem solvent_treatment_sizing
    pp product fu pre f n post products sens d fin struct s :
  Scenario.__init__ pp product fu (pre ++ (STP, (f, n)) :: post)%list products
    sens d fin struct = Ok s ->
  ~ In STP (map fst post) ->
  exists e downst eff_downst P tech _downst_film before later,
    Scenario.output_efficiency (Scenario.apply_sens sens d) STP = Ok e /\
    Scenario.downstream struct STP = Ok downst /\
    Scenario.output_efficiency (Scenario.apply_sens sens d) downst
      = Ok eff_downst /\
    P = Scenario.loop_throughput f fu (eff_downst * e) n /\
    Scenario.value_chain s
      = (before ++ tech :: _downst_film :: later)%list /\
    Technology.name tech = STP /\
    Technology.output tech = 0.7 * P / eff_downst /\
    Technology.name _downst_film = downst /\
    Technology.output _downst_film = P /\
    (post = [] ->
     Scenario.eol_polyethylene_prod s = Some (0.7 * P / eff_downst)) /\
    (post <> [] -> Scenario.eol_polyethylene_prod s = Some 0.0).
Proof.
  intros H Hnot.
  destruct (scenario_stp_entry _ _ _ _ _ _ _ _ _ _ _ _ _ H Hnot)
    as (l & e & dn & ed & p & st1 & fin1 & tech & td & st2 & later
        & He & Hdn & Hed & HP & _ & Htech & Htd & _ & Hvc & _ & _
        & _ & _ & Hlast).
  exists e, dn, ed, (Scenario._prod_strap l), tech, td,
    (Scenario.st_value_chain st1), later.
  apply init_fields in Htech. apply init_fields in Htd.
  repeat split; try tauto.
  intro Hpost. destruct (exists_last Hpost) as (post' & [key [f' n']] & ->).
  assert (Hkey : key <> STP).
  { intros ->. apply Hnot. rewrite map_app, in_app_iff. right. now left. }
  rewrite app_comm_cons, app_assoc in H.
  exact (last_entry_resets_polyethylene _ _ _ _ _ _ _ _ _ _ _ _ _ H Hkey).
Qed.

Lemma solvent_treatment_sizing_witness :
  exists s,
    Scenario.__init__ "Barrier Film" "Barrier film" 1.0
      ([] ++ (STP, (1.0, 1%Z)) :: [])%list
      Fixture.products None Fixture.design Fixture.finan Fixture.struct = Ok s /\
    Scenario.eol_polyethylene_prod s
      = Some (0.7 * Scenario.loop_throughput 1.0 1.0 (0.9 * 0.8) 1 / 0.9).
Proof.
  eexists. split; [ vm_compute; reflexivity | ].
  destruct (solvent_treatment_sizing "Barrier Film" "Barrier film" 1.0
              [] 1.0 1 [] Fixture.products None Fixture.design Fixture.finan
              Fixture.struct _ ltac:(vm_compute; reflexivity)
              ltac:(cbn; tauto))
    as (e & dn & ed & P & tech & td & before & later & He & Hdn & Hed & HP
        & _ & _ & _ & _ & _ & Hlast & _).
  vm_compute in He. injection He as <-.
  vm_compute in Hdn. injection Hdn as <-.
  vm_compute in Hed. injection Hed as <-.
  subst P. exact (Hlast eq_refl).
Defined.

(** C10 as stated fails: with 'Pelletizing' iterated after the solvent
    treatment, the instance of the solvent treatment is sized to
    [0.7 * P / eff_downst], which is not zero, and the attribute
    [eol_polyethylene_prod] of the scenario is 0.0. *)
Lemma polyethylene_attribute_overwritten :
  exists s first tech _downst_film later,
    Scenario.__init__ "Barrier Film" "Barrier film" 1.0
      [(STP, (0.5, 1%Z)); ("Pelletizing", (0.5, 0%Z))]
      Fixture.products None Fixture.design Fixture.finan Fixture.struct = Ok s /\
    Scenario.value_chain s = first :: tech :: _downst_film :: later /\
    Technology.name tech = STP /\
    Technology.output tech
      = 0.7 * Scenario.loop_throughput 0.5 1.0 (0.9 * 0.8) 1 / 0.9 /\
    Scenario.eol_polyethylene_prod s = Some 0.0 /\
    ~ 0.0 == 0.7 * Scenario.loop_throughput 0.5 1.0 (0.9 * 0.8) 1 / 0.9.
Proof.
  do 5 eexists. split; [ vm_compute; reflexivity | ].
  split; [ reflexivity | ]. split; [ reflexivity | ].
  split; [ reflexivity | ]. split; [ reflexivity | ].
  vm_compute. discriminate.
Qed.

(** [finan.loc[finan.Index == k, 'Value'] = v], row by row. *)
Lemma loc_set_Value_by_index (k : string) (v : Q) (fin : finan_table) :
  Forall2 (fun r r' =>
             Finan.Category r' = Finan.Category r /\
             Finan.Variable_ r' = Finan.Variable_ r /\
             Finan.Index r' = Finan.Index r /\
             (Finan.Index r = k -> Finan.Value r' = v) /\
             (Finan.Index r <> k -> r' = r))
    fin (Technology.loc_set_Value (fun r => Finan.Index r =? k) v fin).
Proof.
  unfold Technology.loc_set_Value.
  induction fin as [ | r rs IH ]; cbn [map]; constructor; [ | exact IH ].
  destruct (String.eqb_spec (Finan.Index r) k) as [Heq | Hne];
    cbn; repeat split; try reflexivity; intros; congruence.
Qed.

(** C4: when a scenario processes the 'Solvent Treatment and Precipitation'
    entry it evaluates the downstream regeneration step as a non-initial
    instance, then sets the value of the financial rows whose index is
    'Barrier film' to the net normalized cost of that instance, leaving the
    other rows as the non-initial evaluation left them; every technology
    evaluated later in the chain (the final landfilling of that entry and
    all that the later entries add) is evaluated on the table so updated,
    which is also the table the scenario ends with. *)
Theorem barrier_film_cost_feedback
    pp product fu pre f n post products sens d fin struct s :
  Scenario.__init__ pp product fu (pre ++ (STP, (f, n)) :: post)%list products
    sens d fin struct = Ok s ->
  ~ In STP (map fst post) ->
  exists downst P fin1 tech _downst_film before later,
    Scenario.downstream struct STP = Ok downst /\
    Scenario.value_chain s
      = (before ++ tech :: _downst_film :: later)%list /\
    Technology.__init__ downst "Barrier film" (Scenario.apply_sens sens d)
      false P fin1
      = (Ok _downst_film, Technology.finan _downst_film) /\
    Forall2 (fun r r' =>
               Finan.Category r' = Finan.Category r /\
               Finan.Variable_ r' = Finan.Variable_ r /\
               Finan.Index r' = Finan.Index r /\
               (Finan.Index r = "Barrier film" ->
                Finan.Value r'
                  = Technology.net_normalized_costs _downst_film) /\
               (Finan.Index r <> "Barrier film" -> r' = r))
      (Technology.finan _downst_film) (Scenario.finan s) /\
    Forall (fun t => Technology.finan t = Scenario.finan s) later.
Proof.
  intros H Hnot.
  destruct (scenario_stp_entry _ _ _ _ _ _ _ _ _ _ _ _ _ H Hnot)
    as (l & e & dn & ed & p & st1 & fin1 & tech & td & st2 & later
        & _ & Hdn & _ & _ & _ & _ & Htd & _ & Hvc & Hlater & Hfin & _).
  exists dn, (Scenario._prod_strap l), fin1, tech, td,
    (Scenario.st_value_chain st1), later.
  pose proof (init_fields _ _ _ _ _ _ _ _ Htd) as (_ & _ & Hsnap).
  rewrite Hsnap, Hfin.
  split; [ exact Hdn | ]. split; [ exact Hvc | ]. split; [ exact Htd | ].
  split; [ apply loc_set_Value_by_index | exact Hlater ].
Qed.

Lemma barrier_film_cost_feedback_witness :
  exists s,
    Scenario.__init__ "Barrier Film" "Barrier film" 1.0
      ([] ++ (STP, (1.0, 1%Z)) :: [("Pelletizing", (0.5, 0%Z))])%list
      Fixture.products None Fixture.design Fixture.finan Fixture.struct = Ok s /\
    exists tech _downst_film before later,
      Scenario.value_chain s
        = (before ++ tech :: _downst_film :: later)%list /\
      Forall (fun t => Technology.finan t = Scenario.finan s) later.
Proof.
  eexists. split; [ vm_compute; reflexivity | ].
  destruct (barrier_film_cost_feedback "Barrier Film" "Barrier film" 1.0
              [] 1.0 1 [("Pelletizing", (0.5, 0%Z))] Fixture.products None
              Fixture.design Fixture.finan Fixture.struct _
              ltac:(vm_compute; reflexivity)
              ltac:(cbn; intros [Hx | []]; discriminate Hx))
    as (dn & P & fin1 & tech & td & before & later & _ & Hvc & _ & _
        & Hlater).
  exists tech, td, before, later. split; assumption.
Defined.

(** ** The errors of an evaluation *)

Lemma series_array_error {A B C} (f : A -> B -> C) s a e :
  series_array f s a = Raise e -> e = ValueError.
Proof.
  unfold series_array. destruct (Nat.eqb _ _); [ discriminate | ].
  destruct a as [ | x [ | y a ] ]; congruence.
Qed.

Lemma array_array_error f a b e :
  array_array f a b = Raise e -> e = ValueError.
Proof.
  unfold array_array. destruct (Nat.eqb _ _); [ discriminate | ].
  destruct a as [ | x [ | x' a ] ]; destruct b as [ | y [ | y' b ] ]; congruence.
Qed.

Lemma one_column_error {A} (a : list A) e :
  one_column a = Raise e -> e = FromDictError.
Proof. destruct a as [ | x [ | y a ] ]; cbn; congruence. Qed.

Lemma values0_error {A} (a : list A) e :
  values0 a = Raise e -> e = IndexError.
Proof. destruct a; cbn; congruence. Qed.

(** Splits [rbind c k = Raise e] into the failure of [c] and the failure of
    the continuation. *)
Ltac err_bind H :=
  match type of H with
  | rbind ?c _ = Raise _ =>
    let E := fresh "E" in
    destruct c eqn:E; cbn [rbind] in H;
    [ | injection H as <- ]
  end.

Ltac shape_error :=
  match goal with
  | E : series_array _ _ _ = Raise _ |- _ => apply series_array_error in E
  | E : array_array _ _ _ = Raise _ |- _ => apply array_array_error in E
  | E : one_column _ = Raise _ |- _ => apply one_column_error in E
  | E : values0 _ = Raise _ |- _ => apply values0_error in E
  end; subst; auto.

Section MethodErrors.
Variable name : string.
Variable design : design_table.
Variable finan : finan_table.
Variable op_hrs_yr : list Q.

Lemma times_op_hrs_error x e :
  Technology.times_op_hrs op_hrs_yr x = Raise e -> e = FromDictError.
Proof.
  unfold Technology.times_op_hrs. intro H. err_bind H; [ discriminate | shape_error ].
Qed.

Lemma capital_error e :
  Technology.capital design finan = Raise e -> e = ValueError.
Proof.
  unfold Technology.capital. intro H.
  err_bind H; [ | shape_error ]. err_bind H; [ discriminate | shape_error ].
Qed.

Lemma raw_material_error e :
  Technology.raw_material name design finan op_hrs_yr = Raise e ->
  e = FromDictError.
Proof.
  unfold Technology.raw_material. intro H.
  destruct (negb _); [ | discriminate ].
  err_bind H; [ | now apply times_op_hrs_error in E ].
  err_bind H; [ discriminate | now apply times_op_hrs_error in E0 ].
Qed.

Lemma labor_error e :
  Technology.labor design finan = Raise e ->
  e = ValueError \/ e = FromDictError.
Proof.
  unfold Technology.labor. intro H.
  err_bind H; [ | shape_error ]. err_bind H; [ discriminate | shape_error ].
Qed.

Lemma utilities_error e :
  Technology.utilities design finan op_hrs_yr = Raise e -> e = FromDictError.
Proof.
  unfold Technology.utilities. intro H.
  err_bind H; [ discriminate | now apply times_op_hrs_error in E ].
Qed.

Lemma wastes_error e :
  Technology.wastes name design finan op_hrs_yr = Raise e ->
  e = ValueError \/ e = FromDictError.
Proof.
  unfold Technology.wastes. intro H.
  err_bind H; [ | shape_error ].
  destruct (negb _);
    (err_bind H; [ discriminate | right; now apply times_op_hrs_error in E0 ]).
Qed.

Lemma other_costs_error e :
  Technology.other_costs design finan op_hrs_yr = Raise e -> e = ValueError.
Proof.
  unfold Technology.other_costs. intro H.
  destruct (merge _ _); [ discriminate | ].
  err_bind H; [ discriminate | shape_error ].
Qed.

Lemma production_error e :
  Technology.production design op_hrs_yr = Raise e -> e = ValueError.
Proof.
  unfold Technology.production. intro H.
  destruct (existsb _ _); cbv zeta in H; shape_error.
Qed.
End MethodErrors.

(** Past its two checks, a construction can only fail in the calculations:
    on shapes that numpy or [from_dict] refuse, or on the first row of an
    empty [output_amounts]. *)
Lemma evaluate_error name product sd output fin e :
  Technology.evaluate name product sd output fin = Raise e ->
  e = ValueError \/ e = FromDictError \/ e = IndexError.
Proof.
  unfold Technology.evaluate. intro H.
  err_bind H; [ | left; eapply capital_error; eassumption ].
  err_bind H; [ | right; left; eapply raw_material_error; eassumption ].
  err_bind H; [ | apply labor_error in E1; tauto ].
  err_bind H; [ | right; left; eapply utilities_error; eassumption ].
  err_bind H; [ | apply wastes_error in E3; tauto ].
  err_bind H; [ | left; eapply other_costs_error; eassumption ].
  err_bind H; [ | left; eapply production_error; eassumption ].
  err_bind H; [ discriminate | right; right; eapply values0_error; eassumption ].
Qed.

Lemma filter_nil_iff {A} (p : A -> bool) (l : list A) :
  filter p l = [] <-> forall x, In x l -> p x = false.
Proof.
  split.
  - intros H x Hx. destruct (p x) eqn:Hp; [ | reflexivity ].
    assert (Hin : In x (filter p l)) by (apply filter_In; auto).
    rewrite H in Hin. destruct Hin.
  - intro H. induction l as [ | a l IH ]; [ reflexivity | ].
    cbn. rewrite (H a) by now left. apply IH. intros x Hx. apply H. now right.
Qed.

(** The product check of [__init__], as a statement on the design rows. *)
Lemma product_check_iff name product (design_data : design_table) :
  existsb (fun i => isin i [product])
    (map Design.Index
       (filter (fun r => Design.Variable_ r =? "Output")
          (filter (fun r => Design.Technology r =? name) design_data))) = true
  <-> exists row,
        In row design_data /\ Design.Technology row = name /\
        Design.Variable_ row = "Output" /\ Design.Index row = product.
Proof.
  rewrite existsb_exists. split.
  - intros (i & Hi & Hp). apply in_map_iff in Hi.
    destruct Hi as (row & <- & Hrow).
    apply filter_In in Hrow. destruct Hrow as (Hrow & Hv).
    apply filter_In in Hrow. destruct Hrow as (Hrow & Ht).
    exists row. cbn in Hp. rewrite orb_false_r in Hp.
    apply String.eqb_eq in Hp, Hv, Ht. auto.
  - intros (row & Hin & Ht & Hv & Hi). exists (Design.Index row). split.
    + apply in_map, filter_In. split; [ apply filter_In; split | ];
        [ exact Hin | now apply String.eqb_eq | now apply String.eqb_eq ].
    + cbn. rewrite orb_false_r. now apply String.eqb_eq.
Qed.

(** C6 (as amended): the construction of a technology ends with the
    technology-not-found error exactly when the design table has no row of
    that technology, and with the product-not-found error exactly when it
    has such rows but none of them is an 'Output' row of the product; it
    completes only when both rows are present.  (With both rows present it
    may still fail, in the calculations.) *)
Theorem not_found_errors name product design_data initial output fin :
  let run := Technology.__init__ name product design_data initial output fin in
  let has_technology :=
    exists row, In row design_data /\ Design.Technology row = name in
  let has_product :=
    exists row, In row design_data /\ Design.Technology row = name /\
                Design.Variable_ row = "Output" /\ Design.Index row = product in
  (fst run = Raise (TechnologyNotFound name) <-> ~ has_technology) /\
  (fst run = Raise (ProductNotFound product name)
   <-> has_technology /\ ~ has_product) /\
  (forall t, fst run = Ok t -> has_technology /\ has_product).
Proof.
  cbv zeta. rewrite init_unfold. cbv zeta.
  pose proof (product_check_iff name product design_data) as Hprod.
  assert (Htech : filter (fun r => Design.Technology r =? name) design_data = []
                  <-> ~ exists row, In row design_data
                                    /\ Design.Technology row = name).
  { rewrite filter_nil_iff. split.
    - intros H (row & Hin & Ht). apply H in Hin.
      apply String.eqb_neq in Hin. contradiction.
    - intros H row Hin. apply String.eqb_neq. intro Ht. apply H. eauto. }
  destruct (filter (fun r => Design.Technology r =? name) design_data)
    as [ | r0 rs ] eqn:Ef.
  - assert (Hno : ~ exists row, In row design_data
                                /\ Design.Technology row = name)
      by now apply Htech.
    cbn [fst snd]. repeat split; try tauto; try discriminate.
  - assert (Hyes : exists row, In row design_data
                               /\ Design.Technology row = name).
    { destruct (filter_In (fun r => Design.Technology r =? name) r0 design_data)
        as [Hf _].
      rewrite Ef in Hf. destruct (Hf (or_introl eq_refl)) as [Hin Ht].
      exists r0. split; [ exact Hin | now apply String.eqb_eq ]. }
    assert (Hnn : ~ ~ exists row, In row design_data
                                  /\ Design.Technology row = name) by tauto.
    destruct (existsb _ _) eqn:Ex; cbn [negb fst snd].
    + assert (Hp : exists row, In row design_data /\ Design.Technology row = name
                     /\ Design.Variable_ row = "Output"
                     /\ Design.Index row = product) by now apply Hprod.
      destruct (Technology.evaluate name product (r0 :: rs) output
                  (if initial then fin else Technology.zero_strap_inputs fin))
        as [ t | e ] eqn:Ev.
      * repeat split; try tauto; try discriminate.
      * apply evaluate_error in Ev.
        split; [ | split ].
        -- split; [ | tauto ]. intros [= ->].
           destruct Ev as [Ev | [Ev | Ev]]; discriminate.
        -- split; [ | tauto ]. intros [= ->].
           destruct Ev as [Ev | [Ev | Ev]]; discriminate.
        -- discriminate.
    + assert (Hp : ~ exists row, In row design_data
                     /\ Design.Technology row = name
                     /\ Design.Variable_ row = "Output"
                     /\ Design.Index row = product).
      { intro Hp. apply Hprod in Hp. congruence. }
      repeat split; try tauto; try discriminate.
Qed.

(** C6 as stated fails: the design table has rows of 'Landfilling', one of
    them the 'Output' row of 'Landfilled waste', and the evaluation still
    ends with an error, because the financial table holds two 'Working
    Hours' rows. *)
Lemma evaluation_fails_with_rows_present :
  (exists row, In row Fixture.design
               /\ Design.Technology row = "Landfilling") /\
  (exists row, In row Fixture.design
               /\ Design.Technology row = "Landfilling"
               /\ Design.Variable_ row = "Output"
               /\ Design.Index row = "Landfilled waste") /\
  (exists e,
     fst (Technology.__init__ "Landfilling" "Landfilled waste" Fixture.design
            true 1.0 Fixture.finan_two_shifts) = Raise e) /\
  (exists t,
     fst (Technology.__init__ "Landfilling" "Landfilled waste" Fixture.design
            true 1.0 Fixture.finan) = Ok t).
Proof.
  split; [ | split; [ | split ] ].
  - exists (Fixture.d "Landfilling" "Output" "Landfilled waste" 100).
    split; [ | reflexivity ]. unfold Fixture.design. cbn. tauto.
  - exists (Fixture.d "Landfilling" "Output" "Landfilled waste" 100).
    split; [ | repeat split ]. unfold Fixture.design. cbn. tauto.
  - eexists. vm_compute. reflexivity.
  - eexists. vm_compute. reflexivity.
Qed.

(** ** The update of the shared financial table *)

(** [zero_strap_inputs], row by row. *)
Lemma zero_strap_inputs_rows (fin : finan_table) :
  Forall2 (fun r r' =>
             Finan.Category r' = Finan.Category r /\
             Finan.Variable_ r' = Finan.Variable_ r /\
             Finan.Index r' = Finan.Index r /\
             (Finan.Category r = "Cost" /\ Finan.Variable_ r = "Input" /\
              (Finan.Index r = "Nylon 6" \/ Finan.Index r = "Polyethylene") ->
              Finan.Value r' = 0.0) /\
             (~ (Finan.Category r = "Cost" /\ Finan.Variable_ r = "Input" /\
                 (Finan.Index r = "Nylon 6" \/ Finan.Index r = "Polyethylene")) ->
              r' = r))
    fin (Technology.zero_strap_inputs fin).
Proof.
  unfold Technology.zero_strap_inputs, Technology.loc_set_Value.
  induction fin as [ | r rs IH ]; cbn [map]; constructor; [ | exact IH ].
  unfold Technology.is_strap_input, isin. cbn [existsb].
  destruct (String.eqb_spec (Finan.Category r) "Cost") as [Hc | Hc];
  destruct (String.eqb_spec (Finan.Variable_ r) "Input") as [Hv | Hv];
  destruct (String.eqb_spec "Nylon 6" (Finan.Index r)) as [Hn | Hn];
  destruct (String.eqb_spec "Polyethylene" (Finan.Index r)) as [Hp | Hp];
  cbn; repeat split; try reflexivity; intuition congruence.
Qed.

(** The financial table after any construction, failed ones included: the
    two checks come before the update, the calculations after it. *)
Lemma init_table name product design_data initial output fin :
  snd (Technology.__init__ name product design_data initial output fin)
  = if initial then fin
    else match fst (Technology.__init__ name product design_data initial
                      output fin) with
         | Raise (TechnologyNotFound _) | Raise (ProductNotFound _ _) => fin
         | _ => Technology.zero_strap_inputs fin
         end.
Proof.
  rewrite init_unfold. cbv zeta.
  destruct (filter _ design_data) as [ | r0 rs ].
  - cbn. now destruct initial.
  - destruct (negb _).
    + cbn. now destruct initial.
    + cbn [fst snd]. destruct initial; [ reflexivity | ].
      destruct (Technology.evaluate _ _ _ _ _) as [ t | e ] eqn:Ev;
        [ reflexivity | ].
      apply evaluate_error in Ev. destruct Ev as [-> | [-> | ->]]; reflexivity.
Qed.

(** C5: constructing a technology with [initial] false sets to zero the
    value of exactly the financial rows of category 'Cost', variable 'Input'
    and index 'Nylon 6' or 'Polyethylene', and leaves every other row as it
    is; the table so updated is the one the instance holds and the one
    whatever runs next on the shared table starts from, and a later initial
    construction still sees it and keeps it.  With [initial] true the table
    is left unchanged. *)
Theorem non_initial_zeroes_strap_inputs
    name product design_data initial output fin r fin' :
  Technology.__init__ name product design_data initial output fin = (r, fin') ->
  (initial = true -> fin' = fin) /\
  (initial = false -> forall t, r = Ok t ->
   Forall2 (fun r r' =>
              Finan.Category r' = Finan.Category r /\
              Finan.Variable_ r' = Finan.Variable_ r /\
              Finan.Index r' = Finan.Index r /\
              (Finan.Category r = "Cost" /\ Finan.Variable_ r = "Input" /\
               (Finan.Index r = "Nylon 6" \/ Finan.Index r = "Polyethylene") ->
               Finan.Value r' = 0.0) /\
              (~ (Finan.Category r = "Cost" /\ Finan.Variable_ r = "Input" /\
                  (Finan.Index r = "Nylon 6"
                   \/ Finan.Index r = "Polyethylene")) ->
               r' = r))
     fin fin' /\
   Technology.finan t = fin' /\
   (forall (B : Type) (k : Technology.t -> M B),
      bind (Technology.__init__ name product design_data false output) k fin
      = k t fin') /\
   (forall name2 product2 design2 output2 r2 fin2,
      Technology.__init__ name2 product2 design2 true output2 fin' = (r2, fin2) ->
      fin2 = fin' /\ forall t2, r2 = Ok t2 -> Technology.finan t2 = fin')).
Proof.
  intro H. split.
  - intros ->. eapply init_initial_table; eassumption.
  - intros -> t ->.
    pose proof (init_Ok _ _ _ _ _ _ _ _ H) as (Hfin & _).
    pose proof (init_fields _ _ _ _ _ _ _ _ H) as (_ & _ & Hsnap).
    split; [ | split; [ exact Hsnap | split ] ].
    + rewrite Hfin. apply zero_strap_inputs_rows.
    + intros B k. unfold bind. now rewrite H.
    + intros name2 product2 design2 output2 r2 fin2 H2.
      pose proof (init_initial_table _ _ _ _ _ _ _ H2) as ->.
      split; [ reflexivity | ]. intros t2 ->.
      now apply init_fields in H2.
Qed.

Lemma non_initial_zeroes_strap_inputs_witness :
  exists t fin',
    Technology.__init__ "Barrier Film" "Barrier film" Fixture.design false 1.0
      Fixture.finan = (Ok t, fin') /\
    Technology.finan t = fin' /\
    In (Finan.mk "Cost" "Input" "Nylon 6" 1.5) Fixture.finan /\
    In (Finan.mk "Cost" "Input" "Nylon 6" 0.0) fin'.
Proof.
  do 2 eexists. split; [ vm_compute; reflexivity | ]. split.
  - apply (non_initial_zeroes_strap_inputs "Barrier Film" "Barrier film"
             Fixture.design false 1.0 Fixture.finan _ _
             ltac:(vm_compute; reflexivity)); reflexivity.
  - split; [ cbn; tauto | cbn; tauto ].
Defined.

(** ** Normalization and production amounts *)

Lemma series_array_scalar {A B C} (f : A -> B -> C) (s : list A) (h : B) :
  series_array f s [h] = Ok (map (fun y => f y h) s).
Proof.
  unfold series_array. destruct s as [ | x [ | y s ] ]; reflexivity.
Qed.

(** What [__init__] does with the costs once they are computed: every cost
    and revenue line is divided by the [Actual] amount of the first row of
    [output_amounts]; the net normalized cost is the sum of the normalized
    costs minus the sum of the normalized revenue; the production cost is
    the required output times the net normalized cost. *)
Lemma evaluate_normalization name product sd output fin t :
  Technology.evaluate name product sd output fin = Ok t ->
  exists first rest,
    Technology.output_amounts t = first :: rest /\
    Technology.normalized_costs t
      = map (fun r => (fst r, vdiv (snd r) (Some (Technology.Actual first))))
            (Technology.annual_costs t) /\
    Technology.normalized_revenue t
      = map (fun r => (fst r, vdiv (snd r) (Some (Technology.Actual first))))
            (Technology.annual_revenue t) /\
    Technology.net_normalized_costs t
      = pd_sum_val (map snd (Technology.normalized_costs t))
        - pd_sum_val (map snd (Technology.normalized_revenue t)) /\
    Technology.production_cost t
      = Technology.output t * Technology.net_normalized_costs t.
Proof.
  unfold Technology.evaluate. intro H.
  repeat inv_bind H.
  match goal with
  | E : values0 (map Technology.Actual ?o) = Ok _ |- _ =>
    destruct o as [ | first rest ]; [ discriminate E | ];
    cbn in E; injection E as <-
  end.
  injection H as <-. exists first, rest. cbn. repeat split; reflexivity.
Qed.

(** C3, at an input where the primary product is not the first output
    line: 'Solvent Treatment and Precipitation' evaluated for its second
    output, 'Nylon 6'.  The raw-material line is divided by the actual
    amount of 'Polyethylene', the first line, and not by that of the
    primary product. *)
Lemma normalization_by_first_output_line :
  exists t first primary annual normalized,
    fst (Technology.__init__ STP "Nylon 6" Fixture.design true 1.0
           Fixture.finan) = Ok t /\
    Technology.output_amounts t = [first; primary] /\
    Technology.Index first = "Polyethylene" /\
    Technology.Index primary = Technology.product t /\
    In ("Raw Material", Some annual) (Technology.annual_costs t) /\
    In ("Raw Material", Some normalized) (Technology.normalized_costs t) /\
    normalized == annual / Technology.Actual first /\
    ~ normalized == annual / Technology.Actual primary.
Proof.
  do 5 eexists. split; [ vm_compute; reflexivity | ].
  split; [ reflexivity | ]. split; [ reflexivity | ]. split; [ reflexivity | ].
  split; [ right; right; left; reflexivity | ].
  split; [ right; right; left; reflexivity | ].
  split; [ vm_compute; reflexivity | vm_compute; discriminate ].
Qed.

(** Without any efficiency row, every output line is reported, with the
    actual amount equal to the theoretical one. *)
Lemma production_without_efficiency (design : design_table) (h : Q) :
  (forall r, In r design -> Design.Variable_ r <> "Output efficiency") ->
  Technology.production design [h]
  = Ok (map (fun r => Technology.mk_output (Design.Index r)
                        (Design.Value r * h) (Design.Value r * h))
            (filter (fun r => Design.Variable_ r =? "Output") design)).
Proof.
  intro Hno. unfold Technology.production.
  replace (existsb (fun r => Design.Variable_ r =? "Output efficiency") design)
    with false.
  - cbv zeta. rewrite series_array_scalar.
    unfold Technology.design_var, design_iv. now rewrite map_map.
  - symmetry. apply not_true_is_false. intro Hex.
    apply existsb_exists in Hex. destruct Hex as (r & Hin & Hr).
    apply String.eqb_eq in Hr. exact (Hno r Hin Hr).
Qed.

(** With efficiency rows, the lines reported are those of the merge: one
    per output row and efficiency row of the same index. *)
Lemma production_with_efficiency (design : design_table) (h : Q) :
  (exists r, In r design /\ Design.Variable_ r = "Output efficiency") ->
  Technology.production design [h]
  = Ok (map (fun o => Technology.mk_output (fst (fst o))
                        (snd (fst o) * snd o * h) (snd (fst o) * h))
            (merge (Technology.design_var design "Output")
                   (Technology.design_var design "Output efficiency"))).
Proof.
  intros (r & Hin & Hr). unfold Technology.production.
  replace (existsb (fun r => Design.Variable_ r =? "Output efficiency") design)
    with true.
  - cbv zeta. now rewrite series_array_scalar.
  - symmetry. apply existsb_exists. exists r.
    split; [ exact Hin | now apply String.eqb_eq ].
Qed.

(** C7, at an input where one output line has an efficiency row and
    another has none: the line without one, 'Fines', is an output line of
    the technology and is missing from the production amounts. *)
Lemma production_drops_line_without_efficiency :
  (exists row, In row Fixture.sorting_design
               /\ Design.Technology row = "Sorting"
               /\ Design.Variable_ row = "Output"
               /\ Design.Index row = "Fines") /\
  exists t,
    fst (Technology.__init__ "Sorting" "Flakes" Fixture.sorting_design true
           1.0 Fixture.finan) = Ok t /\
    map Technology.Index (Technology.output_amounts t) = ["Flakes"] /\
    ~ In "Fines" (map Technology.Index (Technology.output_amounts t)).
Proof.
  split.
  - eexists. split; [ right; left; reflexivity | repeat split ].
  - eexists. split; [ vm_compute; reflexivity | ].
    split; [ reflexivity | ]. cbn. intros [Hx | []]. discriminate Hx.
Qed.

(** * Further properties of the technology calculations *)

(** ** Shapes *)

Lemma series_array_length {A B C} (f : A -> B -> C) s a l :
  series_array f s a = Ok l -> List.length l = List.length s.
Proof.
  unfold series_array. destruct (Nat.eqb _ _) eqn:E.
  - intros [= <-]. apply Nat.eqb_eq in E.
    now rewrite length_map, length_combine, E, Nat.min_id.
  - destruct a as [ | x [ | y a ] ]; try discriminate.
    intros [= <-]. now rewrite length_map.
Qed.

Lemma one_column_Ok {A} (a : list A) x : one_column a = Ok x <-> a = [x].
Proof.
  destruct a as [ | y [ | z a ] ]; cbn; split; intro H;
    try discriminate; now injection H as ->.
Qed.

Lemma times_op_hrs_Ok op_hrs_yr x v :
  Technology.times_op_hrs op_hrs_yr x = Ok v ->
  exists h, op_hrs_yr = [h] /\ v = Some (x * h).
Proof.
  unfold Technology.times_op_hrs. intro H. inv_bind H. injection H as <-.
  apply one_column_Ok in E.
  destruct op_hrs_yr as [ | h [ | h' l ] ]; try discriminate.
  injection E as <-. eauto.
Qed.

(** The labor line exists exactly when the financial table has one
    'Working Hours' row and one labor-burden row. *)
Lemma labor_Ok_iff design finan f :
  Technology.labor design finan = Ok f <->
  exists w b,
    finan_values (fun r => Finan.Variable_ r =? "Working Hours") finan = [w] /\
    finan_values (fun r => (Finan.Category r =? "Cost Multiplier")
                           && (Finan.Variable_ r =? "Labor")) finan = [b] /\
    f = [("Labor",
          Some (pd_sum (map (fun m => snd (fst m) * snd m)
                          (merge (Technology.design_var design "Labor")
                                 (Technology.finan_var finan "Labor")))
                * w * (1 + b)))].
Proof.
  unfold Technology.labor. cbv zeta.
  set (W := finan_values _ finan).
  set (B := finan_values (fun r => (_ && _)%bool) finan).
  set (c := pd_sum _).
  split.
  - intro H. inv_bind H. inv_bind H. injection H as <-.
    apply one_column_Ok in E0. subst a.
    unfold array_array in E.
    destruct W as [ | w [ | w' W ] ]; destruct B as [ | b [ | b' B ] ];
      cbn in E; try discriminate;
      try (destruct (Nat.eqb _ _); discriminate).
    injection E as <-. exists w, b. auto.
  - intros (w & b & -> & -> & ->). reflexivity.
Qed.

(** X1: [labor] returns its line exactly when the financial table holds one
    'Working Hours' row and one ('Cost Multiplier', 'Labor') row; with none
    or several of either it returns nothing and ends with an error, raised
    by numpy or by pandas; the line is the summed hourly labor cost times the
    working hours times one plus the burden. *)
Theorem labor_single_parameters design finan :
  let W := finan_values (fun r => Finan.Variable_ r =? "Working Hours") finan in
  let B := finan_values (fun r => (Finan.Category r =? "Cost Multiplier")
                                  && (Finan.Variable_ r =? "Labor")) finan in
  let hourly := pd_sum (map (fun m => snd (fst m) * snd m)
                          (merge (Technology.design_var design "Labor")
                                 (Technology.finan_var finan "Labor"))) in
  (forall w b, W = [w] -> B = [b] ->
     Technology.labor design finan
     = Ok [("Labor", Some (hourly * w * (1 + b)))]) /\
  (List.length W <> 1%nat \/ List.length B <> 1%nat ->
     exists e, Technology.labor design finan = Raise e).
Proof.
  cbv zeta. split.
  - intros w b HW HB. apply labor_Ok_iff. exists w, b. auto.
  - intro Hlen.
    destruct (Technology.labor design finan) as [ f | e ] eqn:E.
    + apply labor_Ok_iff in E. destruct E as (w & b & HW & HB & _).
      rewrite HW, HB in Hlen. cbn in Hlen. destruct Hlen; congruence.
    + exists e. reflexivity.
Qed.

(** X2: a technology evaluates only on a financial table with exactly one
    'Operating Hours' row, one 'Working Hours' row and one labor-burden
    row. *)
Theorem evaluation_needs_single_parameters name product sd output fin t :
  Technology.evaluate name product sd output fin = Ok t ->
  exists h w b,
    finan_values (fun r => Finan.Variable_ r =? "Operating Hours") fin = [h] /\
    Technology.op_hrs_yr t = [h] /\
    finan_values (fun r => Finan.Variable_ r =? "Working Hours") fin = [w] /\
    finan_values (fun r => (Finan.Category r =? "Cost Multiplier")
                           && (Finan.Variable_ r =? "Labor")) fin = [b].
Proof.
  unfold Technology.evaluate. cbv zeta. intro H.
  inv_bind H. inv_bind H. inv_bind H. inv_bind H.
  match goal with
  | E : Technology.labor _ _ = Ok _ |- _ =>
    apply labor_Ok_iff in E; destruct E as (w & b & HW & HB & _)
  end.
  match goal with
  | E : Technology.utilities _ _ _ = Ok _ |- _ =>
    unfold Technology.utilities in E; cbv zeta in E; inv_bind E;
    match goal with
    | E' : Technology.times_op_hrs _ _ = Ok _ |- _ =>
      apply times_op_hrs_Ok in E'; destruct E' as (h & Hh & _)
    end
  end.
  repeat inv_bind H. injection H as <-. cbn.
  exists h, w, b. auto.
Qed.

Lemma evaluation_needs_single_parameters_witness :
  exists t,
    Technology.evaluate "Landfilling" "Landfilled waste"
      (filter (fun r => Design.Technology r =? "Landfilling") Fixture.design)
      1.0 Fixture.finan = Ok t /\
    Technology.op_hrs_yr t = [8000].
Proof.
  eexists. split; [ vm_compute; reflexivity | ].
  destruct (evaluation_needs_single_parameters "Landfilling" "Landfilled waste"
              (filter (fun r => Design.Technology r =? "Landfilling")
                 Fixture.design) 1.0 Fixture.finan _
              ltac:(vm_compute; reflexivity))
    as (h & w & b & Hh & Ht & _).
  vm_compute in Hh. injection Hh as <-. exact Ht.
Defined.

(** ** Capital *)

Lemma fold_vadd_None (l : list val) : fold_left vadd l None = None.
Proof. induction l as [ | x l IH ]; cbn; auto. Qed.

Lemma py_sum_val_missing (l : list val) : In None l -> py_sum_val l = None.
Proof.
  unfold py_sum_val. generalize (Some 0). induction l as [ | x l IH ];
    intros acc Hin; [ destruct Hin | ].
  cbn. destruct Hin as [-> | Hin].
  - destruct acc; cbn; apply fold_vadd_None.
  - now apply IH.
Qed.

(** Scaling every term of a Python sum scales the sum; a missing term makes
    both sums missing. *)
Lemma fold_vadd_scale (c : Q) (l : list val) : forall a a' : val,
  match a, a' with
  | Some p, Some q => q == c * p
  | None, None => True
  | _, _ => False
  end ->
  match fold_left vadd l a, fold_left vadd (map (vmul (Some c)) l) a' with
  | Some p, Some q => q == c * p
  | None, None => True
  | _, _ => False
  end.
Proof.
  induction l as [ | x l IH ]; intros a a' H; [ exact H | ].
  cbn [map fold_left]. apply IH.
  destruct a as [ p | ], a' as [ q | ], x as [ y | ]; cbn; try exact H; try exact I.
  rewrite H. ring.
Qed.

Lemma py_sum_val_scale (c : Q) (l : list val) :
  match py_sum_val l, py_sum_val (map (vmul (Some c)) l) with
  | Some p, Some q => q == c * p
  | None, None => True
  | _, _ => False
  end.
Proof. apply fold_vadd_scale. cbn. ring. Qed.

(** X3: with one 'Installation' row [i] and one 'Maintenance' row [m] in the
    financial table, [capital] succeeds and its totals are tied: the
    installed capital is [(1 + i)] times the purchased capital and the annual
    maintenance is [m] times it; when a capital item has no unit cost the
    purchased capital is missing (NaN) and so are the other two. *)
Theorem capital_totals design finan i m :
  finan_values (fun r => Finan.Index r =? "Installation") finan = [i] ->
  finan_values (fun r => Finan.Index r =? "Maintenance") finan = [m] ->
  exists purchased installed annualized maintenance,
    Technology.capital design finan
    = Ok ([("Capital Purchased", purchased); ("Capital Installed", installed)],
          [("Capital, Annualized", annualized); ("Maintenance", maintenance)]) /\
    match purchased with
    | Some p =>
      (exists q, installed = Some q /\ q == (1 + i) * p) /\
      (exists q, maintenance = Some q /\ q == m * p)
    | None => installed = None /\ maintenance = None
    end.
Proof.
  intros Hi Hm. unfold Technology.capital. cbv zeta.
  rewrite Hi, Hm, !series_array_scalar. cbn [rbind].
  set (purch := map (fun c => vmul (Some (snd (fst c))) (snd c)) _).
  do 4 eexists. split; [ reflexivity | ].
  pose proof (py_sum_val_scale (1 + i) purch) as H1.
  pose proof (py_sum_val_scale m purch) as H2.
  unfold vmul in H1, H2 |- *.
  change (fun p : val => vlift2 Qmult (Some (1 + i)) p)
    with (vlift2 Qmult (Some (1 + i))).
  change (fun p : val => vlift2 Qmult (Some m) p) with (vlift2 Qmult (Some m)).
  destruct (py_sum_val purch) as [ p | ].
  - destruct (py_sum_val (map (vlift2 Qmult (Some (1 + i))) purch));
      [ | destruct H1 ].
    destruct (py_sum_val (map (vlift2 Qmult (Some m)) purch));
      [ | destruct H2 ].
    split; eauto.
  - destruct (py_sum_val (map (vlift2 Qmult (Some (1 + i))) purch));
      [ destruct H1 | ].
    destruct (py_sum_val (map (vlift2 Qmult (Some m)) purch));
      [ destruct H2 | ].
    auto.
Qed.

Lemma capital_totals_witness :
  exists purchased installed annualized maintenance,
    Technology.capital
      (filter (fun r => Design.Technology r =? "Barrier Film") Fixture.design)
      Fixture.finan
    = Ok ([("Capital Purchased", Some purchased);
           ("Capital Installed", Some installed)],
          [("Capital, Annualized", annualized);
           ("Maintenance", Some maintenance)]) /\
    installed == (1 + 0.5) * purchased /\
    maintenance == 0.05 * purchased.
Proof.
  destruct (capital_totals
              (filter (fun r => Design.Technology r =? "Barrier Film")
                 Fixture.design)
              Fixture.finan 0.5 0.05 eq_refl eq_refl)
    as (p & i & a & m & Hc & Hrel).
  vm_compute in Hc. injection Hc as <- <- <- <-.
  cbv iota in Hrel. destruct Hrel as ((q1 & [= <-] & H1) & (q2 & [= <-] & H2)).
  do 4 eexists. split; [ vm_compute; reflexivity | ]. split; assumption.
Defined.

Lemma merge_left_unmatched {A B} (left : list (string * A))
    (right : list (string * B)) k x :
  In (k, x) left ->
  (forall r, In r right -> fst r <> k) ->
  In (k, x, None) (merge_left left right).
Proof.
  intros Hin Hno. unfold merge_left. apply in_flat_map.
  exists (k, x). split; [ exact Hin | ]. cbn [fst snd].
  replace (filter (fun r => fst r =? k) right) with (@nil (string * B)).
  - now left.
  - symmetry. apply filter_nil_iff. intros r Hr.
    apply String.eqb_neq. now apply Hno.
Qed.

Lemma series_array_keeps_missing {B} (f : val -> B -> val) s a l :
  (forall y, f None y = None) ->
  series_array f s a = Ok l -> In None s -> In None l.
Proof.
  intros Hf. unfold series_array. destruct (Nat.eqb _ _) eqn:E.
  - intros [= <-] Hin. apply Nat.eqb_eq in E.
    clear - Hf Hin E. revert a E.
    induction s as [ | x s IH ]; intros a E; [ destruct Hin | ].
    destruct a as [ | y a ]; [ discriminate | ].
    cbn. destruct Hin as [-> | Hin].
    + left. apply Hf.
    + right. apply IH; [ exact Hin | now injection E ].
  - destruct a as [ | y [ | z a ] ]; try discriminate.
    intros [= <-] Hin. apply in_map_iff. exists None. auto.
Qed.

(** X4: a capital item whose index has no 'Capital' row in the financial
    table is kept by the left merge with a missing unit cost: whenever
    [capital] returns, the purchased capital, the installed capital and the
    maintenance are then all missing (NaN) rather than an error. *)
Theorem capital_without_unit_cost design finan row onetime annual :
  In row design ->
  Design.Variable_ row = "Capital scale" ->
  (forall r, In r finan -> Finan.Variable_ r = "Capital" ->
             Finan.Index r <> Design.Index row) ->
  Technology.capital design finan = Ok (onetime, annual) ->
  onetime = [("Capital Purchased", None); ("Capital Installed", None)] /\
  In ("Maintenance", None) annual.
Proof.
  intros Hin Hvar Hno. unfold Technology.capital. cbv zeta.
  set (cc := merge_left _ _).
  assert (Hcc : In (Design.Index row, Design.Value row, None) cc).
  { apply merge_left_unmatched.
    - unfold Technology.design_var, design_iv. apply in_map_iff.
      exists row. split; [ reflexivity | ].
      apply filter_In. split; [ exact Hin | now apply String.eqb_eq ].
    - intros r Hr. unfold Technology.finan_var, finan_iv in Hr.
      apply in_map_iff in Hr. destruct Hr as (fr & <- & Hfr).
      apply filter_In in Hfr. destruct Hfr as (Hfr & Hv).
      apply String.eqb_eq in Hv. cbn. now apply Hno. }
  set (purch := map (fun c => vmul (Some (snd (fst c))) (snd c)) cc).
  assert (Hp : In None purch).
  { apply in_map_iff. exists (Design.Index row, Design.Value row, None).
    split; [ reflexivity | exact Hcc ]. }
  intro H. inv_bind H. inv_bind H. injection H as <- <-.
  apply series_array_keeps_missing in E; [ | reflexivity | exact Hp ].
  apply series_array_keeps_missing in E0; [ | reflexivity | exact Hp ].
  rewrite (py_sum_val_missing purch Hp), (py_sum_val_missing a E),
    (py_sum_val_missing a0 E0).
  split; [ reflexivity | right; left; reflexivity ].
Qed.

Lemma capital_without_unit_cost_witness :
  exists annualized,
    Technology.capital
      [Design.mk "Baling" "Capital scale" "Baler" 1]
      Fixture.finan
    = Ok ([("Capital Purchased", None); ("Capital Installed", None)],
          [("Capital, Annualized", annualized); ("Maintenance", None)]).
Proof.
  destruct (Technology.capital [Design.mk "Baling" "Capital scale" "Baler" 1]
              Fixture.finan) as [ [onetime annual] | e ] eqn:E;
    [ | vm_compute in E; discriminate E ].
  destruct (capital_without_unit_cost
              [Design.mk "Baling" "Capital scale" "Baler" 1] Fixture.finan
              (Design.mk "Baling" "Capital scale" "Baler" 1) onetime annual
              (or_introl eq_refl) eq_refl) as (Ho & _).
  - intros r Hr Hv. vm_compute in Hr.
    repeat (destruct Hr as [<- | Hr]; [ cbn in Hv |- *; congruence | ]).
    destruct Hr.
  - exact E.
  - vm_compute in E. injection E as <- <-. eexists. reflexivity.
Defined.

(** ** Raw materials *)

Lemma fold_Qplus_comp (l : list Q) (a b : Q) :
  a == b -> fold_left Qplus l a == fold_left Qplus l b.
Proof.
  revert a b. induction l as [ | x l IH ]; intros a b H; cbn; [ exact H | ].
  apply IH. now rewrite H.
Qed.

Lemma pd_sum_cons (x : Q) (l : list Q) : pd_sum (x :: l) == x + pd_sum l.
Proof. exact (py_sum_cons x l). Qed.

Lemma pd_sum_partition {A} (p : A -> bool) (g : A -> Q) (l : list A) :
  pd_sum (map g (filter (fun x => negb (p x)) l))
  + pd_sum (map g (filter p l))
  == pd_sum (map g l).
Proof.
  induction l as [ | x l IH ]; [ reflexivity | ].
  cbn [filter map]. destruct (p x); cbn [negb map];
    rewrite !pd_sum_cons, <- IH; ring.
Qed.

(** X5: for any technology but 'Landfilling', and one 'Operating Hours' row
    [h], [raw_material] splits the annual cost of the non-contingency inputs
    exhaustively: its 'Raw Material' and 'Barrier Film' lines add up to the
    summed hourly input cost times [h].  For 'Landfilling' both lines are
    zero whatever the tables hold, operating hours included. *)
Theorem raw_material_split name design finan :
  (name <> "Landfilling" -> forall h,
   exists rm bf,
     Technology.raw_material name design finan [h]
     = Ok [("Raw Material", Some rm); ("Barrier Film", Some bf)] /\
     rm + bf == pd_sum (map snd (Technology.input_costs design finan)) * h) /\
  (forall op_hrs_yr,
     Technology.raw_material "Landfilling" design finan op_hrs_yr
     = Ok [("Raw Material", Some 0.0); ("Barrier Film", Some 0.0)]).
Proof.
  split.
  - intros Hname h. apply String.eqb_neq in Hname.
    unfold Technology.raw_material. cbv zeta. rewrite Hname. cbn [negb].
    unfold Technology.times_op_hrs. cbn [map one_column rbind].
    do 2 eexists. split; [ reflexivity | ].
    rewrite <- (pd_sum_partition (fun c => fst c =? "Barrier film") snd
                  (Technology.input_costs design finan)).
    ring.
  - intro op. reflexivity.
Qed.

(** ** The annual cost lines *)

Lemma map_fst_combine {A B} (xs : list A) (ys : list B) :
  List.length xs = List.length ys -> map fst (combine xs ys) = xs.
Proof.
  revert ys. induction xs as [ | x xs IH ]; intros [ | y ys ] Hlen;
    try discriminate; [ reflexivity | ].
  cbn. f_equal. apply IH. now injection Hlen.
Qed.

Lemma map_constant {A B} (g : A -> B) (k : B) (l : list A) :
  (forall x, In x l -> g x = k) -> map g l = repeat k (List.length l).
Proof.
  induction l as [ | x l IH ]; intro H; [ reflexivity | ].
  cbn. rewrite (H x) by now left. f_equal. apply IH.
  intros y Hy. apply H. now right.
Qed.

Lemma other_costs_labels design finan op_hrs_yr f :
  Technology.other_costs design finan op_hrs_yr = Ok f ->
  exists k, map fst f = repeat "Contingency" (S k).
Proof.
  unfold Technology.other_costs. cbv zeta.
  set (left := design_iv _ design).
  assert (Hleft : forall l, In l left -> fst l = "Contingency").
  { intros l Hl. unfold left, design_iv in Hl. apply in_map_iff in Hl.
    destruct Hl as (r & <- & Hr). apply filter_In in Hr.
    destruct Hr as [_ Hr]. now apply String.eqb_eq in Hr. }
  assert (Hm : forall c, In c (merge left (finan_iv
                (fun r => Finan.Index r =? "Contingency") finan)) ->
              fst (fst c) = "Contingency").
  { intros c Hc. unfold merge in Hc. apply in_flat_map in Hc.
    destruct Hc as (l & Hl & Hc). apply in_map_iff in Hc.
    destruct Hc as (r & <- & _). cbn. now apply Hleft. }
  destruct (merge left _) as [ | c0 cs ] eqn:Em.
  - intros [= <-]. exists 0%nat. reflexivity.
  - intro H. inv_bind H. injection H as <-.
    apply series_array_length in E. rewrite length_map in E.
    exists (List.length cs).
    change (map fst (combine (map (fun c : string * Q * Q => fst (fst c))
                                (c0 :: cs)) (map Some a))
            = repeat "Contingency" (List.length (c0 :: cs))).
    rewrite map_fst_combine by now rewrite !length_map, E.
    apply map_constant. exact Hm.
Qed.

Section Labels.
Variable name : string.
Variable design : design_table.
Variable finan : finan_table.
Variable op_hrs_yr : list Q.

Lemma capital_labels c :
  Technology.capital design finan = Ok c ->
  map fst (snd c) = ["Capital, Annualized"; "Maintenance"].
Proof.
  unfold Technology.capital. cbv zeta. intro H.
  inv_bind H. inv_bind H. now injection H as <-.
Qed.

Lemma raw_material_labels f :
  Technology.raw_material name design finan op_hrs_yr = Ok f ->
  map fst f = ["Raw Material"; "Barrier Film"].
Proof.
  unfold Technology.raw_material. cbv zeta. intro H.
  destruct (negb _).
  - inv_bind H. inv_bind H. now injection H as <-.
  - now injection H as <-.
Qed.

Lemma labor_labels f :
  Technology.labor design finan = Ok f -> map fst f = ["Labor"].
Proof.
  intro H. apply labor_Ok_iff in H. now destruct H as (w & b & _ & _ & ->).
Qed.

Lemma utilities_labels f :
  Technology.utilities design finan op_hrs_yr = Ok f ->
  map fst f = ["Utilities"].
Proof.
  unfold Technology.utilities. cbv zeta. intro H.
  inv_bind H. now injection H as <-.
Qed.

Lemma wastes_labels f :
  Technology.wastes name design finan op_hrs_yr = Ok f ->
  map fst f = [if name =? "Landfilling" then "Waste disposal"
               else "Waste Disposal"].
Proof.
  unfold Technology.wastes. cbv zeta. intro H. inv_bind H.
  destruct (name =? "Landfilling"); cbn [negb] in H;
    inv_bind H; now injection H as <-.
Qed.
End Labels.

(** X6: the annual costs of an evaluated technology are always the seven
    lines 'Capital, Annualized', 'Maintenance', 'Raw Material',
    'Barrier Film', 'Labor', 'Utilities' and the waste line ('Waste disposal'
    for 'Landfilling', 'Waste Disposal' otherwise), in this order, followed
    by one or more 'Contingency' lines; the normalized costs carry the same
    labels. *)
Theorem annual_cost_lines name product sd output fin t :
  Technology.evaluate name product sd output fin = Ok t ->
  exists k,
    map fst (Technology.annual_costs t)
    = (["Capital, Annualized"; "Maintenance"; "Raw Material"; "Barrier Film";
        "Labor"; "Utilities";
        if name =? "Landfilling" then "Waste disposal" else "Waste Disposal"]
       ++ repeat "Contingency" (S k))%list /\
    map fst (Technology.normalized_costs t)
    = map fst (Technology.annual_costs t).
Proof.
  unfold Technology.evaluate. cbv zeta. intro H.
  repeat inv_bind H. injection H as <-.
  repeat match goal with
  | E : Technology.capital _ _ = Ok _ |- _ => apply capital_labels in E
  | E : Technology.raw_material _ _ _ _ = Ok _ |- _ =>
    apply raw_material_labels in E
  | E : Technology.labor _ _ = Ok _ |- _ => apply labor_labels in E
  | E : Technology.utilities _ _ _ = Ok _ |- _ => apply utilities_labels in E
  | E : Technology.wastes _ _ _ _ = Ok _ |- _ => apply wastes_labels in E
  | E : Technology.other_costs _ _ _ = Ok _ |- _ =>
    apply other_costs_labels in E; destruct E as (k & E)
  end.
  exists k. cbn [Technology.annual_costs Technology.normalized_costs].
  split.
  - rewrite !map_app.
    repeat match goal with E : map fst _ = _ |- _ => rewrite E; clear E end.
    reflexivity.
  - unfold Technology.div_Value. rewrite map_map. reflexivity.
Qed.

Lemma annual_cost_lines_witness :
  exists t,
    Technology.evaluate "Pelletizing" "Pellets"
      (filter (fun r => Design.Technology r =? "Pelletizing") Fixture.design)
      1.0 Fixture.finan = Ok t /\
    List.length (Technology.annual_costs t) = 8%nat.
Proof.
  eexists. split; [ vm_compute; reflexivity | ].
  destruct (annual_cost_lines "Pelletizing" "Pellets"
              (filter (fun r => Design.Technology r =? "Pelletizing")
                 Fixture.design) 1.0 Fixture.finan _
              ltac:(vm_compute; reflexivity)) as (k & Hl & _).
  vm_compute in Hl. vm_compute. reflexivity.
Defined.

(** ** Wastes *)

Lemma pd_sum_zero (l : list Q) : Forall (fun x => x == 0) l -> pd_sum l == 0.
Proof.
  induction 1 as [ | x l Hx _ IH ]; [ reflexivity | ].
  rewrite pd_sum_cons, Hx, IH. ring.
Qed.

Lemma merge_In {A B} (left : list (string * A)) (right : list (string * B)) c :
  In c (merge left right) ->
  In (fst (fst c), snd (fst c)) left /\ In (fst (fst c), snd c) right.
Proof.
  unfold merge. intro H. apply in_flat_map in H.
  destruct H as (l & Hl & H). apply in_map_iff in H.
  destruct H as (r & <- & Hr). apply filter_In in Hr.
  destruct Hr as (Hr & Heq). apply String.eqb_eq in Heq. cbn.
  destruct l as [k x], r as [k' y]. cbn in *. subst. auto.
Qed.

(** X7: a technology other than 'Landfilling' all of whose output
    efficiencies are exactly 1 has a waste-disposal cost of zero, whatever
    the tipping fee. *)
Theorem no_reject_no_waste_cost name design finan op_hrs_yr f :
  name <> "Landfilling" ->
  (forall r, In r design -> Design.Variable_ r = "Output efficiency" ->
             Design.Value r == 1) ->
  Technology.wastes name design finan op_hrs_yr = Ok f ->
  exists v, f = [("Waste Disposal", Some v)] /\ v == 0.
Proof.
  intros Hname Heff. apply String.eqb_neq in Hname.
  unfold Technology.wastes. cbv zeta. rewrite Hname. cbn [negb].
  set (_waste := merge _ _).
  intro H. inv_bind H. inv_bind H. injection H as <-.
  apply times_op_hrs_Ok in E0. destruct E0 as (h & _ & ->).
  eexists. split; [ reflexivity | ].
  assert (Hz : pd_sum (map (fun p => fst p * (1 - snd p))
                         (combine a (map (fun w => snd w) _waste))) == 0).
  { apply pd_sum_zero, Forall_forall. intros x Hx.
    apply in_map_iff in Hx. destruct Hx as ([fx y] & <- & Hxy).
    apply in_combine_r in Hxy. apply in_map_iff in Hxy.
    destruct Hxy as (c & Hy & Hc). cbn in Hy. subst y.
    apply merge_In in Hc. destruct Hc as [_ Hc].
    unfold Technology.design_var, design_iv in Hc.
    apply in_map_iff in Hc. destruct Hc as (r & Hr & Hin).
    apply filter_In in Hin. destruct Hin as (Hin & Hv).
    apply String.eqb_eq in Hv. injection Hr as _ Hr.
    cbn [fst snd]. rewrite <- Hr, (Heff r Hin Hv). ring. }
  rewrite Hz. ring.
Qed.

Lemma no_reject_no_waste_cost_witness :
  exists v,
    Technology.wastes MASC
      (filter (fun r => Design.Technology r =? MASC)
         (Scenario.apply_sens (Some Fixture.no_loss) Fixture.design))
      Fixture.finan [8000] = Ok [("Waste Disposal", Some v)] /\ v == 0.
Proof.
  destruct (Technology.wastes MASC
              (filter (fun r => Design.Technology r =? MASC)
                 (Scenario.apply_sens (Some Fixture.no_loss) Fixture.design))
              Fixture.finan [8000]) as [ f | e ] eqn:E;
    [ | vm_compute in E; discriminate E ].
  assert (Heff : forall r,
            In r (filter (fun r => Design.Technology r =? MASC)
                    (Scenario.apply_sens (Some Fixture.no_loss) Fixture.design)) ->
            Design.Variable_ r = "Output efficiency" -> Design.Value r == 1).
  { intros r Hr Hv. vm_compute in Hr.
    repeat (destruct Hr as [<- | Hr];
            [ first [ reflexivity | cbn in Hv; discriminate Hv ] | ]).
    destruct Hr. }
  destruct (no_reject_no_waste_cost MASC
              (filter (fun r => Design.Technology r =? MASC)
                 (Scenario.apply_sens (Some Fixture.no_loss) Fixture.design))
              Fixture.finan [8000] f ltac:(discriminate) Heff E)
    as (v & -> & Hv).
  exists v. auto.
Defined.

(** ** Required output *)

(** X8: the required output only scales the production cost.  Evaluating
    the same technology on the same tables for another output gives the same
    one-time costs, annual costs, production amounts, revenue and net
    normalized cost, and a production cost equal to the new output times
    that net cost. *)
Theorem costs_do_not_scale_with_output name product sd o1 o2 fin t1 :
  Technology.evaluate name product sd o1 fin = Ok t1 ->
  exists t2,
    Technology.evaluate name product sd o2 fin = Ok t2 /\
    Technology.onetime_costs t2 = Technology.onetime_costs t1 /\
    Technology.annual_costs t2 = Technology.annual_costs t1 /\
    Technology.output_amounts t2 = Technology.output_amounts t1 /\
    Technology.annual_revenue t2 = Technology.annual_revenue t1 /\
    Technology.net_normalized_costs t2 = Technology.net_normalized_costs t1 /\
    Technology.production_cost t1 = o1 * Technology.net_normalized_costs t1 /\
    Technology.production_cost t2 = o2 * Technology.net_normalized_costs t1.
Proof.
  unfold Technology.evaluate. cbv zeta. intro H.
  repeat inv_bind H. injection H as <-.
  repeat (cbn [rbind];
          match goal with
          | E : ?c = Ok _ |- context [rbind ?c _] => rewrite E
          end).
  cbn [rbind].
  eexists. split; [ reflexivity | ]. cbn. repeat split; reflexivity.
Qed.

Lemma costs_do_not_scale_with_output_witness :
  exists t1 t2,
    Technology.evaluate "Landfilling" "Landfilled waste"
      (filter (fun r => Design.Technology r =? "Landfilling") Fixture.design)
      1.0 Fixture.finan = Ok t1 /\
    Technology.evaluate "Landfilling" "Landfilled waste"
      (filter (fun r => Design.Technology r =? "Landfilling") Fixture.design)
      2.5 Fixture.finan = Ok t2 /\
    Technology.production_cost t2 = 2.5 * Technology.net_normalized_costs t1.
Proof.
  eexists.
  destruct (costs_do_not_scale_with_output "Landfilling" "Landfilled waste"
              (filter (fun r => Design.Technology r =? "Landfilling")
                 Fixture.design) 1.0 2.5 Fixture.finan _
              ltac:(vm_compute; reflexivity))
    as (t2 & H2 & _ & _ & _ & _ & _ & _ & Hc).
  exists t2. split; [ vm_compute; reflexivity | ]. split; assumption.
Defined.

(** ** Revenue *)

Lemma merge_left_all_unmatched {A B} (left : list (string * A))
    (right : list (string * B)) :
  (forall l r, In l left -> In r right -> fst r <> fst l) ->
  forall c, In c (merge_left left right) -> snd c = None.
Proof.
  intros Hno c Hc. unfold merge_left in Hc. apply in_flat_map in Hc.
  destruct Hc as (l & Hl & Hc).
  replace (filter (fun r => fst r =? fst l) right) with (@nil (string * B))
    in Hc.
  - destruct Hc as [<- | []]. reflexivity.
  - symmetry. apply filter_nil_iff. intros r Hr.
    apply String.eqb_neq. now apply Hno.
Qed.

Lemma dropna_all_missing (l : list val) :
  Forall (fun v => v = None) l -> dropna l = [].
Proof.
  induction 1 as [ | v l -> _ IH ]; [ reflexivity | exact IH ].
Qed.

Lemma evaluate_revenue name product sd output fin t :
  Technology.evaluate name product sd output fin = Ok t ->
  Technology.annual_revenue t
  = if negb (isin name ["Barrier Film"; MASC; STP])
    then Technology.product_revenue fin product (Technology.output_amounts t)
    else Technology.coproduct_revenue fin product (Technology.output_amounts t).
Proof.
  unfold Technology.evaluate. cbv zeta. intro H.
  repeat inv_bind H. injection H as <-. reflexivity.
Qed.

(** X9: for a technology that sells its primary product (any name but
    'Barrier Film' and the two closed loops), a product without an 'Output'
    price row in the financial table earns a missing (NaN) revenue on each
    of its lines, which the sums skip: the net normalized cost is then the
    plain sum of the normalized costs. *)
Theorem unpriced_product_earns_nothing name product sd output fin t :
  Technology.evaluate name product sd output fin = Ok t ->
  isin name ["Barrier Film"; MASC; STP] = false ->
  (forall r, In r fin -> Finan.Variable_ r = "Output" ->
             Finan.Index r <> product) ->
  Forall (fun line => snd line = None) (Technology.annual_revenue t) /\
  Technology.net_normalized_costs t
  == pd_sum_val (map snd (Technology.normalized_costs t)).
Proof.
  intros H Hname Hno.
  pose proof (evaluate_revenue _ _ _ _ _ _ H) as Hrevenue.
  rewrite Hname in Hrevenue. cbn [negb] in Hrevenue.
  destruct (evaluate_normalization _ _ _ _ _ _ H)
    as (first & rest & _ & _ & Hnr & Hnet & _).
  rewrite Hnet, Hnr, Hrevenue.
  assert (Hrev : Forall (fun line : string * val => snd line = None)
                   (Technology.product_revenue fin product
                      (Technology.output_amounts t))).
  { unfold Technology.product_revenue, Technology.revenue_of.
    match goal with |- context [filter ?p ?oa] => set (_out := filter p oa) end.
    assert (Hout : forall o, In o _out -> Technology.Index o = product).
    { intros o Ho. apply filter_In in Ho. destruct Ho as [_ Ho].
      now apply String.eqb_eq in Ho. }
    destruct _out as [ | o0 os ] eqn:Eo; [ constructor | ].
    rewrite <- Eo in *. apply Forall_forall. intros line Hline.
    apply in_map_iff in Hline. destruct Hline as (c & <- & Hc).
    apply merge_left_all_unmatched in Hc.
    - destruct c as [[k o] p]. cbn [snd] in Hc. subst p. reflexivity.
    - intros l r Hl Hr. apply in_map_iff in Hl.
      destruct Hl as (o & <- & Ho). cbn. rewrite (Hout o Ho).
      unfold Technology.finan_var, finan_iv in Hr. apply in_map_iff in Hr.
      destruct Hr as (fr & <- & Hfr). apply filter_In in Hfr.
      destruct Hfr as (Hfr & Hv). apply String.eqb_eq in Hv. cbn.
      now apply Hno. }
  split; [ exact Hrev | ].
  match goal with
  | |- _ - pd_sum_val ?l == _ => assert (Hz : pd_sum_val l = 0)
  end.
  { unfold pd_sum_val. rewrite dropna_all_missing; [ reflexivity | ].
    rewrite map_map. apply Forall_forall. intros v Hv.
    apply in_map_iff in Hv. destruct Hv as (line & <- & Hline).
    rewrite Forall_forall in Hrev. cbn [snd].
    now rewrite (Hrev line Hline). }
  rewrite Hz. ring.
Qed.

Lemma unpriced_product_earns_nothing_witness :
  exists t,
    Technology.evaluate "Landfilling" "Landfilled waste"
      (filter (fun r => Design.Technology r =? "Landfilling") Fixture.design)
      1.0 Fixture.finan = Ok t /\
    Technology.annual_revenue t = [("Landfilled waste", None)] /\
    Technology.net_normalized_costs t
    == pd_sum_val (map snd (Technology.normalized_costs t)).
Proof.
  eexists. split; [ vm_compute; reflexivity | ].
  split; [ reflexivity | ].
  apply (unpriced_product_earns_nothing "Landfilling" "Landfilled waste"
           (filter (fun r => Design.Technology r =? "Landfilling")
              Fixture.design) 1.0 Fixture.finan).
  - vm_compute; reflexivity.
  - reflexivity.
  - intros r Hr Hv. vm_compute in Hr.
    repeat (destruct Hr as [<- | Hr];
            [ first [ discriminate | cbn in Hv; discriminate Hv ] | ]).
    destruct Hr.
Defined.

(** ** The update of the input costs, again *)

Lemma is_strap_input_set_Value v r :
  Technology.is_strap_input (Finan.set_Value v r) = Technology.is_strap_input r.
Proof. reflexivity. Qed.

Lemma zero_strap_inputs_idempotent (fin : finan_table) :
  Technology.zero_strap_inputs (Technology.zero_strap_inputs fin)
  = Technology.zero_strap_inputs fin.
Proof.
  unfold Technology.zero_strap_inputs, Technology.loc_set_Value.
  rewrite map_map. apply map_ext. intro r.
  destruct (Technology.is_strap_input r) eqn:E.
  - rewrite is_strap_input_set_Value, E. reflexivity.
  - now rewrite E.
Qed.

(** X10: the update made by a non-initial construction is idempotent: once a
    non-initial instance has been constructed on the shared table, any
    further construction, initial or not, successful or not, leaves the
    table as that first one left it. *)
Theorem non_initial_update_is_idempotent
    name product design_data output fin t fin1 :
  Technology.__init__ name product design_data false output fin
    = (Ok t, fin1) ->
  forall name2 product2 design2 initial2 output2,
    snd (Technology.__init__ name2 product2 design2 initial2 output2 fin1)
    = fin1.
Proof.
  intros H name2 product2 design2 initial2 output2.
  apply init_Ok in H. destruct H as [-> _].
  rewrite init_table. destruct initial2; [ reflexivity | ].
  destruct (fst _) as [ t2 | e ]; [ | destruct e ];
    auto using zero_strap_inputs_idempotent.
Qed.

Lemma non_initial_update_is_idempotent_witness :
  exists t fin1,
    Technology.__init__ "Barrier Film" "Barrier film" Fixture.design false 1.0
      Fixture.finan = (Ok t, fin1) /\
    snd (Technology.__init__ "Barrier Film" "Barrier film" Fixture.design
           false 2.0 fin1) = fin1.
Proof.
  do 2 eexists. split; [ vm_compute; reflexivity | ].
  apply (non_initial_update_is_idempotent "Barrier Film" "Barrier film"
           Fixture.design 1.0 Fixture.finan _ _
           ltac:(vm_compute; reflexivity)).
Defined.

(** ** Production amounts *)

(** X11: with one 'Operating Hours' row [h >= 0], non-negative nominal
    outputs and output efficiencies between 0 and 1, every line [production]
    reports is an 'Output' line of the design, its theoretical amount is the
    nominal amount times [h], and its actual amount lies between zero and
    the theoretical amount. *)
Theorem production_within_theoretical design h rows :
  Technology.production design [h] = Ok rows ->
  0 <= h ->
  (forall r, In r design -> Design.Variable_ r = "Output" ->
             0 <= Design.Value r) ->
  (forall r, In r design -> Design.Variable_ r = "Output efficiency" ->
             0 <= Design.Value r /\ Design.Value r <= 1) ->
  forall row, In row rows ->
    (exists r, In r design /\ Design.Variable_ r = "Output" /\
               Design.Index r = Technology.Index row /\
               Technology.Theoretical row = Design.Value r * h) /\
    0 <= Technology.Actual row /\
    Technology.Actual row <= Technology.Theoretical row.
Proof.
  intros H Hh Hout Heff row Hrow.
  destruct (existsb (fun r => Design.Variable_ r =? "Output efficiency") design)
    eqn:Ex.
  - rewrite production_with_efficiency in H.
    2:{ apply existsb_exists in Ex. destruct Ex as (r & Hr & Hv).
        exists r. split; [ exact Hr | now apply String.eqb_eq ]. }
    injection H as <-. apply in_map_iff in Hrow.
    destruct Hrow as (c & <- & Hc). apply merge_In in Hc.
    destruct Hc as [Hl Hr]. cbn [Technology.Index Technology.Actual
                                 Technology.Theoretical].
    unfold Technology.design_var, design_iv in Hl, Hr.
    apply in_map_iff in Hl. destruct Hl as (ro & Hro & Hino).
    apply in_map_iff in Hr. destruct Hr as (re & Hre & Hine).
    apply filter_In in Hino. destruct Hino as (Hino & Hvo).
    apply filter_In in Hine. destruct Hine as (Hine & Hve).
    apply String.eqb_eq in Hvo, Hve.
    injection Hro as Hi Hx. injection Hre as _ Hy.
    destruct (Heff re Hine Hve) as [Hy0 Hy1].
    pose proof (Hout ro Hino Hvo) as Hx0.
    rewrite Hx in Hx0. rewrite Hy in Hy0, Hy1.
    split; [ | split ].
    + exists ro. rewrite Hx. auto.
    + apply Qmult_le_0_compat; [ apply Qmult_le_0_compat | ]; assumption.
    + setoid_replace (snd (fst c) * snd c * h)
        with (snd c * (snd (fst c) * h)) by ring.
      setoid_replace (snd (fst c) * h) with (1 * (snd (fst c) * h)) at 2
        by ring.
      apply Qmult_le_compat_r; [ exact Hy1 | ].
      now apply Qmult_le_0_compat.
  - rewrite production_without_efficiency in H.
    2:{ intros r Hr Hv.
        assert (Hex : existsb (fun r => Design.Variable_ r =? "Output efficiency")
                        design = true).
        { apply existsb_exists. exists r.
          split; [ exact Hr | now apply String.eqb_eq ]. }
        congruence. }
    injection H as <-. apply in_map_iff in Hrow.
    destruct Hrow as (r & <- & Hr). apply filter_In in Hr.
    destruct Hr as (Hr & Hv). apply String.eqb_eq in Hv.
    cbn [Technology.Index Technology.Actual Technology.Theoretical].
    split; [ | split ].
    + exists r. auto.
    + apply Qmult_le_0_compat; [ now apply Hout | exact Hh ].
    + apply Qle_refl.
Qed.

Lemma production_within_theoretical_witness :
  exists rows,
    Technology.production
      (filter (fun r => Design.Technology r =? STP) Fixture.design) [8000]
    = Ok rows /\
    Forall (fun row => Technology.Actual row <= Technology.Theoretical row)
      rows.
Proof.
  eexists. split; [ vm_compute; reflexivity | ].
  apply Forall_forall. intros row Hrow.
  apply (production_within_theoretical
           (filter (fun r => Design.Technology r =? STP) Fixture.design)
           8000 _ ltac:(vm_compute; reflexivity)); [ | | | exact Hrow ].
  - discriminate.
  - intros r Hr Hv. vm_compute in Hr.
    repeat (destruct Hr as [<- | Hr];
            [ first [ discriminate | cbn in Hv; discriminate Hv ] | ]).
    destruct Hr.
  - intros r Hr Hv. vm_compute in Hr.
    repeat (destruct Hr as [<- | Hr];
            [ first [ split; discriminate | cbn in Hv; discriminate Hv ] | ]).
    destruct Hr.
Defined.

(** * Further properties of the scenario *)

(** X12: a scenario cannot be built from an empty allocation: the final
    landfill quantity is read without ever having been assigned.  When the
    production process has an efficiency row and evaluates (for a zero
    output), the outcome is precisely the UnboundLocalError. *)
Theorem empty_allocation_fails pp product fu products sens d fin struct :
  (forall s, Scenario.__init__ pp product fu [] products sens d fin struct
             <> Ok s) /\
  (forall e t fin',
     Scenario.output_efficiency (Scenario.apply_sens sens d) pp = Ok e ->
     Technology.__init__ pp product (Scenario.apply_sens sens d) true 0.0 fin
       = (Ok t, fin') ->
     Scenario.__init__ pp product fu [] products sens d fin struct
     = Raise UnboundLocalError).
Proof.
  split.
  - intros s H. apply scenario_init_inv in H. cbv zeta in H.
    destruct H as (l & first & st & _ & _ & Hloop & _ & _ & Hftl & _).
    cbn in Hloop. injection Hloop as <- _. discriminate Hftl.
  - intros e t fin' He Ht. unfold Scenario.__init__. cbv zeta.
    rewrite He. cbn [rbind Scenario.balance_loop Scenario.init_locals
                     Scenario._virg_prod].
    unfold bind. rewrite Ht. reflexivity.
Qed.

(** ** What a scenario needs *)

Lemma balance_loop_lookups design struct fu items : forall l l',
  Scenario.balance_loop design struct fu l items = Ok l' ->
  forall key, In key (map fst items) ->
    (exists e, Scenario.output_efficiency design key = Ok e) /\
    (key = STP ->
     exists downst eff_downst,
       Scenario.downstream struct STP = Ok downst /\
       Scenario.output_efficiency design downst = Ok eff_downst).
Proof.
  induction items as [ | [k [f n]] items IH ]; intros l l' H key Hin;
    [ destruct Hin | ].
  cbn [Scenario.balance_loop] in H. inv_bind H.
  destruct Hin as [<- | Hin]; [ | eapply IH; eassumption ].
  cbn [fst] in *. split.
  - unfold Scenario.balance_step in E. cbn [fst snd] in E. inv_bind E. eauto.
  - intros ->. apply balance_step_stp in E.
    destruct E as (e & dn & ed & _ & Hdn & Hed & _). eauto.
Qed.

Lemma chain_step_product design products fu l st item fin st' fin' :
  Scenario.chain_step design products fu l st item fin = (Ok st', fin') ->
  exists p, Scenario.getitem products (fst item) = Ok p.
Proof.
  destruct item as [key [f n]]. intro H.
  destruct (String.eqb_spec key STP) as [-> | Hs].
  - apply chain_step_stp in H.
    destruct H as (e & p & ed & tech & dn & td & _ & Hp & _). eauto.
  - destruct (String.eqb_spec key MASC) as [-> | Hm].
    + apply chain_step_masc in H. destruct H as (e & p & tech & _ & Hp & _).
      eauto.
    + apply chain_step_simple in H; try assumption.
      destruct H as (e & p & tech & _ & Hp & _). eauto.
Qed.

Lemma chain_loop_products design products fu l items : forall st fin st' fin',
  Scenario.chain_loop design products fu l st items fin = (Ok st', fin') ->
  forall key, In key (map fst items) ->
    exists p, Scenario.getitem products key = Ok p.
Proof.
  induction items as [ | item items IH ]; intros st fin st' fin' H key Hin;
    [ destruct Hin | ].
  cbn [Scenario.chain_loop] in H. apply bind_Ok_inv in H.
  destruct H as (st1 & fin1 & Hstep & H).
  destruct Hin as [<- | Hin]; [ | eapply IH; eassumption ].
  eapply chain_step_product; eassumption.
Qed.

(** X13: a scenario is built only if the production process has an 'Output
    efficiency' row in the design table, and every technology named in the
    allocation has one too and has an entry in [products]; the solvent
    treatment moreover needs a downstream technology in the structure table
    that has an efficiency row. *)
Theorem scenario_needs_lookups
    pp product fu eol_sc products sens d fin struct s :
  Scenario.__init__ pp product fu eol_sc products sens d fin struct = Ok s ->
  let design := Scenario.apply_sens sens d in
  (exists e, Scenario.output_efficiency design pp = Ok e) /\
  forall key, In key (map fst eol_sc) ->
    (exists e, Scenario.output_efficiency design key = Ok e) /\
    (exists p, Scenario.getitem products key = Ok p) /\
    (key = STP ->
     exists downst eff_downst,
       Scenario.downstream struct STP = Ok downst /\
       Scenario.output_efficiency design downst = Ok eff_downst).
Proof.
  intros H design. pose proof H as H'.
  apply scenario_init_inv in H. cbv zeta in H. fold design in H.
  destruct H as (l & first & st & Hbal & _ & Hloop & _).
  split.
  - unfold Scenario.__init__ in H'. cbv zeta in H'. fold design in H'.
    inv_bind H'. eauto.
  - intros key Hkey.
    destruct (balance_loop_lookups _ _ _ _ _ _ Hbal key Hkey) as [He Hs].
    destruct (chain_loop_products _ _ _ _ _ _ _ _ _ Hloop key Hkey) as [p Hp].
    eauto.
Qed.

Lemma scenario_needs_lookups_witness :
  exists s,
    Scenario.__init__ "Barrier Film" "Barrier film" 1.0
      [(STP, (1.0, 1%Z))]
      Fixture.products None Fixture.design Fixture.finan Fixture.struct = Ok s /\
    exists p, Scenario.getitem Fixture.products STP = Ok p.
Proof.
  eexists. split; [ vm_compute; reflexivity | ].
  destruct (scenario_needs_lookups "Barrier Film" "Barrier film" 1.0
              [(STP, (1.0, 1%Z))] Fixture.products None Fixture.design
              Fixture.finan Fixture.struct _ ltac:(vm_compute; reflexivity))
    as [_ Hkeys].
  destruct (Hkeys STP (or_introl eq_refl)) as (_ & Hp & _). exact Hp.
Defined.

(** ** The length of the value chain *)

Lemma chain_step_growth design products fu l st item fin st' fin' :
  Scenario.chain_step design products fu l st item fin = (Ok st', fin') ->
  (List.length (Scenario.st_value_chain st) + 1
   <= List.length (Scenario.st_value_chain st'))%nat /\
  (List.length (Scenario.st_value_chain st')
   <= List.length (Scenario.st_value_chain st) + 3)%nat.
Proof.
  destruct item as [key [f n]]. intro H.
  destruct (String.eqb_spec key STP) as [-> | Hs].
  - apply chain_step_stp in H.
    destruct H as (e & p & ed & tech & dn & td & _ & _ & _ & _ & _ & _ & H).
    apply final_landfill_step_inv in H.
    destruct H as (_ & _ & _ & _ & [[_ Hc] | [_ (t & _ & Hc)]]);
      rewrite Hc, !length_app; cbn; lia.
  - assert (Hfl : exists tech film pe ftl,
      Scenario.final_landfill_step design
        (Scenario.st_value_chain st ++ [tech]) film pe ftl fin
      = (Ok st', fin')).
    { destruct (String.eqb_spec key MASC) as [-> | Hm].
      - apply chain_step_masc in H. destruct H as (e & p & tech & _ & _ & _ & H).
        eauto 6.
      - apply chain_step_simple in H; try assumption.
        destruct H as (e & p & tech & _ & _ & _ & H). eauto 6. }
    destruct Hfl as (tech & film & pe & ftl & H').
    apply final_landfill_step_inv in H'.
    destruct H' as (_ & _ & _ & _ & [[_ Hc] | [_ (t & _ & Hc)]]);
      rewrite Hc, !length_app; cbn; lia.
Qed.

Lemma chain_loop_growth design products fu l items : forall st fin st' fin',
  Scenario.chain_loop design products fu l st items fin = (Ok st', fin') ->
  (List.length (Scenario.st_value_chain st) + List.length items
   <= List.length (Scenario.st_value_chain st'))%nat /\
  (List.length (Scenario.st_value_chain st')
   <= List.length (Scenario.st_value_chain st) + 3 * List.length items)%nat.
Proof.
  induction items as [ | item items IH ]; intros st fin st' fin' H.
  - cbn in H. injection H as <- _. cbn. lia.
  - cbn [Scenario.chain_loop] in H. apply bind_Ok_inv in H.
    destruct H as (st1 & fin1 & Hstep & H).
    apply chain_step_growth in Hstep. apply IH in H. cbn [List.length]. lia.
Qed.

(** X14: the value chain of a scenario starts with the production process,
    renamed with the suffix ', initial', and every entry of the allocation
    adds at least one and at most three instances to it. *)
Theorem value_chain_length
    pp product fu eol_sc products sens d fin struct s :
  Scenario.__init__ pp product fu eol_sc products sens d fin struct = Ok s ->
  (exists first rest,
     Scenario.value_chain s = first :: rest /\
     Technology.name first = pp ++ ", initial") /\
  (1 + List.length eol_sc <= List.length (Scenario.value_chain s))%nat /\
  (List.length (Scenario.value_chain s) <= 1 + 3 * List.length eol_sc)%nat.
Proof.
  intro H. apply scenario_init_inv in H. cbv zeta in H.
  destruct H as (l & first & st & _ & _ & Hloop & Hvc & _).
  rewrite Hvc. split.
  - apply chain_loop_extends in Hloop. destruct Hloop as (added & ->).
    cbn. eauto.
  - apply chain_loop_growth in Hloop. cbn in Hloop. lia.
Qed.

Lemma value_chain_length_witness :
  exists s,
    Scenario.__init__ "Barrier Film" "Barrier film" 1.0
      [("Pelletizing", (0.5, 0%Z)); ("Landfilling", (0.5, 0%Z))]
      Fixture.products None Fixture.design Fixture.finan Fixture.struct = Ok s /\
    (3 <= List.length (Scenario.value_chain s) <= 7)%nat.
Proof.
  eexists. split; [ vm_compute; reflexivity | ].
  destruct (value_chain_length "Barrier Film" "Barrier film" 1.0
              [("Pelletizing", (0.5, 0%Z)); ("Landfilling", (0.5, 0%Z))]
              Fixture.products None Fixture.design Fixture.finan Fixture.struct
              _ ltac:(vm_compute; reflexivity)) as (_ & Hlo & Hhi).
  cbn [List.length] in Hlo, Hhi. lia.
Defined.

(** ** Entries without a loop *)

(** X15: when the entry iterated last is a simple single-pass technology
    with fraction [f] and efficiency [e], its cycle count is ignored: the
    film sent to it is [func_unit * f], and the final-landfill quantity is
    0.0 for 'Landfilling', 'Incineration' and 'Pyrolysis' and
    [func_unit * f * e] for any other technology. *)
Theorem single_pass_entry
    pp product fu pre key f n products sens d fin struct s e :
  Scenario.__init__ pp product fu (pre ++ [(key, (f, n))])%list products
    sens d fin struct = Ok s ->
  key <> MASC -> key <> STP ->
  Scenario.output_efficiency (Scenario.apply_sens sens d) key = Ok e ->
  Scenario.eol_film_prod s = Some (fu * f) /\
  Scenario.eol_polyethylene_prod s = Some 0.0 /\
  Scenario.final_landfill s
  = (if isin key ["Landfilling"; "Incineration"; "Pyrolysis"]
     then 0.0 else fu * f * e).
Proof.
  intros H Hm Hs He. apply scenario_init_inv in H. cbv zeta in H.
  destruct H as (l & first & st & Hbal & _ & Hloop & _ & _ & Hftl & Hfilm
                 & Hpe & _).
  apply balance_loop_last in Hbal. destruct Hbal as (l0 & _ & Hbstep).
  apply balance_step_simple in Hbstep; try assumption.
  destruct Hbstep as (Hv & _).
  apply chain_loop_last in Hloop. destruct Hloop as (st1 & fin1 & _ & Hstep).
  apply chain_step_simple in Hstep; try assumption.
  destruct Hstep as (e' & p & tech & He' & _ & _ & Hfl).
  rewrite He in He'. injection He' as <-.
  apply final_landfill_step_inv in Hfl.
  destruct Hfl as (_ & Hf1 & Hf2 & Hf3 & _).
  rewrite Hfilm, Hpe, Hf1, Hf2. repeat split.
  match type of Hf3 with
  | _ = Some ?x => assert (Hq : Scenario.final_landfill s = x) by congruence
  end.
  rewrite Hq, Hv. now destruct (isin key _).
Qed.

Lemma single_pass_entry_witness :
  exists s,
    Scenario.__init__ "Barrier Film" "Barrier film" 1.0
      ([] ++ [("Pelletizing", (0.5, 3%Z))])%list
      Fixture.products None Fixture.design Fixture.finan Fixture.struct = Ok s /\
    Scenario.final_landfill s = 1.0 * 0.5 * 0.5.
Proof.
  eexists. split; [ vm_compute; reflexivity | ].
  apply (single_pass_entry "Barrier Film" "Barrier film" 1.0 []
           "Pelletizing" 0.5 3 Fixture.products None Fixture.design
           Fixture.finan Fixture.struct _ 0.5).
  - vm_compute; reflexivity.
  - discriminate.
  - discriminate.
  - reflexivity.
Defined.

(** X16: a scenario whose allocation does not name the solvent treatment
    never modifies the financial table: it ends with the table it was given,
    and every instance of its value chain was evaluated on that table. *)
Theorem financial_table_untouched_without_solvent_loop
    pp product fu eol_sc products sens d fin struct s :
  Scenario.__init__ pp product fu eol_sc products sens d fin struct = Ok s ->
  ~ In STP (map fst eol_sc) ->
  Scenario.finan s = fin /\
  Forall (fun t => Technology.finan t = fin) (Scenario.value_chain s).
Proof.
  intros H Hnot. apply scenario_init_inv in H. cbv zeta in H.
  destruct H as (l & first & st & _ & Hfirst & Hloop & Hvc & _).
  apply chain_loop_frame in Hloop; [ | exact Hnot ].
  destruct Hloop as (Hfin & added & Hadd & Hall).
  split; [ exact Hfin | ].
  rewrite Hvc, Hadd. cbn. constructor; [ | exact Hall ].
  apply init_fields in Hfirst. cbn. tauto.
Qed.

Lemma financial_table_untouched_without_solvent_loop_witness :
  exists s,
    Scenario.__init__ "Barrier Film" "Barrier film" 1.0
      [(MASC, (1.0, 2%Z))]
      Fixture.products None Fixture.design Fixture.finan Fixture.struct = Ok s /\
    Scenario.finan s = Fixture.finan.
Proof.
  eexists. split; [ vm_compute; reflexivity | ].
  apply (financial_table_untouched_without_solvent_loop "Barrier Film"
           "Barrier film" 1.0 [(MASC, (1.0, 2%Z))] Fixture.products None
           Fixture.design Fixture.finan Fixture.struct _
           ltac:(vm_compute; reflexivity)).
  cbn. intros [Hx | []]. discriminate Hx.
Defined.


(** ** Closed loops *)

Lemma closed_loop_last_entry
    pp product fu pre key f n products sens d fin struct s :
  Scenario.__init__ pp product fu (pre ++ [(key, (f, n))])%list products
    sens d fin struct = Ok s ->
  forall rate,
  (key = MASC /\
   Scenario.output_efficiency (Scenario.apply_sens sens d) MASC = Ok rate) \/
  (key = STP /\
   exists e downst eff_downst,
     Scenario.output_efficiency (Scenario.apply_sens sens d) STP = Ok e /\
     Scenario.downstream struct STP = Ok downst /\
     Scenario.output_efficiency (Scenario.apply_sens sens d) downst
       = Ok eff_downst /\
     rate = eff_downst * e) ->
  Scenario.virgin_prod s = f * fu / (1 + Scenario.cycle_sum rate n) /\
  Scenario.eol_film_prod s = Some (Scenario.loop_throughput f fu rate n).
Proof.
  intros H rate Hkey. apply scenario_init_inv in H. cbv zeta in H.
  destruct H as (l & first & st & Hbal & _ & Hloop & _ & Hv & _ & Hfilm & _).
  apply balance_loop_last in Hbal. destruct Hbal as (l0 & _ & Hbstep).
  apply chain_loop_last in Hloop. destruct Hloop as (st1 & fin1 & _ & Hstep).
  rewrite Hv, Hfilm.
  destruct Hkey as [[-> He] | [-> (e & dn & ed & He & Hdn & Hed & ->)]].
  - apply balance_step_masc in Hbstep.
    destruct Hbstep as (e' & He' & Hvp & Hpm).
    assert (e' = rate) by congruence. subst e'.
    apply chain_step_masc in Hstep.
    destruct Hstep as (e1 & p & tech & _ & _ & _ & Hfl).
    apply final_landfill_step_inv in Hfl. destruct Hfl as (_ & Hf & _).
    rewrite Hf, Hvp, Hpm. auto.
  - apply balance_step_stp in Hbstep.
    destruct Hbstep as (e0 & dn0 & ed0 & He0 & Hdn0 & Hed0 & Hvp & Hps & _).
    assert (e0 = e) by congruence. subst e0.
    assert (dn0 = dn) by congruence. subst dn0.
    assert (ed0 = ed) by congruence. subst ed0.
    apply chain_step_stp in Hstep.
    destruct Hstep
      as (e1 & p & ed1 & tech & dn1 & film1 & _ & _ & _ & _ & _ & _ & Hfl).
    apply final_landfill_step_inv in Hfl. destruct Hfl as (_ & Hf & _).
    rewrite Hf, Hvp, Hps. auto.
Qed.

(** X17: for a closed loop iterated last, with per-cycle rate [r] (the
    efficiency of 'Mechanical and Solvent Cleaning', or the product of the
    downstream efficiency and that of 'Solvent Treatment and Precipitation')
    and a non-zero denominator, the recycled film reported in
    [eol_film_prod] is the virgin production times the cycle series
    [r^0 + ... + r^n], and virgin production plus recycled film is the share
    [f * func_unit] of the functional unit. *)
Theorem closed_loop_shares
    pp product fu pre key f n products sens d fin struct s rate :
  Scenario.__init__ pp product fu (pre ++ [(key, (f, n))])%list products
    sens d fin struct = Ok s ->
  (key = MASC /\
   Scenario.output_efficiency (Scenario.apply_sens sens d) MASC = Ok rate) \/
  (key = STP /\
   exists e downst eff_downst,
     Scenario.output_efficiency (Scenario.apply_sens sens d) STP = Ok e /\
     Scenario.downstream struct STP = Ok downst /\
     Scenario.output_efficiency (Scenario.apply_sens sens d) downst
       = Ok eff_downst /\
     rate = eff_downst * e) ->
  ~ 1 + Scenario.cycle_sum rate n == 0 ->
  exists film,
    Scenario.eol_film_prod s = Some film /\
    film == Scenario.virgin_prod s * Scenario.cycle_sum rate n /\
    Scenario.virgin_prod s + film == f * fu.
Proof.
  intros H Hkey Hnz.
  destruct (closed_loop_last_entry _ _ _ _ _ _ _ _ _ _ _ _ _ H rate Hkey)
    as (Hv & Hfilm).
  eexists. split; [ exact Hfilm | ].
  rewrite Hv, loop_throughput_closed_form. split; now field.
Qed.

Lemma closed_loop_shares_witness :
  exists s film,
    Scenario.__init__ "Barrier Film" "Barrier film" 1.0
      ([] ++ [(MASC, (1.0, 2%Z))])%list
      Fixture.products None Fixture.design Fixture.finan Fixture.struct = Ok s /\
    Scenario.eol_film_prod s = Some film /\
    Scenario.virgin_prod s + film == 1.0 * 1.0.
Proof.
  eexists.
  destruct (closed_loop_shares "Barrier Film" "Barrier film" 1.0 [] MASC
              1.0 2 Fixture.products None Fixture.design Fixture.finan
              Fixture.struct _ 0.5 ltac:(vm_compute; reflexivity)
              ltac:(left; split; reflexivity)
              ltac:(vm_compute; discriminate))
    as (film & Hfilm & _ & Hsum).
  exists film. split; [ vm_compute; reflexivity | ]. split; assumption.
Defined.

(** X18: the cycle count is not validated, and zero cycles do not reduce to
    a single pass.  For 'Mechanical and Solvent Cleaning' iterated last: a
    negative count gives a virgin production of the whole share
    [f * func_unit] and no recycled film; a count of zero gives half of the
    share as virgin production and the other half as recycled film,
    whatever the efficiency. *)
Theorem degenerate_cycle_counts
    pp product fu pre f n products sens d fin struct s e :
  Scenario.__init__ pp product fu (pre ++ [(MASC, (f, n))])%list products
    sens d fin struct = Ok s ->
  Scenario.output_efficiency (Scenario.apply_sens sens d) MASC = Ok e ->
  exists film,
    Scenario.eol_film_prod s = Some film /\
    ((n < 0)%Z -> Scenario.virgin_prod s == f * fu /\ film == 0) /\
    (n = 0%Z ->
     Scenario.virgin_prod s == f * fu / 2 /\ film == f * fu / 2).
Proof.
  intros H He.
  destruct (closed_loop_last_entry _ _ _ _ _ _ _ _ _ _ _ _ _ H e
              (or_introl (conj eq_refl He))) as (Hv & Hfilm).
  eexists. split; [ exact Hfilm | ]. rewrite Hv. split.
  - intro Hn. rewrite loop_throughput_closed_form.
    rewrite cycle_sum_negative by exact Hn. split; field.
  - intros ->. rewrite loop_throughput_closed_form.
    setoid_replace (Scenario.cycle_sum e 0) with 1 by apply cycle_sum_0.
    split; field.
Qed.

Lemma degenerate_cycle_counts_witness :
  exists s,
    Scenario.__init__ "Barrier Film" "Barrier film" 1.0
      ([] ++ [(MASC, (1.0, 0%Z))])%list
      Fixture.products None Fixture.design Fixture.finan Fixture.struct = Ok s /\
    Scenario.virgin_prod s == 1.0 * 1.0 / 2.
Proof.
  eexists. split; [ vm_compute; reflexivity | ].
  destruct (degenerate_cycle_counts "Barrier Film" "Barrier film" 1.0 []
              1.0 0 Fixture.products None Fixture.design Fixture.finan
              Fixture.struct _ 0.5 ltac:(vm_compute; reflexivity) eq_refl)
    as (film & _ & _ & Hzero).
  exact (proj1 (Hzero eq_refl)).
Defined.

(** ** Sensitivity rows *)

Lemma apply_sens_rowwise (rows design : design_table) :
  Scenario.apply_sens (Some rows) design
  = map (fun r =>
           fold_left (fun r row =>
             if (Design.Index r =? Design.Index row)
                && (Design.Technology r =? Design.Technology row)
                && (Design.Variable_ r =? Design.Variable_ row)
             then Design.mk (Design.Technology r) (Design.Variable_ r)
                            (Design.Index r) (Design.Value row)
             else r) rows r) design.
Proof.
  unfold Scenario.apply_sens. revert design.
  induction rows as [ | row rows IH ]; intro design; cbn [fold_left].
  - now rewrite map_id.
  - rewrite IH, map_map. reflexivity.
Qed.

(** X19: the sensitivity rows only replace values: the design table keeps
    its rows, in order, each with its technology, variable and index; a row
    that no sensitivity row matches on all three is unchanged; a row that
    the last sensitivity row matches takes the value of that last row,
    whatever the earlier ones set; without a sensitivity table the design
    is unchanged. *)
Theorem sensitivity_replaces_values (rows design : design_table) :
  Forall2 (fun r r' =>
             (Design.Index r' = Design.Index r /\
              Design.Technology r' = Design.Technology r /\
              Design.Variable_ r' = Design.Variable_ r) /\
             ((forall row, In row rows ->
                 ~ (Design.Index r = Design.Index row /\
                    Design.Technology r = Design.Technology row /\
                    Design.Variable_ r = Design.Variable_ row)) -> r' = r) /\
             (forall earlier last, rows = (earlier ++ [last])%list ->
                Design.Index r = Design.Index last /\
                Design.Technology r = Design.Technology last /\
                Design.Variable_ r = Design.Variable_ last ->
                Design.Value r' = Design.Value last))
    design (Scenario.apply_sens (Some rows) design) /\
  Scenario.apply_sens None design = design.
Proof.
  split; [ | reflexivity ].
  rewrite apply_sens_rowwise.
  induction design as [ | r design IH ]; cbn [map]; constructor;
    [ clear IH | exact IH ].
  set (upd := fun (r : Design.row) (row : Design.row) => _).
  assert (Hkey : forall rows r0,
            Design.Index (fold_left upd rows r0) = Design.Index r0 /\
            Design.Technology (fold_left upd rows r0) = Design.Technology r0 /\
            Design.Variable_ (fold_left upd rows r0) = Design.Variable_ r0).
  { clear. intro rows. induction rows as [ | row rows IH ]; intro r0;
      cbn [fold_left]; [ auto | ].
    destruct (IH (upd r0 row)) as (H1 & H2 & H3).
    rewrite H1, H2, H3. unfold upd. destruct (_ && _)%bool; cbn; auto. }
  split; [ apply Hkey | ]. split.
  - clear Hkey. revert r.
    induction rows as [ | row rows IH ]; intros r Hno; cbn [fold_left];
      [ reflexivity | ].
    assert (Hr : upd r row = r).
    { unfold upd. destruct (_ && _)%bool eqn:E; [ | reflexivity ].
      exfalso. apply (Hno row (or_introl eq_refl)).
      apply andb_prop in E. destruct E as [E E3].
      apply andb_prop in E. destruct E as [E1 E2].
      apply String.eqb_eq in E1, E2, E3. auto. }
    rewrite Hr. apply IH. intros row' Hin. apply Hno. now right.
  - intros earlier last -> (H1 & H2 & H3).
    rewrite fold_left_app. cbn [fold_left].
    destruct (Hkey earlier r) as (K1 & K2 & K3).
    unfold upd at 1. rewrite K1, K2, K3, H1, H2, H3, !String.eqb_refl.
    reflexivity.
Qed.

(** ** The roll-ups of a scenario *)

Lemma scenario_rollups pp product fu eol_sc products sens d fin struct s :
  Scenario.__init__ pp product fu eol_sc products sens d fin struct = Ok s ->
  Scenario.total_eol_cost s
  = py_sum (map Technology.production_cost
      (filter (fun i => negb (isin (Technology.name i)
                 ["Sheet Molding Compound"; "Barrier Film, initial"]))
         (Scenario.value_chain s))) /\
  Scenario.process_production_costs s
  = Scenario.production_costs_by_name (Scenario.value_chain s) /\
  Scenario.annual_costs_by_name (Scenario.value_chain s)
  = Ok (Scenario.process_annual_costs s).
Proof.
  unfold Scenario.__init__. cbv zeta. intro H.
  inv_bind H. inv_bind H.
  match type of H with context [bind ?m ?k fin] =>
    destruct (bind m k fin) as [r fin'] eqn:Erun end.
  cbn [fst snd] in H. inv_bind H. subst r.
  destruct (Scenario._film_to_landfill _) as [ ftl | ];
    cbn [rbind] in H; [ | discriminate H ].
  inv_bind H. injection H as <-. cbn. auto.
Qed.

Lemma dict_set_keys d k v k' :
  In k' (map fst (Scenario.dict_set d k v)) <-> k' = k \/ In k' (map fst d).
Proof.
  induction d as [ | [k0 v0] d IH ]; cbn.
  - intuition.
  - destruct (String.eqb_spec k0 k) as [-> | Hne]; cbn; [ intuition | ].
    rewrite IH. intuition.
Qed.

Lemma dict_set_NoDup d k v :
  NoDup (map fst d) -> NoDup (map fst (Scenario.dict_set d k v)).
Proof.
  induction d as [ | [k0 v0] d IH ]; cbn; intro H.
  - constructor; [ intros [] | constructor ].
  - destruct (String.eqb_spec k0 k) as [-> | Hne]; cbn; [ exact H | ].
    inversion H as [ | ? ? Hnot Hd ]; subst. constructor; [ | now apply IH ].
    rewrite dict_set_keys. intros [-> | Hin]; [ now apply Hne | now apply Hnot ].
Qed.

Lemma dict_set_same d k v : In (k, v) (Scenario.dict_set d k v).
Proof.
  induction d as [ | [k0 v0] d IH ]; cbn; [ now left | ].
  destruct (String.eqb_spec k0 k) as [-> | Hne]; [ now left | now right ].
Qed.

Lemma dict_set_other d k v k' v' :
  k' <> k -> In (k', v') d -> In (k', v') (Scenario.dict_set d k v).
Proof.
  intros Hne. induction d as [ | [k0 v0] d IH ]; cbn; [ intros [] | ].
  destruct (String.eqb_spec k0 k) as [-> | Hne0]; cbn.
  - intros [[= -> ->] | Hin]; [ now destruct Hne | now right ].
  - intros [Heq | Hin]; [ now left | right; now apply IH ].
Qed.

Lemma production_costs_fold (chain : list Technology.t) :
  forall d,
  NoDup (map fst d) ->
  let tbl := fold_left (fun d i =>
               Scenario.dict_set d (Technology.name i)
                 (Technology.production_cost i)) chain d in
  NoDup (map fst tbl) /\
  (forall n, In n (map fst tbl)
             <-> In n (map fst d) \/ In n (map Technology.name chain)) /\
  (forall n v, In (n, v) d -> ~ In n (map Technology.name chain) ->
               In (n, v) tbl) /\
  (forall before i after, chain = (before ++ i :: after)%list ->
     ~ In (Technology.name i) (map Technology.name after) ->
     In (Technology.name i, Technology.production_cost i) tbl).
Proof.
  induction chain as [ | i0 chain IH ]; intros d Hd; cbn [fold_left map].
  - cbv zeta. repeat split; try tauto.
    + intros [H | []]; exact H.
    + intros [ | ? ? ] ? ? H; discriminate H.
  - destruct (IH _ (dict_set_NoDup d (Technology.name i0)
                      (Technology.production_cost i0) Hd))
      as (Hnd & Hkeys & Hkeep & Hlast).
    cbv zeta. split; [ exact Hnd | ]. split; [ | split ].
    + intro n. rewrite Hkeys, dict_set_keys. cbn [In]. intuition.
    + intros n v Hin Hnot. apply Hkeep.
      * apply dict_set_other; [ | exact Hin ].
        intros ->. apply Hnot. now left.
      * intro Hc. apply Hnot. now right.
    + intros [ | b before ] i after Heq Hnot; cbn [app] in Heq;
        injection Heq as -> ->.
      * apply Hkeep; [ apply dict_set_same | exact Hnot ].
      * eapply Hlast; [ reflexivity | exact Hnot ].
Qed.

(** X20: the table of production costs by process has one row per distinct
    technology name of the value chain; when several instances carry the
    same name, the row holds the cost of the last of them.  (The rows then
    do not add up to the total cost.) *)
Theorem production_costs_one_row_per_name
    pp product fu eol_sc products sens d fin struct s :
  Scenario.__init__ pp product fu eol_sc products sens d fin struct = Ok s ->
  NoDup (map fst (Scenario.process_production_costs s)) /\
  (forall n, In n (map fst (Scenario.process_production_costs s))
             <-> In n (map Technology.name (Scenario.value_chain s))) /\
  (forall before i after,
     Scenario.value_chain s = (before ++ i :: after)%list ->
     ~ In (Technology.name i) (map Technology.name after) ->
     In (Technology.name i, Technology.production_cost i)
        (Scenario.process_production_costs s)).
Proof.
  intro H. apply scenario_rollups in H. destruct H as (_ & -> & _).
  destruct (production_costs_fold (Scenario.value_chain s) [] (NoDup_nil _))
    as (Hnd & Hkeys & _ & Hlast).
  split; [ exact Hnd | ]. split; [ | exact Hlast ].
  intro n. unfold Scenario.production_costs_by_name. rewrite Hkeys.
  cbn. tauto.
Qed.

Lemma production_costs_one_row_per_name_witness :
  exists s,
    Scenario.__init__ "Barrier Film" "Barrier film" 1.0
      [("Landfilling", (1.0, 0%Z))]
      Fixture.products None Fixture.design Fixture.finan Fixture.struct = Ok s /\
    NoDup (map fst (Scenario.process_production_costs s)).
Proof.
  eexists. split; [ vm_compute; reflexivity | ].
  apply (production_costs_one_row_per_name "Barrier Film" "Barrier film" 1.0
           [("Landfilling", (1.0, 0%Z))]
           Fixture.products None Fixture.design Fixture.finan Fixture.struct
           _ ltac:(vm_compute; reflexivity)).
Defined.

(** ** The two totals *)

Lemma string_length_append (a b : string) :
  String.length (a ++ b) = (String.length a + String.length b)%nat.
Proof. induction a as [ | c a IH ]; cbn; [ reflexivity | now rewrite IH ]. Qed.

Lemma string_append_inj (a c b e : string) :
  String.length b = String.length e ->
  (a ++ b)%string = (c ++ e)%string -> a = c /\ b = e.
Proof.
  revert c. induction a as [ | x a IH ]; intros [ | y c ] Hlen H; cbn in H.
  - auto.
  - exfalso. apply (f_equal String.length) in H. cbn in H.
    rewrite string_length_append in H. lia.
  - exfalso. apply (f_equal String.length) in H. cbn in H.
    rewrite string_length_append in H. lia.
  - injection H as -> H. destruct (IH c Hlen H) as [-> ->]. auto.
Qed.

Lemma initial_name_excluded (pp : string) :
  isin (pp ++ ", initial")
    ["Sheet Molding Compound"; "Barrier Film, initial"]
  = (pp =? "Barrier Film").
Proof.
  unfold isin. cbn [existsb]. rewrite Bool.orb_false_r.
  destruct (String.eqb_spec "Sheet Molding Compound" (pp ++ ", initial"))
    as [Heq | _].
  - exfalso.
    change "Sheet Molding Compound"
      with ("Sheet Molding" ++ " Compound")%string in Heq.
    apply string_append_inj in Heq; [ | reflexivity ].
    destruct Heq as [_ Heq]. discriminate Heq.
  - cbn [orb].
    destruct (String.eqb_spec "Barrier Film, initial" (pp ++ ", initial"))
      as [Heq | Hne].
    + change "Barrier Film, initial"
        with ("Barrier Film" ++ ", initial")%string in Heq.
      apply string_append_inj in Heq; [ | reflexivity ].
      destruct Heq as [<- _]. reflexivity.
    + destruct (String.eqb_spec pp "Barrier Film") as [-> | _];
        [ now destruct Hne | reflexivity ].
Qed.

Lemma balance_loop_downst design struct fu items : forall l l' dn,
  Scenario.balance_loop design struct fu l items = Ok l' ->
  Scenario._downst l' = Some dn ->
  Scenario._downst l = Some dn \/ Scenario.downstream struct STP = Ok dn.
Proof.
  induction items as [ | [key [f n]] items IH ]; intros l l' dn H Hdn.
  - cbn in H. injection H as <-. now left.
  - cbn [Scenario.balance_loop] in H. inv_bind H.
    destruct (IH _ _ _ H Hdn) as [Hd | Hd]; [ | now right ].
    destruct (String.eqb_spec key STP) as [-> | Hs].
    + apply balance_step_stp in E.
      destruct E as (e & dn0 & ed & _ & Hdn0 & _ & _ & _ & Hd0 & _).
      right. congruence.
    + left. rewrite <- Hd.
      destruct (balance_loop_keeps_strap design struct fu [(key, (f, n))]
                  l a) as (_ & Hk & _).
      * cbn. intros [Heq | []]. now apply Hs.
      * cbn [Scenario.balance_loop]. rewrite E. reflexivity.
      * now rewrite Hk.
Qed.

Lemma chain_step_names design products fu l st key f n fin st' fin' :
  Scenario.chain_step design products fu l st (key, (f, n)) fin
    = (Ok st', fin') ->
  exists added,
    Scenario.st_value_chain st' = (Scenario.st_value_chain st ++ added)%list /\
    Forall (fun t => Technology.name t = key \/
                     Scenario._downst l = Some (Technology.name t) \/
                     Technology.name t = "Landfilling, final") added.
Proof.
  intro H.
  destruct (String.eqb_spec key STP) as [-> | Hs].
  - apply chain_step_stp in H.
    destruct H as (e & p & ed & tech & dn & td & _ & _ & _ & Hdn & Ht & Htd & H).
    apply init_fields in Ht, Htd.
    destruct Ht as (Ht & _). destruct Htd as (Htd & _). subst dn.
    apply final_landfill_step_inv in H.
    destruct H as (_ & _ & _ & _ & [[_ Hc] | [_ (t & _ & Hc)]]);
      rewrite Hc, <- ?app_assoc; eexists; (split; [ reflexivity | ]);
      cbn [app]; repeat apply Forall_cons; try apply Forall_nil; auto.
  - assert (Hfl : exists tech film pe ftl,
      Technology.name tech = key /\
      Scenario.final_landfill_step design
        (Scenario.st_value_chain st ++ [tech]) film pe ftl fin
      = (Ok st', fin')).
    { destruct (String.eqb_spec key MASC) as [-> | Hm].
      - apply chain_step_masc in H.
        destruct H as (e & p & tech & _ & _ & Ht & H).
        apply init_fields in Ht. destruct Ht as (Ht & _). eauto 7.
      - apply chain_step_simple in H; try assumption.
        destruct H as (e & p & tech & _ & _ & Ht & H).
        apply init_fields in Ht. destruct Ht as (Ht & _). eauto 7. }
    destruct Hfl as (tech & film & pe & ftl & Ht & H').
    apply final_landfill_step_inv in H'.
    destruct H' as (_ & _ & _ & _ & [[_ Hc] | [_ (t & _ & Hc)]]);
      rewrite Hc, <- ?app_assoc; eexists; (split; [ reflexivity | ]);
      cbn [app]; repeat apply Forall_cons; try apply Forall_nil; auto.
Qed.

Lemma chain_loop_names design products fu l items : forall st fin st' fin',
  Scenario.chain_loop design products fu l st items fin = (Ok st', fin') ->
  exists added,
    Scenario.st_value_chain st' = (Scenario.st_value_chain st ++ added)%list /\
    Forall (fun t => In (Technology.name t) (map fst items) \/
                     Scenario._downst l = Some (Technology.name t) \/
                     Technology.name t = "Landfilling, final") added.
Proof.
  induction items as [ | [key [f n]] items IH ]; intros st fin st' fin' H.
  - cbn in H. injection H as <- <-. exists []. now rewrite app_nil_r.
  - cbn [Scenario.chain_loop] in H. apply bind_Ok_inv in H.
    destruct H as (st1 & fin1 & Hstep & H).
    apply chain_step_names in Hstep. destruct Hstep as (a1 & Hc1 & Hn1).
    apply IH in H. destruct H as (a2 & Hc2 & Hn2).
    exists (a1 ++ a2)%list. rewrite Hc2, Hc1, app_assoc.
    split; [ reflexivity | ]. apply Forall_app. split.
    + eapply Forall_impl; [ | exact Hn1 ]. cbn. intuition.
    + eapply Forall_impl; [ | exact Hn2 ]. cbn. intuition.
Qed.

Lemma filter_all {A} (p : A -> bool) (l : list A) :
  Forall (fun x => p x = true) l -> filter p l = l.
Proof.
  induction 1 as [ | x l Hx _ IH ]; cbn; [ reflexivity | ].
  now rewrite Hx, IH.
Qed.

(** X21: [total_eol_cost] leaves out the instances named 'Sheet Molding
    Compound' or 'Barrier Film, initial'.  When no technology of the
    allocation and no downstream technology of the solvent treatment has one
    of these two names, the value chain starts with the virgin-production
    instance, named [production_process + ', initial'], and the end-of-life
    total is the total cost less the cost of that instance if the production
    process is exactly 'Barrier Film'; for any other production process the
    two totals are the same sum. *)
Theorem end_of_life_total
    pp product fu eol_sc products sens d fin struct s :
  Scenario.__init__ pp product fu eol_sc products sens d fin struct = Ok s ->
  (forall key, In key (map fst eol_sc) ->
     key <> "Sheet Molding Compound" /\ key <> "Barrier Film, initial") ->
  (forall dn, Scenario.downstream struct STP = Ok dn ->
     dn <> "Sheet Molding Compound" /\ dn <> "Barrier Film, initial") ->
  exists first rest,
    Scenario.value_chain s = first :: rest /\
    Technology.name first = (pp ++ ", initial")%string /\
    Scenario.total_cost s
    == Technology.production_cost first
       + py_sum (map Technology.production_cost rest) /\
    Scenario.total_eol_cost s
    == if pp =? "Barrier Film"
       then py_sum (map Technology.production_cost rest)
       else Scenario.total_cost s.
Proof.
  intros H Hkeys Hdown.
  destruct (scenario_rollups _ _ _ _ _ _ _ _ _ _ H) as (Heol & _ & _).
  apply scenario_init_inv in H. cbv zeta in H.
  destruct H as (l & first & st & Hbal & _ & Hloop & Hchain & _ & _ & _ & _ & Htot).
  apply chain_loop_names in Hloop. destruct Hloop as (added & Hc & Hnames).
  cbn [Scenario.st_value_chain app] in Hc.
  rewrite <- Hchain in Hc.
  exists (Technology.set_name (pp ++ ", initial") first), added.
  split; [ exact Hc | ]. split; [ reflexivity | ].
  rewrite Heol, Htot, Hc. cbn [filter map Technology.set_name Technology.name].
  rewrite initial_name_excluded.
  assert (Hall : filter (fun i => negb (isin (Technology.name i)
                    ["Sheet Molding Compound"; "Barrier Film, initial"])) added
                 = added).
  { apply filter_all. eapply Forall_impl; [ | exact Hnames ].
    intros t Ht. cbn beta in Ht.
    assert (Hne : Technology.name t <> "Sheet Molding Compound" /\
                  Technology.name t <> "Barrier Film, initial").
    { destruct Ht as [Hk | [Hd | ->]].
      - now apply Hkeys.
      - destruct (balance_loop_downst _ _ _ _ _ _ _ Hbal Hd) as [Hi | Hs];
          [ discriminate Hi | now apply Hdown ].
      - split; discriminate. }
    destruct Hne as [Hn1 Hn2]. unfold isin. cbn [existsb].
    apply not_eq_sym in Hn1, Hn2. apply String.eqb_neq in Hn1, Hn2.
    now rewrite Hn1, Hn2. }
  rewrite Hall. split; [ apply py_sum_cons | ].
  destruct (pp =? "Barrier Film"); cbn [negb map]; reflexivity.
Qed.

Lemma end_of_life_total_witness :
  exists s first rest,
    Scenario.__init__ "Barrier Film" "Barrier film" 1.0
      [("Landfilling", (1.0, 0%Z))]
      Fixture.products None Fixture.design Fixture.finan Fixture.struct = Ok s /\
    Scenario.value_chain s = first :: rest /\
    Scenario.total_eol_cost s == py_sum (map Technology.production_cost rest).
Proof.
  eexists.
  destruct (end_of_life_total "Barrier Film" "Barrier film" 1.0
              [("Landfilling", (1.0, 0%Z))]
              Fixture.products None Fixture.design Fixture.finan Fixture.struct
              _ ltac:(vm_compute; reflexivity))
    as (first & rest & Hc & _ & _ & He).
  - intros key [<- | []]. split; discriminate.
  - intros dn Hdn. vm_compute in Hdn. injection Hdn as <-. split; discriminate.
  - exists first, rest. split; [ vm_compute; reflexivity | ].
    split; [ exact Hc | exact He ].
Defined.

(** ** The table of annual costs *)

Lemma annual_table_columns (chain : list Technology.t) (m : nat) :
  Forall (fun i => List.length (Technology.annual_costs i) = m) chain ->
  map (fun row : string * string * val => fst (fst row))
    (flat_map (fun i =>
       map (fun r => (Technology.name i, fst r, snd r))
           (Technology.annual_costs i)) chain)
  = flat_map (fun i => repeat (Technology.name i) m) chain /\
  map (fun row : string * string * val => (snd (fst row), snd row))
    (flat_map (fun i =>
       map (fun r => (Technology.name i, fst r, snd r))
           (Technology.annual_costs i)) chain)
  = flat_map Technology.annual_costs chain.
Proof.
  induction 1 as [ | i chain Hi _ IH ]; [ split; reflexivity | ].
  destruct IH as [IH1 IH2].
  cbn [flat_map]. rewrite !map_app, !map_map, IH1, IH2. cbn [fst snd].
  split; f_equal.
  - rewrite <- Hi. clear. induction (Technology.annual_costs i); cbn;
      [ reflexivity | now f_equal ].
  - clear. induction (Technology.annual_costs i) as [ | [a b] rows IH ]; cbn;
      [ reflexivity | now f_equal ].
Qed.

(** X22: a scenario is built only when all the instances of its value chain
    report the same number [m] of annual-cost lines, which is at least
    eight; the table of annual costs by process then has [m] rows per
    instance, in the order of the chain, each labelled with the name of its
    instance. *)
Theorem annual_costs_table_rows
    pp product fu eol_sc products sens d fin struct s :
  Scenario.__init__ pp product fu eol_sc products sens d fin struct = Ok s ->
  exists m,
    (8 <= m)%nat /\
    Forall (fun i => List.length (Technology.annual_costs i) = m)
      (Scenario.value_chain s) /\
    map (fun row => fst (fst row)) (Scenario.process_annual_costs s)
    = flat_map (fun i => repeat (Technology.name i) m) (Scenario.value_chain s) /\
    map (fun row => (snd (fst row), snd row)) (Scenario.process_annual_costs s)
    = flat_map Technology.annual_costs (Scenario.value_chain s).
Proof.
  intro H.
  destruct (scenario_rollups _ _ _ _ _ _ _ _ _ _ H) as (_ & _ & Hann).
  apply scenario_init_inv in H. cbv zeta in H.
  destruct H as (l & first & st & _ & Hfirst & Hloop & Hchain & _).
  apply chain_loop_extends in Hloop. destruct Hloop as (added & Hc).
  cbn [Scenario.st_value_chain app] in Hc. rewrite <- Hchain in Hc.
  apply init_Ok in Hfirst. destruct Hfirst as [_ Hfirst].
  assert (Hlen : (8 <= List.length (Technology.annual_costs first))%nat).
  { unfold Technology.evaluate in Hfirst. cbv zeta in Hfirst.
    repeat inv_bind Hfirst. injection Hfirst as <-.
    repeat match goal with
    | E : Technology.capital _ _ = Ok _ |- _ => apply capital_labels in E
    | E : Technology.raw_material _ _ _ _ = Ok _ |- _ =>
      apply raw_material_labels in E
    | E : Technology.labor _ _ = Ok _ |- _ => apply labor_labels in E
    | E : Technology.utilities _ _ _ = Ok _ |- _ => apply utilities_labels in E
    | E : Technology.wastes _ _ _ _ = Ok _ |- _ => apply wastes_labels in E
    | E : Technology.other_costs _ _ _ = Ok _ |- _ =>
      apply other_costs_labels in E; destruct E as (k & E)
    end.
    cbn [Technology.annual_costs].
    repeat match goal with
    | E : map fst _ = _ |- _ => apply (f_equal (@List.length string)) in E;
                                rewrite length_map in E
    end.
    rewrite !length_app.
    repeat match goal with
    | E : List.length _ = _ |- _ => rewrite E; clear E
    end.
    cbn. lia. }
  exists (List.length (Technology.annual_costs first)).
  split; [ exact Hlen | ].
  unfold Scenario.annual_costs_by_name in Hann. rewrite Hc in Hann |- *.
  cbn [Technology.set_name Technology.annual_costs] in Hann.
  match type of Hann with
  | (if ?b then _ else _) = _ => destruct b eqn:Eall; [ | discriminate Hann ]
  end.
  injection Hann as <-.
  rewrite forallb_forall in Eall.
  assert (Hsame : Forall (fun i => List.length (Technology.annual_costs i)
                                   = List.length (Technology.annual_costs first))
                    (Technology.set_name (pp ++ ", initial") first :: added)).
  { apply Forall_forall. intros i Hi. apply Nat.eqb_eq. now apply Eall. }
  split; [ exact Hsame | ].
  exact (annual_table_columns _ _ Hsame).
Qed.

Lemma annual_costs_table_rows_witness :
  exists s m,
    Scenario.__init__ "Barrier Film" "Barrier film" 1.0
      [("Landfilling", (1.0, 0%Z))]
      Fixture.products None Fixture.design Fixture.finan Fixture.struct = Ok s /\
    (8 <= m)%nat /\
    Forall (fun i => List.length (Technology.annual_costs i) = m)
      (Scenario.value_chain s).
Proof.
  eexists.
  destruct (annual_costs_table_rows "Barrier Film" "Barrier film" 1.0
              [("Landfilling", (1.0, 0%Z))]
              Fixture.products None Fixture.design Fixture.finan Fixture.struct
              _ ltac:(vm_compute; reflexivity))
    as (m & Hm & Hall & _).
  exists m. split; [ vm_compute; reflexivity | ]. split; assumption.
Defined.

(** ** Revenue lines *)

Lemma merge_left_In {A B} (left : list (string * A))
    (right : list (string * B)) c :
  In c (merge_left left right) ->
  In (fst (fst c), snd (fst c)) left /\
  ((snd c = None /\ forall r, In r right -> fst r <> fst (fst c)) \/
   exists y, snd c = Some y /\ In (fst (fst c), y) right).
Proof.
  unfold merge_left. intro H. apply in_flat_map in H.
  destruct H as ([k x] & Hl & H). cbn [fst snd] in H.
  destruct (filter (fun r => fst r =? k) right) as [ | r0 rs ] eqn:Ef.
  - destruct H as [<- | []]. cbn. split; [ exact Hl | left ].
    split; [ reflexivity | ].
    intros r Hr. apply String.eqb_neq.
    exact (proj1 (filter_nil_iff _ _) Ef r Hr).
  - apply in_map_iff in H. destruct H as ([k' y] & <- & Hr).
    rewrite <- Ef in Hr. apply filter_In in Hr. destruct Hr as (Hr & Heq).
    apply String.eqb_eq in Heq. cbn in *. subst k'.
    split; [ exact Hl | right ]. eauto.
Qed.

(** X23: the three technologies 'Barrier Film', 'Mechanical and Solvent
    Cleaning' and 'Solvent Treatment and Precipitation' are never credited
    for their primary product, and every other technology is credited for
    nothing else.  Each revenue line of an evaluated technology belongs to
    one of its output lines, whose index is the primary product exactly
    when the technology is not one of the three; its value is the actual
    amount of that line times an 'Output' price of the same index, or
    missing (NaN) when the financial table has no such price. *)
Theorem revenue_lines name product sd output fin t :
  Technology.evaluate name product sd output fin = Ok t ->
  forall line, In line (Technology.annual_revenue t) ->
    (if isin name ["Barrier Film"; MASC; STP]
     then fst line <> product else fst line = product) /\
    exists o,
      In o (Technology.output_amounts t) /\
      Technology.Index o = fst line /\
      ((snd line = None /\
        forall r, In r fin -> Finan.Variable_ r = "Output" ->
                  Finan.Index r <> fst line) \/
       exists r, In r fin /\ Finan.Variable_ r = "Output" /\
                 Finan.Index r = fst line /\
                 snd line = Some (Finan.Value r * Technology.Actual o)).
Proof.
  intros H line Hline.
  rewrite (evaluate_revenue _ _ _ _ _ _ H) in Hline.
  assert (Hrev : forall p,
    In line (Technology.revenue_of fin
               (filter p (Technology.output_amounts t))) ->
    exists o,
      (In o (Technology.output_amounts t) /\ p o = true) /\
      Technology.Index o = fst line /\
      ((snd line = None /\
        forall r, In r fin -> Finan.Variable_ r = "Output" ->
                  Finan.Index r <> fst line) \/
       exists r, In r fin /\ Finan.Variable_ r = "Output" /\
                 Finan.Index r = fst line /\
                 snd line = Some (Finan.Value r * Technology.Actual o))).
  { intros p Hin. unfold Technology.revenue_of in Hin.
    destruct (filter p (Technology.output_amounts t)) as [ | o0 os ] eqn:Ef;
      [ destruct Hin | ].
    rewrite <- Ef in Hin. clear Ef o0 os.
    apply in_map_iff in Hin. destruct Hin as ([[k o] v] & <- & Hc).
    apply merge_left_In in Hc. cbn [fst snd] in Hc |- *.
    destruct Hc as (Hl & Hr).
    apply in_map_iff in Hl. destruct Hl as (o' & [= <- ->] & Ho).
    apply filter_In in Ho. exists o. split; [ exact Ho | ].
    split; [ reflexivity | ].
    destruct Hr as [(-> & Hno) | (y & -> & Hy)].
    - left. split; [ reflexivity | ].
      intros r Hr Hv. apply (Hno (Finan.Index r, Finan.Value r)).
      unfold Technology.finan_var, finan_iv. apply in_map_iff.
      exists r. split; [ reflexivity | ]. apply filter_In.
      split; [ exact Hr | now apply String.eqb_eq ].
    - right. unfold Technology.finan_var, finan_iv in Hy.
      apply in_map_iff in Hy. destruct Hy as (r & [= Hi Hv] & Hr).
      apply filter_In in Hr. destruct Hr as (Hr & Hvar).
      apply String.eqb_eq in Hvar. exists r. rewrite <- Hv. auto. }
  destruct (isin name ["Barrier Film"; MASC; STP]); cbn [negb] in Hline.
  - apply Hrev in Hline.
    destruct Hline as (o & (Ho & Hp) & Hi & Hv).
    split; [ | eauto ].
    rewrite <- Hi. apply String.eqb_neq.
    now destruct (Technology.Index o =? product).
  - apply Hrev in Hline.
    destruct Hline as (o & (Ho & Hp) & Hi & Hv).
    split; [ | eauto ].
    rewrite <- Hi. now apply String.eqb_eq.
Qed.

Lemma revenue_lines_witness :
  exists t,
    Technology.evaluate STP "Polyethylene"
      (filter (fun r => Design.Technology r =? STP) Fixture.design)
      1.0 Fixture.finan = Ok t /\
    In ("Nylon 6", Some (1 * (40 * 0.8 * 8000)))
       (Technology.annual_revenue t) /\
    "Nylon 6" <> "Polyethylene".
Proof.
  eexists. split; [ vm_compute; reflexivity | ].
  split; [ left; reflexivity | ].
  exact (proj1 (revenue_lines STP "Polyethylene"
           (filter (fun r => Design.Technology r =? STP) Fixture.design)
           1.0 Fixture.finan _ ltac:(vm_compute; reflexivity)
           ("Nylon 6", Some (1 * (40 * 0.8 * 8000)))
           ltac:(left; reflexivity))).
Defined.

(** ** Unpriced utilities *)

Lemma merge_no_match {A B} (left : list (string * A))
    (right : list (string * B)) :
  (forall l r, In l left -> In r right -> fst r <> fst l) ->
  merge left right = [].
Proof.
  intro Hno. destruct (merge left right) as [ | c cs ] eqn:E; [ reflexivity | ].
  exfalso.
  destruct (merge_In left right c) as [Hl Hr];
    [ rewrite E; now left | ].
  exact (Hno _ _ Hl Hr eq_refl).
Qed.

(** X24: utilities are priced through an inner merge, so a utility of the
    design that has no 'Utilities' price of the same index in the financial
    table is dropped without an error.  When none of them is priced, the
    'Utilities' line is the empty sum times the operating hours, that is
    zero. *)
Theorem unpriced_utilities_cost_nothing design finan h :
  (forall r p, In r design -> Design.Variable_ r = "Utilities" ->
               In p finan -> Finan.Variable_ p = "Utilities" ->
               Finan.Index p <> Design.Index r) ->
  exists v,
    Technology.utilities design finan [h] = Ok [("Utilities", Some v)] /\
    v == 0.
Proof.
  intro Hno. unfold Technology.utilities. cbv zeta.
  rewrite merge_no_match.
  - eexists. split; [ reflexivity | ]. cbn. ring.
  - intros l r Hl Hr.
    unfold Technology.design_var, design_iv in Hl.
    unfold Technology.finan_var, finan_iv in Hr.
    apply in_map_iff in Hl. destruct Hl as (dr & <- & Hd).
    apply in_map_iff in Hr. destruct Hr as (fr & <- & Hf).
    apply filter_In in Hd, Hf.
    destruct Hd as (Hd & Hdv). destruct Hf as (Hf & Hfv).
    apply String.eqb_eq in Hdv, Hfv. cbn. now apply Hno.
Qed.

Lemma unpriced_utilities_cost_nothing_witness :
  exists v,
    Technology.utilities
      [Design.mk "Pelletizing" "Utilities" "Steam" 10]
      Fixture.finan [8000]
    = Ok [("Utilities", Some v)] /\
    v == 0.
Proof.
  apply (unpriced_utilities_cost_nothing
           [Design.mk "Pelletizing" "Utilities" "Steam" 10]
           Fixture.finan 8000).
  intros r p [<- | []] _ Hp Hv. cbn [Design.Index]. vm_compute in Hp.
  repeat (destruct Hp as [<- | Hp];
          [ first [ discriminate | cbn in Hv; discriminate Hv ] | ]).
  destruct Hp.
Defined.
